(** * HRDR-BPR: the forward graph and the weight materializer

    A shallow embedding of [cornac/models/hrdr/hrdr_bpr.py] (class [Model]:
    the constructor that initialises the word-embedding table and wires the
    Keras graph, and [get_weights]).

    Scalars are real numbers (the idealised arithmetic of the float32
    tensors), tensors are nested lists with the batch axis outermost, and
    Python exceptions are an explicit error result. *)

From Stdlib Require Import String DecimalString.
From Stdlib Require Import Reals Lra Lia Bool Arith ZArith List.
Import ListNotations.

Open Scope R_scope.

(** ** Tensors *)

Abbreviation vec := (list R) (only parsing).                        (* rank 1 *)
Abbreviation mat := (list (list R)) (only parsing).                 (* rank 2 *)
Abbreviation ten3 := (list (list (list R))) (only parsing).         (* rank 3 *)
Abbreviation ten4 := (list (list (list (list R)))) (only parsing).  (* rank 4 *)

(** ** Python exceptions *)

Inductive exn : Type :=
| AttributeError
| ValueError
| IndexError
| InvalidArgumentError.

Inductive result (A : Type) : Type :=
| Ok (a : A)
| Raise (e : exn).
Arguments Ok {A} a.
Arguments Raise {A} e.

Definition bind {A B : Type} (m : result A) (k : A -> result B) : result B :=
  match m with
  | Ok a => k a
  | Raise e => Raise e
  end.

Notation "x <- m ;; k" := (bind m (fun x => k))
  (at level 61, m at next level, right associativity).
Notation "' p <- m ;; k" := (bind m (fun x => let p := x in k))
  (at level 61, p pattern, m at next level, right associativity).

(** ** Array operations ([np.*]) *)

Module np.

Definition zeros (n : nat) : vec := repeat 0 n.
Definition zeros2 (r c : nat) : mat := repeat (zeros c) r.

(** Row [idx] of [M] overwritten by [r] ([idx] within bounds). *)
Fixpoint replace_row (idx : nat) (r : vec) (M : mat) : mat :=
  match M, idx with
  | [], _ => []
  | _ :: rest, O => r :: rest
  | row :: rest, S k => row :: replace_row k r rest
  end.

Fixpoint chunks (width count : nat) (flat : vec) : mat :=
  match count with
  | O => []
  | S c => firstn width flat :: chunks width c (skipn width flat)
  end.

(** [X.reshape(rows, cols)] of a rank-3 array *)
Definition reshape2 (rows cols : nat) (X : ten3) : result mat :=
  let flat := concat (concat X) in
  if (length flat =? rows * cols)%nat then Ok (chunks cols rows flat)
  else Raise ValueError.

(** [P[ids] = rows]: one row per index, a repeated index keeps the last
    row, an index outside [P] is an [IndexError]. *)
Fixpoint scatter_rows (ids : list nat) (rows : mat) (P : mat) : result mat :=
  match ids, rows with
  | id :: ids', row :: rows' =>
      if (id <? length P)%nat then scatter_rows ids' rows' (replace_row id row P)
      else Raise IndexError
  | _, _ => Ok P
  end.

(** [A[ids, :width] = rows] with [width] the width of [rows]: the leading
    columns of the indexed rows are overwritten. *)
Fixpoint scatter_prefix (ids : list nat) (rows : mat) (A : mat) : result mat :=
  match ids, rows with
  | id :: ids', row :: rows' =>
      match nth_error A id with
      | Some old =>
          scatter_prefix ids' rows'
                         (replace_row id (row ++ skipn (length row) old) A)
      | None => Raise IndexError
      end
  | _, _ => Ok A
  end.

(** [A[ids, :width] = rows] for an array [A] with [ncols] columns and a
    value of shape (length rows, width): the value must broadcast to the
    (length ids, min width ncols) target. *)
Definition assign_columns (ncols : nat) (ids : list nat) (width : nat)
           (rows : mat) (A : mat) : result mat :=
  if negb ((length rows =? length ids) || (length rows =? 1))%nat
  then Raise ValueError
  else if negb ((width <=? ncols) || (width =? 1))%nat
  then Raise ValueError
  else
    let rows' := if (length rows =? length ids)%nat then rows
                 else repeat (hd [] rows) (length ids) in
    scatter_prefix ids (map (firstn ncols) rows') A.

End np.

(** ** Collaborators that live outside this file

    [get_rng] and [uniform] come from [cornac.utils]; only their call
    signatures are visible in the constructor. *)

Class Utils : Type := {
  RandomState : Type;
  get_rng : Z -> RandomState;
  (* uniform(shape=(rows, cols), low, high, random_state) *)
  uniform : nat -> nat -> R -> R -> RandomState -> mat;
  uniform_rows : forall r c lo hi s, length (uniform r c lo hi s) = r
}.

(** ** The word-embedding table (constructor, lines 35-50) *)

Module Embedding.

(** [vocab.size] and [vocab.tok2idx.items()] in iteration order. *)
Record Vocabulary : Type := {
  size : nat;
  tok2idx : list (string * nat)
}.

(** [pretrained_word_embeddings.get(word)] *)
Definition Pretrained := string -> option vec.

Section WithUtils.
Context {U : Utils}.

(** [if seed is not None: self.rng = get_rng(seed)] : the attribute exists
    only on that branch. *)
Definition assign_rng (seed : option Z) : option RandomState :=
  match seed with
  | Some s => Some (get_rng s)
  | None => None
  end.

(** Reading [self.rng]. *)
Definition self_rng (attr : option RandomState) : result RandomState :=
  match attr with
  | Some r => Ok r
  | None => Raise AttributeError
  end.

(** [embedding_matrix[:4, :] = np.zeros((4, embedding_size))]: the slice has
    [min 4 n_vocab] rows and a (4, E) block does not broadcast into fewer. *)
Definition zero_special_rows (E : nat) (M : mat) : result mat :=
  if (length M <? 4)%nat then Raise ValueError
  else Ok (np.zeros2 4 E ++ skipn 4 M).

(** Broadcasting a 1-d value into a row of width [E]. *)
Definition broadcast_row (E : nat) (v : vec) : result vec :=
  if (length v =? E)%nat then Ok v
  else match v with
       | [x] => Ok (repeat x E)
       | _ => Raise ValueError
       end.

(** [embedding_matrix[idx] = embedding_vector] *)
Definition set_row (E idx : nat) (v : vec) (M : mat) : result mat :=
  if (idx <? length M)%nat then
    r <- broadcast_row E v ;;
    Ok (np.replace_row idx r M)
  else Raise IndexError.

(** The loop over [vocab.tok2idx.items()], carrying the matrix and
    [oov_count]. *)
Fixpoint override (E : nat) (pre : Pretrained) (items : list (string * nat))
         (M : mat) (oov_count : nat) : result (mat * nat) :=
  match items with
  | [] => Ok (M, oov_count)
  | (word, idx) :: rest =>
      match pre word with
      | Some embedding_vector =>
          M' <- set_row E idx embedding_vector M ;;
          override E pre rest M' oov_count
      | None => override E pre rest M (S oov_count)
      end
  end.

(** ["Number of OOV words: %d" % oov_count] *)
Definition oov_message (oov_count : nat) : string :=
  ("Number of OOV words: " ++ NilEmpty.string_of_uint (Nat.to_uint oov_count))%string.

(** The matrix right after the default initialisation (lines 39-40). *)
Definition default_init (attr : option RandomState) (vocab : Vocabulary)
           (E : nat) : result mat :=
  rs <- self_rng attr ;;
  zero_special_rows E (uniform (size vocab) E (-0.5) 0.5 rs).

(** Lines 41-50: the optional override and what it prints. *)
Definition apply_pretrained (vocab : Vocabulary) (E : nat)
           (pretrained : option Pretrained) (verbose : bool) (M : mat)
  : result (mat * list string) :=
  match pretrained with
  | None => Ok (M, [])
  | Some pre =>
      '(M', oov_count) <- override E pre (tok2idx vocab) M 0%nat ;;
      Ok (M', if verbose then [oov_message oov_count] else [])
  end.

(** Lines 35-50 together: the embedding table handed to
    [initializers.Constant] and the lines written to stdout. *)
Definition embedding_matrix (seed : option Z) (vocab : Vocabulary) (E : nat)
           (pretrained : option Pretrained) (verbose : bool)
  : result (mat * list string) :=
  M <- default_init (assign_rng seed) vocab E ;;
  apply_pretrained vocab E pretrained verbose M.

End WithUtils.
End Embedding.

(** ** TensorFlow and the other collaborators of the graph

    The state of TensorFlow's random generator is threaded explicitly.
    [TextProcessor] is the review encoder of [..narre.narre]; the graph only
    calls it, on the embedded tokens and the Keras mask that
    [mask_zero=True] attaches to them. *)

Record TextProcessorConfig : Type := {
  tp_max_text_length : nat;
  tp_filters : nat;
  tp_kernel_sizes : list nat;
  tp_dropout_rate : R
}.

Class Backend : Type := {
  tf_random : Type;
  (* [n] keep/drop draws of a dropout with the given rate *)
  random_keep : R -> nat -> tf_random -> list bool * tf_random;
  random_keep_length :
    forall rate n s, length (fst (random_keep rate n s)) = n;
  TextProcessorWeights : Type;
  (* TextProcessor(config)(embedded, training=...) *)
  TextProcessor_call :
    TextProcessorConfig -> TextProcessorWeights -> bool ->
    ten4 -> list (list (list bool)) ->
    tf_random -> result (ten3 * tf_random)
}.

(** ** Graph execution: errors and the generator state *)

Section Exec.
Context {TF : Backend}.

Definition M (A : Type) : Type := tf_random -> result (A * tf_random).

Definition ret {A : Type} (a : A) : M A := fun s => Ok (a, s).

Definition bindM {A B : Type} (m : M A) (k : A -> M B) : M B :=
  fun s => match m s with
           | Ok (a, s') => k a s'
           | Raise e => Raise e
           end.

Definition lift {A : Type} (r : result A) : M A :=
  fun s => match r with
           | Ok a => Ok (a, s)
           | Raise e => Raise e
           end.

Fixpoint mapM_M {A B : Type} (f : A -> M B) (l : list A) : M (list B) :=
  match l with
  | [] => ret []
  | a :: rest =>
      bindM (f a) (fun b => bindM (mapM_M f rest) (fun bs => ret (b :: bs)))
  end.

End Exec.

Notation "x <~ m ;; k" := (bindM m (fun x => k))
  (at level 61, m at next level, right associativity).
Notation "' p <~ m ;; k" := (bindM m (fun x => let p := x in k))
  (at level 61, p pattern, m at next level, right associativity).

Fixpoint mapM {A B : Type} (f : A -> result B) (l : list A) : result (list B) :=
  match l with
  | [] => Ok []
  | a :: rest => b <- f a ;; bs <- mapM f rest ;; Ok (b :: bs)
  end.

(** ** Tensor operations ([tf.*]) *)

Module tf.

Definition cast (b : bool) : R := if b then 1 else 0.

Fixpoint zipM {A B C : Type} (f : A -> B -> result C)
         (xs : list A) (ys : list B) : result (list C) :=
  match xs, ys with
  | x :: xs', y :: ys' => c <- f x y ;; cs <- zipM f xs' ys' ;; Ok (c :: cs)
  | _, _ => Ok []
  end.

(** Broadcasting along one axis: equal sizes, or one side of size 1. *)
Definition broadcast {A B C : Type} (f : A -> B -> result C)
           (xs : list A) (ys : list B) : result (list C) :=
  if (length xs =? length ys)%nat then zipM f xs ys
  else match xs, ys with
       | [x], _ => mapM (f x) ys
       | _, [y] => mapM (fun x => f x y) xs
       | _, _ => Raise InvalidArgumentError
       end.

Definition broadcast3 {A B C : Type} (f : A -> B -> C)
           (X : list (list (list A))) (Y : list (list (list B)))
  : result (list (list (list C))) :=
  broadcast (broadcast (broadcast (fun x y => Ok (f x y)))) X Y.

(** [tf.multiply] on rank-3 tensors *)
Definition multiply (X Y : ten3) : result ten3 := broadcast3 Rmult X Y.

(** [tf.expand_dims(X, 1)] on a rank-2 tensor *)
Definition expand_dims_1 {A : Type} (X : list (list A)) : list (list (list A)) :=
  map (fun row => [row]) X.

(** [tf.expand_dims(X, -1)] on a rank-2 tensor *)
Definition expand_dims_last {A : Type} (X : list (list A)) : list (list (list A)) :=
  map (map (fun x => [x])) X.

(** [tf.sequence_mask(lengths, maxlen)]; without [maxlen] the mask is as
    wide as the largest length. *)
Definition sequence_mask (lengths : list nat) (maxlen : option nat)
  : list (list bool) :=
  let m := match maxlen with
           | Some m => m
           | None => fold_right Nat.max 0%nat lengths
           end in
  map (fun len => map (fun k => (k <? len)%nat) (seq 0 m)) lengths.

Definition sum (v : vec) : R := fold_right Rplus 0 v.

Definition column (c : nat) (X : mat) : vec := map (fun row => nth c row 0) X.

(** Element-wise sum of two rows. *)
Fixpoint vadd (x y : vec) : vec :=
  match x, y with
  | a :: x', b :: y' => (a + b) :: vadd x' y'
  | _, _ => []
  end.

(** [tf.reduce_sum(X, 1)] on a rank-3 tensor. For an empty axis TensorFlow
    gives the zero row; the dense layer that consumes the result maps the
    empty row and the zero row to the same output. *)
Definition reduce_sum_1 (X : ten3) : mat :=
  map (fun Xb => match Xb with
                 | [] => []
                 | row :: rest => fold_left vadd rest row
                 end) X.

(** [tf.reduce_mean] over every element of a rank-3 tensor *)
Definition reduce_mean (X : ten3) : R :=
  let flat := concat (concat X) in
  sum flat / INR (length flat).

(** [tf.nn.softmax(X, axis=1)] on a rank-3 tensor *)
Definition softmax_axis1 (X : ten3) : ten3 :=
  map (fun Xb =>
         map (fun row =>
                map (fun c => exp (nth c row 0) / sum (map exp (column c Xb)))
                    (seq 0 (length row)))
             Xb)
      X.

(** [tf.nn.sigmoid] *)
Definition sigmoid (x : R) : R := 1 / (1 + exp (- x)).

Definition map3 {A B : Type} (f : A -> B) (X : list (list (list A)))
  : list (list (list B)) := map (map (map f)) X.

End tf.

(** ** Keras layers *)

Module keras.

Inductive activation : Type := linear | relu.

Definition activate (a : activation) (x : R) : R :=
  match a with
  | linear => x
  | relu => Rmax x 0
  end.

Record DenseWeights : Type := {
  kernel : mat;   (* input width x units *)
  bias : vec      (* units *)
}.

(** [layers.Dense(units, activation=..., use_bias=...)] with its weights *)
Record Dense : Type := {
  units : nat;
  activation_of : activation;
  use_bias : bool;
  dense_weights : DenseWeights
}.

(** Entry [j] of [x . kernel] *)
Definition matvec_entry (x : vec) (K : mat) (j : nat) : R :=
  fold_right (fun xr acc => fst xr * nth j (snd xr) 0 + acc) 0 (combine x K).

Definition Dense_call (l : Dense) (x : vec) : vec :=
  map (fun j =>
         let z := matvec_entry x (kernel (dense_weights l)) j in
         let z := if use_bias l then z + nth j (bias (dense_weights l)) 0 else z in
         activate (activation_of l) z)
      (seq 0 (units l)).

(** A dense layer acts on the last axis. *)
Definition Dense_call2 (l : Dense) (X : mat) : mat := map (Dense_call l) X.
Definition Dense_call3 (l : Dense) (X : ten3) : ten3 := map (Dense_call2 l) X.

Record BatchNormWeights : Type := {
  gamma : vec;
  beta : vec;
  moving_mean : vec;
  moving_variance : vec
}.

(** Defaults of [layers.BatchNormalization()] *)
Definition bn_epsilon : R := 0.001.
Definition bn_momentum : R := 0.99.

Definition mean (v : vec) : R := tf.sum v / INR (length v).

Definition variance (v : vec) : R :=
  let m := mean v in mean (map (fun x => (x - m) * (x - m)) v).

Definition normalize (w : BatchNormWeights) (mu var : vec) (row : vec) : vec :=
  map (fun j =>
         nth j (gamma w) 0 * ((nth j row 0 - nth j mu 0)
                              / sqrt (nth j var 0 + bn_epsilon))
         + nth j (beta w) 0)
      (seq 0 (length row)).

Definition moving_update (moving batch : vec) : vec :=
  map (fun mb => fst mb * bn_momentum + snd mb * (1 - bn_momentum))
      (combine moving batch).

(** Batch normalisation over the batch axis of a (batch, features) tensor:
    batch statistics and a moving-average update in training mode, the
    stored moving statistics otherwise. *)
Definition BatchNormalization_call (training : bool) (w : BatchNormWeights)
           (X : mat) : mat * BatchNormWeights :=
  if training then
    let features := seq 0 (length (gamma w)) in
    let mu := map (fun j => mean (tf.column j X)) features in
    let var := map (fun j => variance (tf.column j X)) features in
    (map (normalize w mu var) X,
     {| gamma := gamma w;
        beta := beta w;
        moving_mean := moving_update (moving_mean w) mu;
        moving_variance := moving_update (moving_variance w) var |})
  else
    (map (normalize w (moving_mean w) (moving_variance w)) X, w).

(** The layers a [keras.models.Sequential] is built from here *)
Inductive Layer : Type :=
| LDense (l : Dense)
| LBatchNormalization (w : BatchNormWeights).

Definition Layer_call (training : bool) (l : Layer) (X : mat) : mat * Layer :=
  match l with
  | LDense d => (Dense_call2 d X, l)
  | LBatchNormalization w =>
      let (Y, w') := BatchNormalization_call training w X in
      (Y, LBatchNormalization w')
  end.

(** Calling a [Sequential]: the output and the layers with their state
    after the call. *)
Fixpoint Sequential_call (training : bool) (layers : list Layer) (X : mat)
  : mat * list Layer :=
  match layers with
  | [] => (X, [])
  | l :: rest =>
      let (Y, l') := Layer_call training l X in
      let (Z, rest') := Sequential_call training rest Y in
      (Z, l' :: rest')
  end.

(** Two layers with the same trainable weights: they may differ in the
    moving statistics of a batch normalisation only. *)
Definition same_trainable (l l' : Layer) : Prop :=
  match l, l' with
  | LDense d, LDense d' => d = d'
  | LBatchNormalization w, LBatchNormalization w' =>
      gamma w = gamma w' /\ beta w = beta w'
  | _, _ => False
  end.

(** [layers.Embedding] lookup of one index; an index outside the table is
    an [InvalidArgumentError]. *)
Definition Embedding_lookup (table : mat) (id : nat) : result vec :=
  match nth_error table id with
  | Some row => Ok row
  | None => Raise InvalidArgumentError
  end.

(** Embedding of a (batch, 1) tensor of indices: (batch, 1, width) *)
Definition Embedding_call (table : mat) (ids : list nat) : result ten3 :=
  mapM (fun id => row <- Embedding_lookup table id ;; Ok [row]) ids.

(** Embedding of a (batch, reviews, tokens) tensor with [mask_zero=True]:
    the embedded tensor and the mask of the non-zero tokens. *)
Definition Embedding_call3 (table : mat) (tokens : list (list (list nat)))
  : result (ten4 * list (list (list bool))) :=
  E <- mapM (mapM (mapM (Embedding_lookup table))) tokens ;;
  Ok (E, tf.map3 (fun t => negb (t =? 0)%nat) tokens).

(** [layers.Softmax(axis=1)(inputs, mask)]: a large negative number is added
    at the masked positions, then the softmax is taken. *)
Definition Softmax_axis1 (inputs : ten3) (mask : list (list (list bool)))
  : result ten3 :=
  masked <- tf.broadcast3 (fun x m => x + (1 - tf.cast m) * (-1e9)) inputs mask ;;
  Ok (tf.softmax_axis1 masked).

(** [layers.Multiply()([X, Y])] *)
Definition Multiply (X Y : ten3) : result ten3 := tf.multiply X Y.

(** [layers.Add()([X, Y, Z])]: the inputs are added from left to right. *)
Definition Add3 (X Y Z : ten3) : result ten3 :=
  XY <- tf.broadcast3 Rplus X Y ;;
  tf.broadcast3 Rplus XY Z.

(** [layers.Concatenate(axis=-1)([X, Y, Z])]: the inputs must agree on the
    first two axes. *)
Definition Concatenate3 (X Y Z : ten3) : result ten3 :=
  if ((length X =? length Y) && (length Y =? length Z))%nat then
    tf.zipM (fun xy z =>
               if ((length (fst xy) =? length (snd xy))
                   && (length (snd xy) =? length z))%nat
               then Ok (map (fun r => fst (fst r) ++ snd (fst r) ++ snd r)
                            (combine (combine (fst xy) (snd xy)) z))
               else Raise InvalidArgumentError)
            (combine X Y) Z
  else Raise InvalidArgumentError.

Section WithBackend.
Context {TF : Backend}.

(** [layers.Dropout(rate)(x, training=...)] on one row: kept entries are
    scaled by [1 / (1 - rate)], the others are zero. *)
Definition Dropout_row (rate : R) (training : bool) (x : vec) : M vec :=
  fun s =>
    if training then
      let (keep, s') := random_keep rate (length x) s in
      Ok (map (fun xk : R * bool => if snd xk then fst xk / (1 - rate) else 0)
              (combine x keep), s')
    else Ok (x, s).

Definition Dropout_call (rate : R) (training : bool) (X : mat) : M mat :=
  mapM_M (Dropout_row rate training) X.

End WithBackend.

End keras.

(** ** The data provider ([train_set] and [get_data] of [.hrdr]) *)

Inductive by_kind : Type := by_user | by_item.

Class DataProvider : Type := {
  Dataset : Type;
  (* train_set.user_iter(batch_size), train_set.item_iter(batch_size) *)
  user_iter : Dataset -> nat -> list (list nat);
  item_iter : Dataset -> nat -> list (list nat);
  (* get_data(batch_ids, train_set, max_text_length, by=..., max_num_review=...)
     returns (reviews, num_reviews, ratings) *)
  get_data : list nat -> Dataset -> nat -> by_kind -> nat ->
             list (list (list nat)) * list nat * mat
}.

(** ** The model *)

Module HRDR.

Record Hyper : Type := {
  n_users : nat;
  n_items : nat;
  n_factors : nat;
  embedding_size : nat;
  id_embedding_size : nat;
  attention_size : nat;
  kernel_sizes : list nat;
  n_filters : nat;
  n_user_mlp_factors : nat;
  n_item_mlp_factors : nat;
  dropout_rate : R;
  max_text_length : nat
}.

(** Weights of one rating tower: three dense layers and the batch
    normalisation. *)
Record MlpWeights : Type := {
  dense_1 : keras.DenseWeights;
  dense_2 : keras.DenseWeights;
  dense_3 : keras.DenseWeights;
  batch_normalization : keras.BatchNormWeights
}.

(** Weights of the two dense layers that produce an attention logit. *)
Record AttentionWeights : Type := {
  att_hidden : keras.DenseWeights;
  att_logit : keras.DenseWeights
}.

Section WithBackend.
Context {TF : Backend}.

(** Every weight the graph owns, one field per layer object created in the
    constructor. *)
Record Weights : Type := {
  layer_user_review_embedding : mat;
  layer_item_review_embedding : mat;
  user_embedding : mat;
  item_embedding : mat;
  user_bias : mat;
  item_bias : mat;
  user_text_processor : TextProcessorWeights;
  item_text_processor : TextProcessorWeights;
  l_user_mlp_weights : MlpWeights;
  l_item_mlp_weights : MlpWeights;
  a_user_weights : AttentionWeights;      (* lines 97-98 *)
  a_item_i_weights : AttentionWeights;    (* lines 108-109 *)
  a_item_j_weights : AttentionWeights;    (* lines 116-117 *)
  ou_weights : keras.DenseWeights;
  oi_weights : keras.DenseWeights;
  oj_weights : keras.DenseWeights;
  W1_weights : keras.DenseWeights;
  global_bias : R
}.

(** *** Layer objects (configuration from the constructor, weights from
    the store) *)

Definition dense (n : nat) (a : keras.activation) (b : bool)
           (w : keras.DenseWeights) : keras.Dense :=
  {| keras.units := n; keras.activation_of := a; keras.use_bias := b;
     keras.dense_weights := w |}.

(** The [Sequential] of lines 81-86 and 87-92, for first-layer width [f]. *)
Definition mlp (f : nat) (h : Hyper) (w : MlpWeights) : list keras.Layer :=
  [ keras.LDense (dense f keras.relu true (dense_1 w));
    keras.LDense (dense (f / 2) keras.relu true (dense_2 w));
    keras.LDense (dense (n_filters h) keras.relu true (dense_3 w));
    keras.LBatchNormalization (batch_normalization w) ].

Definition l_user_mlp (h : Hyper) (W : Weights) : list keras.Layer :=
  mlp (n_user_mlp_factors h) h (l_user_mlp_weights W).

Definition l_item_mlp (h : Hyper) (W : Weights) : list keras.Layer :=
  mlp (n_item_mlp_factors h) h (l_item_mlp_weights W).

(** Weights of a rating tower after a call, read back from its layers. *)
Definition mlp_weights_of (layers : list keras.Layer) (w : MlpWeights)
  : MlpWeights :=
  match layers with
  | [keras.LDense d1; keras.LDense d2; keras.LDense d3;
     keras.LBatchNormalization bn] =>
      {| dense_1 := keras.dense_weights d1;
         dense_2 := keras.dense_weights d2;
         dense_3 := keras.dense_weights d3;
         batch_normalization := bn |}
  | _ => w
  end.

Definition text_processor_config (h : Hyper) : TextProcessorConfig :=
  {| tp_max_text_length := max_text_length h;
     tp_filters := n_filters h;
     tp_kernel_sizes := kernel_sizes h;
     tp_dropout_rate := dropout_rate h |}.

(** The two anonymous dense layers of an attention head. *)
Definition attention_hidden (h : Hyper) (w : AttentionWeights) : keras.Dense :=
  dense (attention_size h) keras.relu true (att_hidden w).
Definition attention_logit (w : AttentionWeights) : keras.Dense :=
  dense 1 keras.linear true (att_logit w).

(** The dense layers named "ou", "oi" and "oj" *)
Definition ou_layer (h : Hyper) (W : Weights) : keras.Dense :=
  dense (n_factors h) keras.linear true (ou_weights W).
Definition oi_layer (h : Hyper) (W : Weights) : keras.Dense :=
  dense (n_factors h) keras.linear true (oi_weights W).
Definition oj_layer (h : Hyper) (W : Weights) : keras.Dense :=
  dense (n_factors h) keras.linear true (oj_weights W).

Definition W1 (W : Weights) : keras.Dense :=
  dense 1 keras.linear false (W1_weights W).

(** Modelled from the spec: [AddGlobalBias] of [..narre.narre] is not in
    this file; the spec gives it as a layer that adds a single trainable
    scalar to its input tensor. *)
Definition add_global_bias (W : Weights) (X : ten3) : ten3 :=
  tf.map3 (fun x => x + global_bias W) X.

(** *** Inputs

    One record per entity side: the id, rating, review and review-count
    inputs of lines 53-64. *)
Record Side : Type := {
  input_id : list nat;                       (* (batch, 1) *)
  input_rating : mat;                        (* (batch, n) *)
  input_review : list (list (list nat));     (* (batch, reviews, tokens) *)
  input_number_of_review : list nat          (* (batch, 1) *)
}.

(** Static shape of a review input, [Input(shape=(None, max_text_length))],
    with the batch axis in front. *)
Definition review_input_shape (h : Hyper) : list (option nat) :=
  [None; None; Some (max_text_length h)].

(** [i_*_review.shape[1]] *)
Definition review_shape_1 (h : Hyper) : option nat :=
  nth 1 (review_input_shape h) None.

(** *** The nodes of the graph, stage by stage *)

(** Lines 77-79: [text_processor(embedding(review), training=True)]; the
    explicit [training=True] is part of the node. *)
Definition review_h (h : Hyper) (table : mat) (tp : TextProcessorWeights)
           (review : list (list (list nat))) : M ten3 :=
  ' (embedded, mask) <~ lift (keras.Embedding_call3 table review) ;;
  TextProcessor_call (text_processor_config h) tp true embedded mask.

(** Lines 97-106, 108-127: the attention logits, the mask and the masked
    softmax of one branch. *)
Definition attention (h : Hyper) (w : AttentionWeights) (reviews_h : ten3)
           (rating_h : mat) (num_reviews : list nat) : result ten3 :=
  x <- tf.multiply reviews_h (tf.expand_dims_1 rating_h) ;;
  let a := keras.Dense_call3 (attention_logit w)
             (keras.Dense_call3 (attention_hidden h w) x) in
  let masking :=
    tf.expand_dims_last (tf.sequence_mask num_reviews (review_shape_1 h)) in
  keras.Softmax_axis1 a masking.

(** Lines 129-143: weighted sum of the review features, dropout, dense
    projection. *)
Definition opinion (h : Hyper) (training : bool) (o : keras.Dense)
           (att reviews_h : ten3) : M mat :=
  weighted <~ lift (keras.Multiply att reviews_h) ;;
  dropped <~ keras.Dropout_call (dropout_rate h) training
                                (tf.reduce_sum_1 weighted) ;;
  ret (keras.Dense_call2 o dropped).

(** Lines 145-160: the fused representation of one branch. *)
Definition fuse (rating_h o : mat) (id_table : mat) (ids : list nat)
  : result ten3 :=
  e <- keras.Embedding_call id_table ids ;;
  keras.Concatenate3 (tf.expand_dims_1 rating_h) (tf.expand_dims_1 o) e.

(** Lines 164-169 and 170-175: the prediction of one branch from the two
    fused representations. *)
Definition prediction (W : Weights) (p q : ten3) (user_ids item_ids : list nat)
  : result ten3 :=
  pq <- tf.multiply p q ;;
  bu <- keras.Embedding_call (user_bias W) user_ids ;;
  bi <- keras.Embedding_call (item_bias W) item_ids ;;
  r <- keras.Add3 (keras.Dense_call3 (W1 W) pq) bu bi ;;
  Ok (add_global_bias W r).

(** The store with the rating towers in the state they have after a call
    (only the batch-normalisation statistics can differ). *)
Definition with_mlps (W : Weights) (wu wi : MlpWeights) : Weights :=
  {| layer_user_review_embedding := layer_user_review_embedding W;
     layer_item_review_embedding := layer_item_review_embedding W;
     user_embedding := user_embedding W;
     item_embedding := item_embedding W;
     user_bias := user_bias W;
     item_bias := item_bias W;
     user_text_processor := user_text_processor W;
     item_text_processor := item_text_processor W;
     l_user_mlp_weights := wu;
     l_item_mlp_weights := wi;
     a_user_weights := a_user_weights W;
     a_item_i_weights := a_item_i_weights W;
     a_item_j_weights := a_item_j_weights W;
     ou_weights := ou_weights W;
     oi_weights := oi_weights W;
     oj_weights := oj_weights W;
     W1_weights := W1_weights W;
     global_bias := global_bias W |}.

(** *** The graph (lines 77-191) *)

Record Nodes : Type := {
  user_review_h : ten3;
  item_i_review_h : ten3;
  item_j_review_h : ten3;
  user_rating_h : mat;
  item_i_rating_h : mat;
  item_j_rating_h : mat;
  user_attention : ten3;
  item_i_attention : ten3;
  item_j_attention : ten3;
  ou : mat;
  oi : mat;
  oj : mat;
  pu : ten3;
  qi : ten3;
  qj : ten3;
  r_i : ten3;
  r_j : ten3;
  x_ij : R
}.

(** Line 176 *)
Definition bpr_loss (ri rj : ten3) : result R :=
  d <- tf.broadcast3 Rminus ri rj ;;
  Ok (tf.reduce_mean (tf.map3 (fun x => - ln (tf.sigmoid x)) d)).

(** One call of [self.graph] with the given [training] flag: every node
    and the weights after the call. *)
Definition graph_nodes (training : bool) (h : Hyper) (W : Weights)
           (user item_i item_j : Side) : M (Nodes * Weights) :=
  user_review_h <~ review_h h (layer_user_review_embedding W)
                            (user_text_processor W) (input_review user) ;;
  item_i_review_h <~ review_h h (layer_item_review_embedding W)
                              (item_text_processor W) (input_review item_i) ;;
  item_j_review_h <~ review_h h (layer_item_review_embedding W)
                              (item_text_processor W) (input_review item_j) ;;
  let (user_rating_h, l_user_mlp') :=
    keras.Sequential_call training (l_user_mlp h W) (input_rating user) in
  let (item_i_rating_h, l_item_mlp') :=
    keras.Sequential_call training (l_item_mlp h W) (input_rating item_i) in
  let (item_j_rating_h, l_item_mlp'') :=
    keras.Sequential_call training l_item_mlp' (input_rating item_j) in
  user_attention <~ lift (attention h (a_user_weights W) user_review_h
                            user_rating_h (input_number_of_review user)) ;;
  item_i_attention <~ lift (attention h (a_item_i_weights W) item_i_review_h
                              item_i_rating_h (input_number_of_review item_i)) ;;
  item_j_attention <~ lift (attention h (a_item_j_weights W) item_j_review_h
                              item_j_rating_h (input_number_of_review item_j)) ;;
  ou <~ opinion h training (ou_layer h W) user_attention user_review_h ;;
  oi <~ opinion h training (oi_layer h W) item_i_attention item_i_review_h ;;
  oj <~ opinion h training (oj_layer h W) item_j_attention item_j_review_h ;;
  pu <~ lift (fuse user_rating_h ou (user_embedding W) (input_id user)) ;;
  qi <~ lift (fuse item_i_rating_h oi (item_embedding W) (input_id item_i)) ;;
  qj <~ lift (fuse item_j_rating_h oj (item_embedding W) (input_id item_j)) ;;
  r_i <~ lift (prediction W pu qi (input_id user) (input_id item_i)) ;;
  r_j <~ lift (prediction W pu qj (input_id user) (input_id item_j)) ;;
  x_ij <~ lift (bpr_loss r_i r_j) ;;
  ret ({| user_review_h := user_review_h;
          item_i_review_h := item_i_review_h;
          item_j_review_h := item_j_review_h;
          user_rating_h := user_rating_h;
          item_i_rating_h := item_i_rating_h;
          item_j_rating_h := item_j_rating_h;
          user_attention := user_attention;
          item_i_attention := item_i_attention;
          item_j_attention := item_j_attention;
          ou := ou; oi := oi; oj := oj;
          pu := pu; qi := qi; qj := qj;
          r_i := r_i; r_j := r_j;
          x_ij := x_ij |},
       with_mlps W (mlp_weights_of l_user_mlp' (l_user_mlp_weights W))
                 (mlp_weights_of l_item_mlp'' (l_item_mlp_weights W))).

(** [self.graph(inputs, training=...)]: the output [x_ij]. *)
Definition graph (training : bool) (h : Hyper) (W : Weights)
           (user item_i item_j : Side) : M (R * Weights) :=
  ' (nodes, W') <~ graph_nodes training h W user item_i item_j ;;
  ret (x_ij nodes, W').

(** *** The sub-models of [get_weights] (lines 196-197)

    Each runs the part of the graph between its inputs and its outputs. *)

Definition user_attention_review_pooling (training : bool) (h : Hyper)
           (W : Weights) (user : Side) : M (ten3 * Weights) :=
  user_review_h <~ review_h h (layer_user_review_embedding W)
                            (user_text_processor W) (input_review user) ;;
  let (user_rating_h, l_user_mlp') :=
    keras.Sequential_call training (l_user_mlp h W) (input_rating user) in
  user_attention <~ lift (attention h (a_user_weights W) user_review_h
                            user_rating_h (input_number_of_review user)) ;;
  ou <~ opinion h training (ou_layer h W) user_attention user_review_h ;;
  pu <~ lift (fuse user_rating_h ou (user_embedding W) (input_id user)) ;;
  ret (pu, with_mlps W (mlp_weights_of l_user_mlp' (l_user_mlp_weights W))
                     (l_item_mlp_weights W)).

Definition item_attention_pooling (training : bool) (h : Hyper)
           (W : Weights) (item_i : Side) : M (ten3 * ten3 * Weights) :=
  item_i_review_h <~ review_h h (layer_item_review_embedding W)
                              (item_text_processor W) (input_review item_i) ;;
  let (item_i_rating_h, l_item_mlp') :=
    keras.Sequential_call training (l_item_mlp h W) (input_rating item_i) in
  item_i_attention <~ lift (attention h (a_item_i_weights W) item_i_review_h
                              item_i_rating_h (input_number_of_review item_i)) ;;
  oi <~ opinion h training (oi_layer h W) item_i_attention item_i_review_h ;;
  qi <~ lift (fuse item_i_rating_h oi (item_embedding W) (input_id item_i)) ;;
  ret (qi, item_i_attention,
       with_mlps W (l_user_mlp_weights W)
                 (mlp_weights_of l_item_mlp' (l_item_mlp_weights W))).

(** *** [get_weights] (lines 195-214) *)

Context {DP : DataProvider}.

(** Width of a fused representation *)
Definition D (h : Hyper) : nat :=
  (n_filters h + n_factors h + id_embedding_size h)%nat.

(** [(P, Q, W1, bu, bi, mu, A)] *)
Definition ServingWeights : Type := (mat * mat * mat * mat * mat * R * mat)%type.

(** Lines 202-203 and 206-207: the inputs of a sub-model for one batch of
    ids, [[batch_ids, ratings, reviews, num_reviews]] with
    [reviews, num_reviews, ratings = get_data(batch_ids, train_set,
    self.max_text_length, by=..., max_num_review=max_num_review)]. *)
Definition batch_inputs (h : Hyper) (train_set : Dataset) (by_ : by_kind)
           (max_num_review : nat) (batch_ids : list nat) : Side :=
  let '(reviews, num_reviews, ratings) :=
    get_data batch_ids train_set (max_text_length h) by_ max_num_review in
  {| input_id := batch_ids;
     input_rating := ratings;
     input_review := reviews;
     input_number_of_review := num_reviews |}.

(** Lines 201-204 *)
Fixpoint user_loop (h : Hyper) (train_set : Dataset) (max_num_review : nat)
         (batches : list (list nat)) (W : Weights) (P : mat)
  : M (mat * Weights) :=
  match batches with
  | [] => ret (P, W)
  | batch_users :: rest =>
      ' (pu, W') <~ user_attention_review_pooling false h W
                      (batch_inputs h train_set by_user max_num_review
                                    batch_users) ;;
      rows <~ lift (np.reshape2 (length batch_users) (D h) pu) ;;
      P' <~ lift (np.scatter_rows batch_users rows P) ;;
      user_loop h train_set max_num_review rest W' P'
  end.

(** Line 209: [A[batch_items, :item_attention.shape[1]] =
    item_attention.numpy().reshape(item_attention.shape[:2])] *)
Definition assign_attention (max_num_review : nat) (batch_items : list nat)
           (item_attention : ten3) (A : mat) : result mat :=
  let width := match item_attention with
               | [] => 0%nat
               | slots :: _ => length slots
               end in
  rows <- np.reshape2 (length item_attention) width item_attention ;;
  np.assign_columns max_num_review batch_items width rows A.

(** Lines 205-209 *)
Fixpoint item_loop (h : Hyper) (train_set : Dataset) (max_num_review : nat)
         (batches : list (list nat)) (W : Weights) (Q A : mat)
  : M (mat * mat * Weights) :=
  match batches with
  | [] => ret (Q, A, W)
  | batch_items :: rest =>
      ' (qi, item_attention, W') <~ item_attention_pooling false h W
                      (batch_inputs h train_set by_item max_num_review
                                    batch_items) ;;
      rows <~ lift (np.reshape2 (length batch_items) (D h) qi) ;;
      Q' <~ lift (np.scatter_rows batch_items rows Q) ;;
      A' <~ lift (assign_attention max_num_review batch_items item_attention A) ;;
      item_loop h train_set max_num_review rest W' Q' A'
  end.

Definition get_weights (h : Hyper) (W : Weights) (train_set : Dataset)
           (batch_size max_num_review : nat) : M (ServingWeights * Weights) :=
  let P := np.zeros2 (n_users h) (D h) in
  let Q := np.zeros2 (n_items h) (D h) in
  let A := np.zeros2 (n_items h) max_num_review in
  ' (P, W) <~ user_loop h train_set max_num_review
                        (user_iter train_set batch_size) W P ;;
  ' (Q, A, W) <~ item_loop h train_set max_num_review
                           (item_iter train_set batch_size) W Q A ;;
  ret ((P, Q, keras.kernel (W1_weights W), user_bias W, item_bias W,
        global_bias W, A), W).

(** *** Serving-time scoring, as the spec words it

    [W1 . (P[u] * Q[i]) + bu[u] + bi[i] + mu] on the matrices returned by
    [get_weights]; [W1] is the (D, 1) kernel, [bu] and [bi] have one
    column. *)
Definition dot (x y : vec) : R :=
  tf.sum (map (fun xy => fst xy * snd xy) (combine x y)).

Definition hadamard (x y : vec) : vec :=
  map (fun xy => fst xy * snd xy) (combine x y).

Definition serving_score (w : ServingWeights) (u i : nat) : R :=
  let '(P, Q, W1, bu, bi, mu, _) := w in
  dot (hadamard (nth u P []) (nth i Q [])) (tf.column 0 W1)
  + nth 0 (nth u bu []) 0 + nth 0 (nth i bi []) 0 + mu.

(** *** The pairwise scorer and the training loss, as the spec words them

    [score(pu, q) = W1 . (pu * q) + user_bias[u] + item_bias[item] +
    global_bias], and the loss is the mean over the batch of
    [- log (sigmoid (score_i - score_j))]. *)
Definition spec_score (W : Weights) (pu q : vec) (u item : nat) : R :=
  dot (hadamard pu q) (tf.column 0 (keras.kernel (W1_weights W)))
  + nth 0 (nth u (user_bias W) []) 0 + nth 0 (nth item (item_bias W) []) 0
  + global_bias W.

Fixpoint spec_scores (W : Weights) (pus qs : list vec) (us items : list nat)
  : list R :=
  match pus, qs, us, items with
  | p :: pus', q :: qs', u :: us', item :: items' =>
      spec_score W p q u item :: spec_scores W pus' qs' us' items'
  | _, _, _, _ => []
  end.

Definition spec_loss (W : Weights) (pus qis qjs : list vec)
           (us items_i items_j : list nat) : R :=
  keras.mean
    (map (fun d => - ln (tf.sigmoid (fst d - snd d)))
         (combine (spec_scores W pus qis us items_i)
                  (spec_scores W pus qjs us items_j))).

(** *** The constructor (lines 14-193) *)

Context {U : Utils}.

Record Model : Type := {
  hyper : Hyper;
  n_vocab : nat;
  global_mean : R;
  verbose : bool;
  graph_weights : Weights
}.

(** [initial] holds what the Keras initialisers draw for the layers that
    are not given a constant; [summary] is what [self.graph.summary()]
    prints. The result is the model and the lines written to stdout. *)
Definition Model_init (h : Hyper) (vocab : Embedding.Vocabulary)
           (global_mean : R)
           (pretrained_word_embeddings : option Embedding.Pretrained)
           (verbose : bool) (seed : option Z)
           (initial : Weights) (summary : list string)
  : result (Model * list string) :=
  ' (embedding_matrix, out) <-
      Embedding.embedding_matrix seed vocab (embedding_size h)
                                 pretrained_word_embeddings verbose ;;
  let W :=
    {| layer_user_review_embedding := embedding_matrix;
       layer_item_review_embedding := embedding_matrix;
       user_embedding := user_embedding initial;
       item_embedding := item_embedding initial;
       user_bias := repeat [0.1] (n_users h);
       item_bias := repeat [0.1] (n_items h);
       user_text_processor := user_text_processor initial;
       item_text_processor := item_text_processor initial;
       l_user_mlp_weights := l_user_mlp_weights initial;
       l_item_mlp_weights := l_item_mlp_weights initial;
       a_user_weights := a_user_weights initial;
       a_item_i_weights := a_item_i_weights initial;
       a_item_j_weights := a_item_j_weights initial;
       ou_weights := ou_weights initial;
       oi_weights := oi_weights initial;
       oj_weights := oj_weights initial;
       W1_weights := W1_weights initial;
       global_bias := global_mean |} in
  Ok ({| hyper := h;
         n_vocab := Embedding.size vocab;
         global_mean := global_mean;
         verbose := verbose;
         graph_weights := W |},
      (out ++ if verbose then summary else [])%list).

End WithBackend.
End HRDR.

(** ** A small concrete world

    Instances of the collaborators and a one-user, one-item model, used to
    run the definitions above on explicit inputs. *)

Module Example.

(** A [uniform] that fills the matrix with [low / 2]. *)
Definition ex_uniform (r c : nat) (lo hi : R) (s : Z) : mat :=
  repeat (repeat (lo / 2) c) r.

(** The generator state is a counter; draw [k] from state [s] keeps the
    entry when [s + k] is a multiple of 3. *)
Definition ex_keep (s k : nat) : bool := ((s + k) mod 3 =? 0)%nat.

Definition ex_random_keep (rate : R) (n s : nat) : list bool * nat :=
  (map (ex_keep s) (seq 0 n), (s + n)%nat).

Definition ex_dropout_row (rate : R) (x : vec) (s : nat) : vec * nat :=
  let (keep, s') := ex_random_keep rate (length x) s in
  (map (fun xk : R * bool => if snd xk then fst xk / (1 - rate) else 0)
       (combine x keep), s').

Fixpoint ex_dropout_rows (rate : R) (X : mat) (s : nat) : mat * nat :=
  match X with
  | [] => ([], s)
  | x :: rest =>
      let (y, s1) := ex_dropout_row rate x s in
      let (ys, s2) := ex_dropout_rows rate rest s1 in
      (y :: ys, s2)
  end.

Fixpoint ex_dropout_batch (rate : R) (X : ten3) (s : nat) : ten3 * nat :=
  match X with
  | [] => ([], s)
  | x :: rest =>
      let (y, s1) := ex_dropout_rows rate x s in
      let (ys, s2) := ex_dropout_batch rate rest s1 in
      (y :: ys, s2)
  end.

(** Modelled from the spec: the text encoder [TextProcessor] of
    [..narre.narre] is not in this file. The spec gives its interface: built
    from (max_text_length, filters, kernel_sizes, dropout_rate), it maps a
    batch of token sequences to one feature vector of width [filters] per
    review. Here feature [f] of a review is the sum over its tokens of
    channel [f] of the embedded token, and in training mode the features go
    through a dropout of rate [dropout_rate]. *)
Definition ex_TextProcessor_call (cfg : TextProcessorConfig) (w : unit)
           (training : bool) (embedded : ten4)
           (mask : list (list (list bool))) (s : nat)
  : result (ten3 * nat) :=
  let text_h :=
    map (map (fun review : mat =>
                map (fun f => tf.sum (tf.column f review))
                    (seq 0 (tp_filters cfg))))
        embedded in
  if training then Ok (ex_dropout_batch (tp_dropout_rate cfg) text_h s)
  else Ok (text_h, s).

#[export] Instance ex_utils : Utils :=
  {| RandomState := Z;
     get_rng := fun seed => seed;
     uniform := ex_uniform;
     uniform_rows := fun r c lo _ _ => repeat_length (repeat (lo / 2) c) r |}.

#[export] Instance ex_backend : Backend :=
  {| tf_random := nat;
     random_keep := ex_random_keep;
     random_keep_length :=
       fun _ n s => eq_trans (length_map (ex_keep s) (seq 0 n)) (length_seq n 0);
     TextProcessorWeights := unit;
     TextProcessor_call := ex_TextProcessor_call |}.

(** A data set: for each kind of entity the batches of ids, and per id its
    reviews (token sequences) and its rating vector. *)
Record ExDataset : Type := {
  ex_user_batches : list (list nat);
  ex_item_batches : list (list nat);
  ex_reviews : by_kind -> nat -> list (list nat);
  ex_ratings : by_kind -> nat -> vec
}.

(** Modelled from the spec: [get_data] of [.hrdr] is not in this file. It
    fetches up to [max_num_review] reviews per id, their count and the
    rating vector; this provider pads the review axis with all-zero reviews
    to [max_num_review] slots. *)
Definition ex_get_data (ids : list nat) (ds : ExDataset) (max_text_length : nat)
           (by_ : by_kind) (max_num_review : nat)
  : list (list (list nat)) * list nat * mat :=
  let fetched := map (fun id => firstn max_num_review (ex_reviews ds by_ id)) ids in
  (map (fun rs => rs ++ repeat (repeat 0%nat max_text_length)
                                (max_num_review - length rs)) fetched,
   map (@length (list nat)) fetched,
   map (ex_ratings ds by_) ids).

#[export] Instance ex_provider : DataProvider :=
  {| Dataset := ExDataset;
     user_iter := fun ds _ => ex_user_batches ds;
     item_iter := fun ds _ => ex_item_batches ds;
     get_data := ex_get_data |}.

(** One user and one item, each with the single review [[4]]. *)
Definition ex_train_set : ExDataset :=
  {| ex_user_batches := [[0%nat]];
     ex_item_batches := [[0%nat]];
     ex_reviews := fun _ _ => [[4%nat]];
     ex_ratings := fun _ _ => [1] |}.

Definition ex_hyper : HRDR.Hyper :=
  {| HRDR.n_users := 1;
     HRDR.n_items := 1;
     HRDR.n_factors := 1;
     HRDR.embedding_size := 1;
     HRDR.id_embedding_size := 1;
     HRDR.attention_size := 1;
     HRDR.kernel_sizes := [1%nat];
     HRDR.n_filters := 1;
     HRDR.n_user_mlp_factors := 2;
     HRDR.n_item_mlp_factors := 2;
     HRDR.dropout_rate := 0.5;
     HRDR.max_text_length := 1 |}.

Definition ex_dense (k : mat) (b : vec) : keras.DenseWeights :=
  {| keras.kernel := k; keras.bias := b |}.

Definition ex_mlp : HRDR.MlpWeights :=
  {| HRDR.dense_1 := ex_dense [[0; 0]] [0; 0];
     HRDR.dense_2 := ex_dense [[0]; [0]] [0];
     HRDR.dense_3 := ex_dense [[0]] [1];
     HRDR.batch_normalization :=
       {| keras.gamma := [0]; keras.beta := [1];
          keras.moving_mean := [0]; keras.moving_variance := [1] |} |}.

Definition ex_attention (k : R) : HRDR.AttentionWeights :=
  {| HRDR.att_hidden := ex_dense [[k]] [0];
     HRDR.att_logit := ex_dense [[k]] [0] |}.

(** Weights in which the heads and projections of the two item branches
    hold the values [ki], [kj] (attention) and [pi], [pj] (projection). *)
Definition ex_weights_with (ki kj pi pj : R) : HRDR.Weights :=
  {| HRDR.layer_user_review_embedding := [[0]; [0]; [0]; [0]; [1]];
     HRDR.layer_item_review_embedding := [[0]; [0]; [0]; [0]; [1]];
     HRDR.user_embedding := [[3]];
     HRDR.item_embedding := [[5]];
     HRDR.user_bias := [[0.1]];
     HRDR.item_bias := [[0.1]];
     HRDR.user_text_processor := tt;
     HRDR.item_text_processor := tt;
     HRDR.l_user_mlp_weights := ex_mlp;
     HRDR.l_item_mlp_weights := ex_mlp;
     HRDR.a_user_weights := ex_attention 0;
     HRDR.a_item_i_weights := ex_attention ki;
     HRDR.a_item_j_weights := ex_attention kj;
     HRDR.ou_weights := ex_dense [[1]] [0];
     HRDR.oi_weights := ex_dense [[pi]] [0];
     HRDR.oj_weights := ex_dense [[pj]] [0];
     HRDR.W1_weights := ex_dense [[1]; [1]; [1]] [];
     HRDR.global_bias := 4 |}.

Definition ex_weights : HRDR.Weights := ex_weights_with 0 0 1 1.

(** The inputs of one side of the graph for the entity of [ex_train_set]. *)
Definition ex_side : HRDR.Side :=
  {| HRDR.input_id := [0%nat];
     HRDR.input_rating := [[1]];
     HRDR.input_review := [[[4%nat]]];
     HRDR.input_number_of_review := [1%nat] |}.

(** One training call of the graph on a batch of one triple, from generator
    state 0. *)
Definition ex_graph_run : result (HRDR.Nodes * HRDR.Weights * nat) :=
  HRDR.graph_nodes true ex_hyper ex_weights ex_side ex_side ex_side 0%nat.

(** [get_weights] on the example data set with the given
    [max_num_review], from the given generator state. *)
Definition ex_get_weights (max_num_review s : nat)
  : result (HRDR.ServingWeights * HRDR.Weights * nat) :=
  HRDR.get_weights ex_hyper ex_weights ex_train_set 64 max_num_review s.

(** A second data set: two items in one batch, item 0 without any review,
    item 1 with the review [[4]]; weights as [ex_weights] with item tables
    of two rows. *)
Definition ex_train_set2 : ExDataset :=
  {| ex_user_batches := [[0%nat]];
     ex_item_batches := [[0%nat; 1%nat]];
     ex_reviews := fun by_ id =>
                     match by_, id with
                     | by_item, O => []
                     | _, _ => [[4%nat]]
                     end;
     ex_ratings := fun _ _ => [1] |}.

Definition ex_hyper2 : HRDR.Hyper :=
  {| HRDR.n_users := 1;
     HRDR.n_items := 2;
     HRDR.n_factors := 1;
     HRDR.embedding_size := 1;
     HRDR.id_embedding_size := 1;
     HRDR.attention_size := 1;
     HRDR.kernel_sizes := [1%nat];
     HRDR.n_filters := 1;
     HRDR.n_user_mlp_factors := 2;
     HRDR.n_item_mlp_factors := 2;
     HRDR.dropout_rate := 0.5;
     HRDR.max_text_length := 1 |}.

Definition ex_weights2 : HRDR.Weights :=
  {| HRDR.layer_user_review_embedding := [[0]; [0]; [0]; [0]; [1]];
     HRDR.layer_item_review_embedding := [[0]; [0]; [0]; [0]; [1]];
     HRDR.user_embedding := [[3]];
     HRDR.item_embedding := [[5]; [6]];
     HRDR.user_bias := [[0.1]];
     HRDR.item_bias := [[0.1]; [0.1]];
     HRDR.user_text_processor := tt;
     HRDR.item_text_processor := tt;
     HRDR.l_user_mlp_weights := ex_mlp;
     HRDR.l_item_mlp_weights := ex_mlp;
     HRDR.a_user_weights := ex_attention 0;
     HRDR.a_item_i_weights := ex_attention 0;
     HRDR.a_item_j_weights := ex_attention 0;
     HRDR.ou_weights := ex_dense [[1]] [0];
     HRDR.oi_weights := ex_dense [[1]] [0];
     HRDR.oj_weights := ex_dense [[1]] [0];
     HRDR.W1_weights := ex_dense [[1]; [1]; [1]] [];
     HRDR.global_bias := 4 |}.

Definition ex_get_weights2 (max_num_review s : nat)
  : result (HRDR.ServingWeights * HRDR.Weights * nat) :=
  HRDR.get_weights ex_hyper2 ex_weights2 ex_train_set2 64 max_num_review s.

(** The example weights with bias 1 on the projections "oi" and "oj". *)
Definition ex_weights_shift : HRDR.Weights :=
  {| HRDR.layer_user_review_embedding := [[0]; [0]; [0]; [0]; [1]];
     HRDR.layer_item_review_embedding := [[0]; [0]; [0]; [0]; [1]];
     HRDR.user_embedding := [[3]];
     HRDR.item_embedding := [[5]];
     HRDR.user_bias := [[0.1]];
     HRDR.item_bias := [[0.1]];
     HRDR.user_text_processor := tt;
     HRDR.item_text_processor := tt;
     HRDR.l_user_mlp_weights := ex_mlp;
     HRDR.l_item_mlp_weights := ex_mlp;
     HRDR.a_user_weights := ex_attention 0;
     HRDR.a_item_i_weights := ex_attention 0;
     HRDR.a_item_j_weights := ex_attention 0;
     HRDR.ou_weights := ex_dense [[1]] [0];
     HRDR.oi_weights := ex_dense [[1]] [1];
     HRDR.oj_weights := ex_dense [[1]] [1];
     HRDR.W1_weights := ex_dense [[1]; [1]; [1]] [];
     HRDR.global_bias := 4 |}.

(** A rating tower whose dense layers pass a non-negative rating through,
    with a batch normalisation of scale 1 and offset 0. *)
Definition ex_mlp_pass : HRDR.MlpWeights :=
  {| HRDR.dense_1 := ex_dense [[1; 0]] [0; 0];
     HRDR.dense_2 := ex_dense [[1]; [0]] [0];
     HRDR.dense_3 := ex_dense [[1]] [0];
     HRDR.batch_normalization :=
       {| keras.gamma := [1]; keras.beta := [0];
          keras.moving_mean := [0]; keras.moving_variance := [1] |} |}.

(** The example weights with that tower on the item side. *)
Definition ex_weights_pass : HRDR.Weights :=
  {| HRDR.layer_user_review_embedding := [[0]; [0]; [0]; [0]; [1]];
     HRDR.layer_item_review_embedding := [[0]; [0]; [0]; [0]; [1]];
     HRDR.user_embedding := [[3]];
     HRDR.item_embedding := [[5]];
     HRDR.user_bias := [[0.1]];
     HRDR.item_bias := [[0.1]];
     HRDR.user_text_processor := tt;
     HRDR.item_text_processor := tt;
     HRDR.l_user_mlp_weights := ex_mlp;
     HRDR.l_item_mlp_weights := ex_mlp_pass;
     HRDR.a_user_weights := ex_attention 0;
     HRDR.a_item_i_weights := ex_attention 0;
     HRDR.a_item_j_weights := ex_attention 0;
     HRDR.ou_weights := ex_dense [[1]] [0];
     HRDR.oi_weights := ex_dense [[1]] [0];
     HRDR.oj_weights := ex_dense [[1]] [0];
     HRDR.W1_weights := ex_dense [[1]; [1]; [1]] [];
     HRDR.global_bias := 4 |}.

(** The inputs of one side for a batch of two entries of the entity of
    [ex_train_set], with the rating vectors [[a]] and [[b]]. *)
Definition ex_side2 (a b : R) : HRDR.Side :=
  {| HRDR.input_id := [0%nat; 0%nat];
     HRDR.input_rating := [[a]; [b]];
     HRDR.input_review := [[[4%nat]]; [[4%nat]]];
     HRDR.input_number_of_review := [1%nat; 1%nat] |}.

(** A five-token vocabulary with the four special tokens in front, and a
    pretrained mapping that knows ["<UNK>"] but not ["good"]. *)
Definition ex_vocab : Embedding.Vocabulary :=
  {| Embedding.size := 5;
     Embedding.tok2idx :=
       [("<PAD>"%string, 0%nat); ("<UNK>"%string, 1%nat);
        ("<BOS>"%string, 2%nat); ("<EOS>"%string, 3%nat);
        ("good"%string, 4%nat)] |}.

Definition ex_pretrained : Embedding.Pretrained :=
  fun word => if String.eqb word "<UNK>" then Some [1] else None.

End Example.

(** * Properties *)

(** ** The word-embedding table *)

Section EmbeddingProperties.
Context {U : Utils}.
Import Embedding.

Lemma replace_row_length (idx : nat) (r : vec) (M : mat) :
  length (np.replace_row idx r M) = length M.
Proof.
  revert idx; induction M as [|row M IH]; intros [|k]; simpl; auto.
Qed.

Lemma replace_row_other (idx k : nat) (r : vec) (M : mat) :
  k <> idx -> nth_error (np.replace_row idx r M) k = nth_error M k.
Proof.
  revert idx k; induction M as [|row M IH]; intros [|i] [|k] Hne; simpl; auto.
  - contradiction.
Qed.

Lemma replace_row_same (idx : nat) (r : vec) (M : mat) :
  (idx < length M)%nat -> nth_error (np.replace_row idx r M) idx = Some r.
Proof.
  revert idx; induction M as [|row M IH]; intros [|i] Hlt; simpl in *;
    try lia; auto.
  apply IH; lia.
Qed.

Lemma zero_special_rows_ok (E : nat) (M : mat) :
  (4 <= length M)%nat ->
  exists M', zero_special_rows E M = Ok M' /\ length M' = length M.
Proof.
  intros Hlen; unfold zero_special_rows.
  destruct (Nat.ltb_spec (length M) 4) as [Hlt|_]; [lia|].
  eexists; split; [reflexivity|].
  rewrite length_app, length_skipn; unfold np.zeros2.
  rewrite repeat_length; lia.
Qed.

Lemma zero_special_rows_zero (E : nat) (M M' : mat) :
  zero_special_rows E M = Ok M' ->
  forall k, (k < 4)%nat -> nth_error M' k = Some (np.zeros E).
Proof.
  unfold zero_special_rows; intros H k Hk.
  destruct (length M <? 4)%nat; [discriminate|].
  injection H as H; subst M'.
  do 4 (destruct k as [|k]; [reflexivity|]); lia.
Qed.

Lemma set_row_inv (E idx : nat) (v : vec) (M M' : mat) :
  set_row E idx v M = Ok M' ->
  exists r, M' = np.replace_row idx r M /\ (idx < length M)%nat.
Proof.
  unfold set_row; intros H.
  destruct (Nat.ltb_spec idx (length M)) as [Hlt|]; [|discriminate].
  destruct (broadcast_row E v) as [r|]; simpl in H; [|discriminate].
  injection H as <-; eauto.
Qed.

(** A row that no mapped token points at survives the loop. *)
Lemma override_untouched (E : nat) (pre : Pretrained) :
  forall items M c M' c',
    override E pre items M c = Ok (M', c') ->
    forall k,
      (forall word, In (word, k) items -> pre word = None) ->
      nth_error M' k = nth_error M k.
Proof.
  induction items as [|[word idx] rest IH]; simpl; intros M c M' c' H k Hk.
  - injection H as <- _; reflexivity.
  - destruct (pre word) as [v|] eqn:Hw.
    + destruct (set_row E idx v M) as [M1|] eqn:Hset; simpl in H; [|discriminate].
      apply set_row_inv in Hset as (r & -> & _).
      rewrite (IH _ _ _ _ H k) by (intros; apply Hk; auto).
      apply replace_row_other.
      intros ->. rewrite (Hk word) in Hw by auto. discriminate.
    + apply (IH _ _ _ _ H k); intros; apply Hk; auto.
Qed.

(** The tokens of [items] that the mapping does not know. *)
Lemma override_count (E : nat) (pre : Pretrained) :
  forall items M c M' c',
    override E pre items M c = Ok (M', c') ->
    c' = (c + length (filter (fun wi => match pre (fst wi) with
                                        | None => true
                                        | Some _ => false
                                        end) items))%nat.
Proof.
  induction items as [|[word idx] rest IH]; simpl; intros M c M' c' H.
  - injection H as _ <-; lia.
  - destruct (pre word) as [v|] eqn:Hw.
    + destruct (set_row E idx v M) as [M1|]; simpl in H; [|discriminate].
      apply IH in H; exact H.
    + apply IH in H; simpl; lia.
Qed.

(** The loop only fails on a token that the mapping knows. *)
Lemma override_total (E : nat) (pre : Pretrained) :
  forall items M c,
    (forall word idx v,
        In (word, idx) items -> pre word = Some v ->
        (idx < length M)%nat /\ (length v = E \/ length v = 1%nat)) ->
    exists M' c', override E pre items M c = Ok (M', c')
                  /\ length M' = length M.
Proof.
  induction items as [|[word idx] rest IH]; simpl; intros M c Hok.
  - eauto.
  - destruct (pre word) as [v|] eqn:Hw.
    + destruct (Hok word idx v (or_introl eq_refl) Hw) as [Hlt Hv].
      assert (Hb : exists r, broadcast_row E v = Ok r).
      { unfold broadcast_row.
        destruct (Nat.eqb_spec (length v) E); [eauto|].
        destruct Hv as [Hv|Hv]; [contradiction|].
        destruct v as [|x [|y v]]; simpl in Hv; try discriminate; eauto. }
      destruct Hb as [r Hr].
      unfold set_row.
      destruct (Nat.ltb_spec idx (length M)); [|lia].
      rewrite Hr; simpl.
      destruct (IH (np.replace_row idx r M) c) as (M' & c' & HM' & Hlen).
      { intros w i v' Hin Hp. rewrite replace_row_length.
        apply (Hok w i v'); auto. }
      exists M', c'; split; [exact HM'|].
      rewrite Hlen; apply replace_row_length.
    + apply IH; intros w i v' Hin Hp; apply (Hok w i v'); auto.
Qed.

Lemma default_init_ok (s : Z) (vocab : Vocabulary) (E : nat) :
  (4 <= size vocab)%nat ->
  exists M0, default_init (assign_rng (Some s)) vocab E = Ok M0
             /\ length M0 = size vocab
             /\ forall k, (k < 4)%nat -> nth_error M0 k = Some (np.zeros E).
Proof.
  intros Hsize; unfold default_init; simpl.
  destruct (zero_special_rows_ok E (uniform (size vocab) E (-0.5) 0.5 (get_rng s)))
    as (M0 & HM0 & Hlen).
  { rewrite uniform_rows; exact Hsize. }
  exists M0; split; [exact HM0|]; split.
  - rewrite Hlen; apply uniform_rows.
  - eapply zero_special_rows_zero; eauto.
Qed.

(** Rows 0 to 3 of the word-embedding table are the zero vector right after
    the default initialisation; the override loop leaves them zero when the
    mapping has no entry for a token whose index is below 4. *)
Lemma special_rows_zero (s : Z) (vocab : Vocabulary) (E : nat) :
  (4 <= size vocab)%nat ->
  exists M0,
    default_init (assign_rng (Some s)) vocab E = Ok M0
    /\ (forall k, (k < 4)%nat -> nth_error M0 k = Some (np.zeros E))
    /\ forall pretrained verbose M out,
        apply_pretrained vocab E pretrained verbose M0 = Ok (M, out) ->
        (forall pre word idx,
            pretrained = Some pre -> In (word, idx) (tok2idx vocab) ->
            (idx < 4)%nat -> pre word = None) ->
        forall k, (k < 4)%nat -> nth_error M k = Some (np.zeros E).
Proof.
  intros Hsize.
  destruct (default_init_ok s vocab E Hsize) as (M0 & HM0 & _ & Hzero).
  exists M0; split; [exact HM0|]; split; [exact Hzero|].
  intros [pre|] verbose M out Happ Hspecial k Hk; simpl in Happ.
  - destruct (override E pre (tok2idx vocab) M0 0) as [[M' c]|] eqn:Hov;
      simpl in Happ; [|discriminate].
    injection Happ as <- _.
    rewrite (override_untouched _ _ _ _ _ _ _ Hov k); [auto|].
    intros word Hin; eapply Hspecial; eauto.
  - injection Happ as <- _; auto.
Qed.

End EmbeddingProperties.

(** C4. Line 40 sets rows 0 to 3 to zero, and the override loop of lines
    41-48 that runs afterwards writes the vector of every token the mapping
    knows, special tokens included, with no second zeroing. With a mapping
    that has the vector [[1]] for ["<UNK>"], whose index is 1: the table is
    zero in rows 0 to 3 after the default initialisation, and row 1 of the
    table the constructor hands to both review embeddings is [[1]]. *)
Theorem special_rows_overridden :
  In ("<UNK>"%string, 1%nat) (Embedding.tok2idx Example.ex_vocab)
  /\ Example.ex_pretrained "<UNK>"%string = Some [1]
  /\ Embedding.default_init (U := Example.ex_utils)
       (Embedding.assign_rng (Some 0%Z)) Example.ex_vocab 1
     = Ok [[0]; [0]; [0]; [0]; [-0.5 / 2]]
  /\ Embedding.embedding_matrix (U := Example.ex_utils) (Some 0%Z)
       Example.ex_vocab 1 (Some Example.ex_pretrained) false
     = Ok ([[0]; [1]; [0]; [0]; [-0.5 / 2]], [])
  /\ nth_error [[0]; [1]; [0]; [0]; [-0.5 / 2]] 1 <> Some (np.zeros 1)
  /\ exists model out,
      HRDR.Model_init (U := Example.ex_utils) (TF := Example.ex_backend)
        Example.ex_hyper Example.ex_vocab 4 (Some Example.ex_pretrained)
        false (Some 0%Z) Example.ex_weights []
      = Ok (model, out)
      /\ nth_error (HRDR.layer_user_review_embedding (HRDR.graph_weights model)) 1
         = Some [1]
      /\ nth_error (HRDR.layer_item_review_embedding (HRDR.graph_weights model)) 1
         = Some [1].
Proof.
  split; [simpl; auto|].
  do 3 (split; [reflexivity|]).
  split; [simpl; intros H; injection H as H; lra|].
  do 2 eexists; split; [reflexivity|]; split; reflexivity.
Qed.

(** ** The constructor *)

Section ConstructorProperties.
Context {U : Utils} {TF : Backend}.
Import Embedding.

Lemma nodup_snd_eq {A : Type} (l : list (A * nat)) (a b : A) (i : nat) :
  NoDup (map snd l) -> In (a, i) l -> In (b, i) l -> a = b.
Proof.
  induction l as [|[c j] l IH]; simpl; intros Hnd Ha Hb; [contradiction|].
  inversion Hnd as [|? ? Hnotin Hnd']; subst.
  destruct Ha as [Ha|Ha], Hb as [Hb|Hb].
  - congruence.
  - injection Ha as -> ->.
    exfalso; apply Hnotin; apply (in_map snd) in Hb; exact Hb.
  - injection Hb as -> ->.
    exfalso; apply Hnotin; apply (in_map snd) in Ha; exact Ha.
  - auto.
Qed.

(** C10. When [seed] is omitted, [self.rng] is never assigned and the
    constructor stops with an attribute error at the word-embedding
    initialisation, before any part of the graph exists. *)
Theorem seed_none_attribute_error
        (h : HRDR.Hyper) (vocab : Vocabulary) (global_mean : R)
        (pretrained : option Pretrained) (verbose : bool)
        (initial : HRDR.Weights) (summary : list string) :
  HRDR.Model_init h vocab global_mean pretrained verbose None initial summary
  = Raise AttributeError.
Proof. reflexivity. Qed.

(** C9 (as amended). With a seed and a well-formed vocabulary, tokens that
    the pretrained mapping does not know never make the constructor fail
    (it succeeds as soon as the vectors of the known tokens fit), they are
    counted, the count is printed when [verbose] is set, and the table
    row of every such token is the row of the default initialisation. *)
Theorem oov_tokens_counted
        (h : HRDR.Hyper) (vocab : Vocabulary) (global_mean : R)
        (pre : Pretrained) (verbose : bool) (s : Z)
        (initial : HRDR.Weights) (summary : list string) :
  (4 <= size vocab)%nat ->
  NoDup (map snd (tok2idx vocab)) ->
  (forall word idx v,
      In (word, idx) (tok2idx vocab) -> pre word = Some v ->
      (idx < size vocab)%nat
      /\ (length v = HRDR.embedding_size h \/ length v = 1%nat)) ->
  let oov_count :=
    length (filter (fun wi => match pre (fst wi) with
                              | None => true
                              | Some _ => false
                              end) (tok2idx vocab)) in
  exists M0 model,
    default_init (assign_rng (Some s)) vocab (HRDR.embedding_size h) = Ok M0
    /\ HRDR.Model_init h vocab global_mean (Some pre) verbose (Some s)
                       initial summary
       = Ok (model,
             ((if verbose then [oov_message oov_count] else [])
                ++ (if verbose then summary else []))%list)
    /\ forall word idx,
        In (word, idx) (tok2idx vocab) -> pre word = None ->
        nth_error (HRDR.layer_user_review_embedding (HRDR.graph_weights model)) idx
        = nth_error M0 idx
        /\ nth_error (HRDR.layer_item_review_embedding (HRDR.graph_weights model)) idx
           = nth_error M0 idx.
Proof.
  intros Hsize Hnd Hfit oov_count.
  destruct (default_init_ok s vocab (HRDR.embedding_size h) Hsize)
    as (M0 & HM0 & Hlen & _).
  destruct (override_total (HRDR.embedding_size h) pre (tok2idx vocab) M0 0%nat)
    as (M' & c' & Hov & _).
  { intros word idx v Hin Hp. rewrite Hlen. eauto. }
  pose proof (override_count _ _ _ _ _ _ _ Hov) as Hc; simpl in Hc.
  exists M0; eexists; split; [exact HM0|]; split.
  - unfold HRDR.Model_init, embedding_matrix.
    rewrite HM0; simpl. rewrite Hov; simpl.
    subst c'; reflexivity.
  - intros word idx Hin Hnone; simpl.
    assert (Hrow : nth_error M' idx = nth_error M0 idx).
    { apply (override_untouched _ _ _ _ _ _ _ Hov idx).
      intros w Hw. rewrite (nodup_snd_eq _ w word idx Hnd Hw Hin). exact Hnone. }
    split; exact Hrow.
Qed.

End ConstructorProperties.

(** C9, witness: the five-token vocabulary, in which ["good"] is unknown to
    the mapping, with [verbose] set. *)
Lemma oov_tokens_counted_witness :
  exists M0 model,
    Embedding.default_init (U := Example.ex_utils)
      (Embedding.assign_rng (Some 0%Z)) Example.ex_vocab 1 = Ok M0
    /\ HRDR.Model_init (U := Example.ex_utils) (TF := Example.ex_backend)
         Example.ex_hyper Example.ex_vocab 4 (Some Example.ex_pretrained)
         true (Some 0%Z) Example.ex_weights []
       = Ok (model, [Embedding.oov_message 4])
    /\ nth_error (HRDR.layer_user_review_embedding (HRDR.graph_weights model)) 4
       = nth_error M0 4.
Proof.
  destruct (oov_tokens_counted (U := Example.ex_utils) (TF := Example.ex_backend)
              Example.ex_hyper Example.ex_vocab 4 Example.ex_pretrained true
              0%Z Example.ex_weights [])
    as (M0 & model & HM0 & Hinit & Hrows).
  - simpl; lia.
  - simpl; repeat constructor; simpl; intuition discriminate.
  - simpl; intros word idx v Hin Hp.
    repeat (destruct Hin as [Hin|Hin];
            [injection Hin as <- <-; cbv in Hp;
             first [discriminate | injection Hp as <-; split; [lia | auto]] |]).
    contradiction.
  - exists M0, model; split; [exact HM0|]; split; [exact Hinit|].
    apply (Hrows "good"%string 4%nat); [simpl; auto 10 | reflexivity].
Defined.

(** C9, counterexample: the same construction with [verbose] unset prints
    nothing, although ["good"] is unknown to the mapping. *)
Lemma oov_count_not_reported :
  Example.ex_pretrained "good"%string = None
  /\ In ("good"%string, 4%nat) (Embedding.tok2idx Example.ex_vocab)
  /\ exists model,
      HRDR.Model_init (U := Example.ex_utils) (TF := Example.ex_backend)
        Example.ex_hyper Example.ex_vocab 4 (Some Example.ex_pretrained)
        false (Some 0%Z) Example.ex_weights []
      = Ok (model, []).
Proof.
  split; [reflexivity|]; split; [simpl; auto 10|].
  eexists; reflexivity.
Qed.

(** ** Execution steps *)

Section ExecProperties.
Context {TF : Backend}.

Lemma bindM_inv {A B : Type} (m : M A) (k : A -> M B) (s : tf_random)
      (r : B * tf_random) :
  bindM m k s = Ok r -> exists a s1, m s = Ok (a, s1) /\ k a s1 = Ok r.
Proof.
  unfold bindM; destruct (m s) as [[a s1]|e]; [eauto | discriminate].
Qed.

Lemma lift_inv {A : Type} (r : result A) (s s' : tf_random) (a : A) :
  lift r s = Ok (a, s') -> r = Ok a /\ s' = s.
Proof.
  unfold lift; destruct r; [|discriminate].
  intros H; injection H as -> ->; auto.
Qed.

Lemma ret_inv {A : Type} (a b : A) (s s' : tf_random) :
  ret a s = Ok (b, s') -> a = b /\ s = s'.
Proof. unfold ret; intros H; injection H as -> ->; auto. Qed.

Lemma result_ok {A : Type} (r : result A) :
  (match r with Ok _ => true | Raise _ => false end) = true ->
  exists a, r = Ok a.
Proof. destruct r; [eauto | discriminate]. Qed.

Lemma bind_inv {A B : Type} (m : result A) (k : A -> result B) (b : B) :
  bind m k = Ok b -> exists a, m = Ok a /\ k a = Ok b.
Proof. destruct m; simpl; [eauto | discriminate]. Qed.

End ExecProperties.

(** One step through a run: a monadic bind, a lifted result or a
    destructuring [let]. *)
Ltac run_step H :=
  first
    [ apply bindM_inv in H as (? & ? & ? & H)
    | match type of H with
      | (let (_, _) := ?e in _) _ = Ok _ =>
          let E := fresh "Hcall" in destruct e eqn:E
      | (let (_, _) := ?e in _) = Ok _ =>
          let E := fresh "Hcall" in destruct e eqn:E
      end ].

Ltac lift_all :=
  repeat match goal with
         | H : lift _ _ = Ok (_, _) |- _ =>
             apply lift_inv in H; destruct H as [H ?]; subst
         end.

(** ** The rating tower *)

Section TowerProperties.
Import keras.

Lemma Dense_call_length (l : Dense) (x : vec) :
  length (Dense_call l x) = units l.
Proof. unfold Dense_call; rewrite length_map; apply length_seq. Qed.

Lemma normalize_length (w : BatchNormWeights) (mu var row : vec) :
  length (normalize w mu var row) = length row.
Proof. unfold normalize; rewrite length_map; apply length_seq. Qed.

Lemma BatchNormalization_call_width (training : bool) (w : BatchNormWeights)
      (X : mat) (n : nat) :
  Forall (fun row => length row = n) X ->
  Forall (fun row => length row = n) (fst (BatchNormalization_call training w X)).
Proof.
  intros HX; unfold BatchNormalization_call; destruct training; simpl;
    apply Forall_map; (eapply Forall_impl; [|exact HX]);
    intros row Hrow; simpl; rewrite normalize_length; exact Hrow.
Qed.

Lemma Dense_call2_width (l : Dense) (X : mat) :
  Forall (fun row => length row = units l) (Dense_call2 l X).
Proof.
  unfold Dense_call2; apply Forall_map, Forall_forall; intros x _.
  apply Dense_call_length.
Qed.

(** In inference mode a layer keeps its state. *)
Lemma Layer_call_inference (l : Layer) (X : mat) :
  snd (Layer_call false l X) = l.
Proof. destruct l; reflexivity. Qed.

Lemma Sequential_call_inference (layers : list Layer) (X : mat) :
  snd (Sequential_call false layers X) = layers.
Proof.
  revert X; induction layers as [|l rest IH]; intros X; simpl; [reflexivity|].
  pose proof (Layer_call_inference l X) as Hl.
  destruct (Layer_call false l X) as [Y l']; simpl in Hl; subst l'.
  specialize (IH Y).
  destruct (Sequential_call false rest Y) as [Z rest']; simpl in *; subst.
  reflexivity.
Qed.

(** A call leaves the trainable weights of every layer as they were. *)
Lemma Layer_call_same_trainable (training : bool) (l : Layer) (X : mat) :
  same_trainable l (snd (Layer_call training l X)).
Proof.
  destruct l as [d|w]; simpl; [reflexivity|].
  unfold BatchNormalization_call; destruct training; simpl; auto.
Qed.

Lemma Sequential_call_same_trainable (training : bool) (layers : list Layer)
      (X : mat) :
  Forall2 same_trainable layers (snd (Sequential_call training layers X)).
Proof.
  revert X; induction layers as [|l rest IH]; intros X; simpl; [constructor|].
  pose proof (Layer_call_same_trainable training l X) as Hl.
  destruct (Layer_call training l X) as [Y l']; simpl in Hl.
  specialize (IH Y).
  destruct (Sequential_call training rest Y) as [Z rest']; simpl in *.
  constructor; assumption.
Qed.

(** In training mode the output does not read the moving statistics. *)
Lemma Layer_call_training_output (l l' : Layer) (X : mat) :
  same_trainable l l' ->
  fst (Layer_call true l X) = fst (Layer_call true l' X).
Proof.
  destruct l as [d|w], l' as [d'|w']; simpl; try contradiction.
  - intros ->; reflexivity.
  - intros [Hg Hb]; unfold normalize; rewrite Hg, Hb; reflexivity.
Qed.

Lemma Sequential_call_training_output (layers layers' : list Layer) :
  Forall2 same_trainable layers layers' ->
  forall X, fst (Sequential_call true layers X)
            = fst (Sequential_call true layers' X).
Proof.
  induction 1 as [|l l' rest rest' Hl Hrest IH]; intros X; simpl; [reflexivity|].
  pose proof (Layer_call_training_output l l' X Hl) as HY.
  destruct (Layer_call true l X) as [Y l1], (Layer_call true l' X) as [Y' l1'];
    simpl in HY; subst Y'.
  specialize (IH Y).
  destruct (Sequential_call true rest Y) as [Z r1],
           (Sequential_call true rest' Y) as [Z' r1']; simpl in *; auto.
Qed.

(** Calling a tower a second time, in the state the first call left it in,
    computes the same function of the input batch. *)
Lemma Sequential_call_again (training : bool) (layers : list Layer)
      (X0 X : mat) :
  fst (Sequential_call training (snd (Sequential_call training layers X0)) X)
  = fst (Sequential_call training layers X).
Proof.
  destruct training.
  - symmetry; apply Sequential_call_training_output,
      Sequential_call_same_trainable.
  - rewrite Sequential_call_inference; reflexivity.
Qed.

(** In inference mode a tower acts on each row of the batch separately. *)
Lemma Layer_call_inference_rows (l : Layer) :
  exists f : vec -> vec, forall X, fst (Layer_call false l X) = map f X.
Proof.
  destruct l as [d|w]; simpl.
  - exists (Dense_call d); reflexivity.
  - exists (normalize w (moving_mean w) (moving_variance w)); reflexivity.
Qed.

Lemma Sequential_call_inference_rows (layers : list Layer) :
  exists f : vec -> vec,
    forall X, fst (Sequential_call false layers X) = map f X.
Proof.
  induction layers as [|l rest [g Hg]]; simpl.
  - exists (fun x => x); intros X; rewrite map_id; reflexivity.
  - destruct (Layer_call_inference_rows l) as [f Hf].
    exists (fun x => g (f x)); intros X.
    specialize (Hf X).
    destruct (Layer_call false l X) as [Y l']; simpl in Hf; subst Y.
    specialize (Hg (map f X)).
    destruct (Sequential_call false rest (map f X)) as [Z rest']; simpl in *.
    rewrite Hg, map_map; reflexivity.
Qed.

End TowerProperties.

(** ** The graph *)

Section GraphProperties.
Context {TF : Backend}.
Import HRDR.

Lemma mlp_call_width (training : bool) (f : nat) (h : Hyper) (w : MlpWeights)
      (X : mat) :
  Forall (fun row => length row = n_filters h)
         (fst (keras.Sequential_call training (mlp f h w) X)).
Proof.
  unfold mlp; simpl.
  match goal with
  | |- context [keras.BatchNormalization_call ?t ?b ?Y] =>
      assert (Hbn : Forall (fun row => length row = n_filters h)
                           (fst (keras.BatchNormalization_call t b Y)))
        by (apply BatchNormalization_call_width;
            match goal with
            | |- Forall _ (keras.Dense_call2 ?l ?X0) =>
                exact (Dense_call2_width l X0)
            end);
      destruct (keras.BatchNormalization_call t b Y) as [Z b']
  end.
  exact Hbn.
Qed.

Lemma opinion_width (h : Hyper) (training : bool) (o : keras.Dense)
      (att reviews_h : ten3) (s s' : tf_random) (m : mat) :
  opinion h training o att reviews_h s = Ok (m, s') ->
  Forall (fun row => length row = keras.units o) m.
Proof.
  unfold opinion; intros H.
  do 2 run_step H.
  apply ret_inv in H as [<- _].
  apply Dense_call2_width.
Qed.

(** A dense layer with ReLU activation has no negative output. *)
Lemma Dense_call_relu_nonneg (l : keras.Dense) (x : vec) :
  keras.activation_of l = keras.relu ->
  Forall (fun v => 0 <= v) (keras.Dense_call l x).
Proof.
  intros Hrelu; unfold keras.Dense_call; rewrite Hrelu.
  apply Forall_map, Forall_forall; intros j _; cbn [keras.activate].
  apply Rmax_r.
Qed.

(** A call of a rating tower: the three dense layers row by row, then the
    batch normalisation on the batch of their outputs. *)
Lemma mlp_call_layers (training : bool) (f : nat) (h : Hyper) (w : MlpWeights)
      (X : mat) :
  let d1 := dense f keras.relu true (dense_1 w) in
  let d2 := dense (f / 2) keras.relu true (dense_2 w) in
  let d3 := dense (n_filters h) keras.relu true (dense_3 w) in
  let Y := map (fun x => keras.Dense_call d3
                           (keras.Dense_call d2 (keras.Dense_call d1 x))) X in
  fst (keras.Sequential_call training (mlp f h w) X)
  = fst (keras.BatchNormalization_call training (batch_normalization w) Y).
Proof.
  cbv zeta; unfold mlp.
  cbn [keras.Sequential_call keras.Layer_call].
  unfold keras.Dense_call2; rewrite !map_map.
  destruct (keras.BatchNormalization_call training (batch_normalization w) _);
    reflexivity.
Qed.

(** What a successful run of the graph says about its nodes. *)
Lemma graph_nodes_inv (training : bool) (h : Hyper) (W W' : Weights)
      (user item_i item_j : Side) (s s' : tf_random) (n : Nodes) :
  graph_nodes training h W user item_i item_j s = Ok (n, W', s') ->
  user_rating_h n
  = fst (keras.Sequential_call training (l_user_mlp h W) (input_rating user))
  /\ item_i_rating_h n
     = fst (keras.Sequential_call training (l_item_mlp h W) (input_rating item_i))
  /\ item_j_rating_h n
     = fst (keras.Sequential_call training
              (snd (keras.Sequential_call training (l_item_mlp h W)
                      (input_rating item_i)))
              (input_rating item_j))
  /\ attention h (a_user_weights W) (user_review_h n) (user_rating_h n)
               (input_number_of_review user) = Ok (user_attention n)
  /\ attention h (a_item_i_weights W) (item_i_review_h n) (item_i_rating_h n)
               (input_number_of_review item_i) = Ok (item_i_attention n)
  /\ attention h (a_item_j_weights W) (item_j_review_h n) (item_j_rating_h n)
               (input_number_of_review item_j) = Ok (item_j_attention n)
  /\ fuse (user_rating_h n) (ou n) (user_embedding W) (input_id user)
     = Ok (pu n)
  /\ fuse (item_i_rating_h n) (oi n) (item_embedding W) (input_id item_i)
     = Ok (qi n)
  /\ fuse (item_j_rating_h n) (oj n) (item_embedding W) (input_id item_j)
     = Ok (qj n)
  /\ prediction W (pu n) (qi n) (input_id user) (input_id item_i) = Ok (r_i n)
  /\ prediction W (pu n) (qj n) (input_id user) (input_id item_j) = Ok (r_j n)
  /\ bpr_loss (r_i n) (r_j n) = Ok (x_ij n)
  /\ Forall (fun row => length row = n_factors h) (ou n)
  /\ Forall (fun row => length row = n_factors h) (oi n)
  /\ Forall (fun row => length row = n_factors h) (oj n).
Proof.
  unfold graph_nodes; intros H.
  do 3 run_step H.
  destruct (keras.Sequential_call training (l_user_mlp h W) (input_rating user))
    as [urh lu] eqn:Hu.
  destruct (keras.Sequential_call training (l_item_mlp h W) (input_rating item_i))
    as [irh li] eqn:Hi.
  destruct (keras.Sequential_call training li (input_rating item_j))
    as [jrh lj] eqn:Hj.
  repeat run_step H.
  apply ret_inv in H as [Hn _].
  injection Hn as Hn _; subst n; simpl.
  lift_all.
  simpl; rewrite Hj; simpl.
  repeat split;
    first [ assumption
          | match goal with
            | Ho : opinion _ _ ?o _ _ _ = Ok (?m, _) |- Forall _ ?m =>
                exact (opinion_width _ _ _ _ _ _ _ _ Ho)
            end ].
Qed.

(** C8 (as amended). Each rating tower is three dense ReLU layers of
    widths [f], [f / 2] (integer division) and [n_filters] followed by a
    batch normalisation: a call applies the three layers to each rating
    vector, which gives rows of width [n_filters] without negative entries,
    and normalises the batch of these rows, so every row it produces has
    width [n_filters]. The user features come from the single user tower;
    both item branches call the single item tower, so equal item rating
    batches give equal rating features in either mode, and in inference
    mode equal rating vectors give equal features row by row. (In training
    mode the normalisation uses the statistics of the batch of each
    branch.) *)
Theorem rating_tower_shared (training : bool) (h : Hyper) (W W' : Weights)
        (user item_i item_j : Side) (s s' : tf_random) (n : Nodes) :
  graph_nodes training h W user item_i item_j s = Ok (n, W', s') ->
  (forall (f : nat) (w : MlpWeights),
      exists d1 d2 d3,
        mlp f h w = [keras.LDense d1; keras.LDense d2; keras.LDense d3;
                     keras.LBatchNormalization (batch_normalization w)]
        /\ keras.units d1 = f /\ keras.units d2 = (f / 2)%nat
        /\ keras.units d3 = n_filters h
        /\ keras.activation_of d1 = keras.relu
        /\ keras.activation_of d2 = keras.relu
        /\ keras.activation_of d3 = keras.relu)
  /\ l_user_mlp h W = mlp (n_user_mlp_factors h) h (l_user_mlp_weights W)
  /\ l_item_mlp h W = mlp (n_item_mlp_factors h) h (l_item_mlp_weights W)
  /\ user_rating_h n
     = fst (keras.Sequential_call training (l_user_mlp h W) (input_rating user))
  /\ item_i_rating_h n
     = fst (keras.Sequential_call training (l_item_mlp h W) (input_rating item_i))
  /\ item_j_rating_h n
     = fst (keras.Sequential_call training (l_item_mlp h W) (input_rating item_j))
  /\ Forall (fun row => length row = n_filters h) (user_rating_h n)
  /\ Forall (fun row => length row = n_filters h) (item_i_rating_h n)
  /\ Forall (fun row => length row = n_filters h) (item_j_rating_h n)
  /\ (input_rating item_i = input_rating item_j ->
      item_i_rating_h n = item_j_rating_h n)
  /\ (training = false ->
      forall b b' x,
        nth_error (input_rating item_i) b = Some x ->
        nth_error (input_rating item_j) b' = Some x ->
        nth_error (item_i_rating_h n) b = nth_error (item_j_rating_h n) b')
  /\ (forall (f : nat) (w : MlpWeights) (X : mat),
        let d1 := dense f keras.relu true (dense_1 w) in
        let d2 := dense (f / 2) keras.relu true (dense_2 w) in
        let d3 := dense (n_filters h) keras.relu true (dense_3 w) in
        let Y := map (fun x => keras.Dense_call d3
                                 (keras.Dense_call d2 (keras.Dense_call d1 x)))
                     X in
        Forall (fun x =>
                  length (keras.Dense_call d1 x) = f
                  /\ length (keras.Dense_call d2 (keras.Dense_call d1 x))
                     = (f / 2)%nat) X
        /\ Forall (fun y => length y = n_filters h
                            /\ Forall (fun v => 0 <= v) y) Y
        /\ fst (keras.Sequential_call training (mlp f h w) X)
           = fst (keras.BatchNormalization_call training
                    (batch_normalization w) Y)).
Proof.
  intros H.
  apply graph_nodes_inv in H
    as (Hu & Hi & Hj & _).
  rewrite Sequential_call_again in Hj.
  split.
  { intros f w; do 3 eexists; split; [reflexivity|]; simpl; auto 10. }
  do 2 (split; [reflexivity|]).
  do 3 (split; [assumption|]).
  rewrite Hu, Hi, Hj.
  do 3 (split; [apply mlp_call_width|]).
  split; [intros ->; reflexivity|].
  split.
  - intros -> b b' x Hb Hb'.
    destruct (Sequential_call_inference_rows (l_item_mlp h W)) as [f Hf].
    rewrite !Hf, !nth_error_map, Hb, Hb'; reflexivity.
  - intros f w X; cbv zeta; split; [|split].
    + apply Forall_forall; intros x _; split; apply Dense_call_length.
    + apply Forall_map, Forall_forall; intros x _; split;
        [apply Dense_call_length | apply Dense_call_relu_nonneg; reflexivity].
    + apply mlp_call_layers.
Qed.

End GraphProperties.

(** C8, witness: one inference call on a batch of two triples whose item
    ratings are 1 and 3 in the positive branch, 1 and 0 in the negative
    branch; the first rows of the two batches get the same feature. *)
Lemma rating_tower_shared_witness :
  exists n W' s',
    HRDR.graph_nodes (TF := Example.ex_backend) false Example.ex_hyper
      Example.ex_weights_pass (Example.ex_side2 1 1) (Example.ex_side2 1 3)
      (Example.ex_side2 1 0) 0%nat
    = Ok (n, W', s')
    /\ Forall (fun row => length row = 1%nat) (HRDR.item_i_rating_h n)
    /\ Forall (fun row => length row = 1%nat) (HRDR.item_j_rating_h n)
    /\ nth_error (HRDR.item_i_rating_h n) 0
       = nth_error (HRDR.item_j_rating_h n) 0.
Proof.
  destruct (result_ok
              (HRDR.graph_nodes (TF := Example.ex_backend) false
                 Example.ex_hyper Example.ex_weights_pass
                 (Example.ex_side2 1 1) (Example.ex_side2 1 3)
                 (Example.ex_side2 1 0) 0%nat) eq_refl)
    as [[[n W'] s'] H].
  exists n, W', s'; split; [exact H|].
  destruct (rating_tower_shared (TF := Example.ex_backend) false
              Example.ex_hyper Example.ex_weights_pass W'
              (Example.ex_side2 1 1) (Example.ex_side2 1 3)
              (Example.ex_side2 1 0) 0%nat s' n H)
    as (_ & _ & _ & _ & _ & _ & _ & Hwi & Hwj & _ & Hrows & _).
  split; [exact Hwi|]; split; [exact Hwj|].
  apply (Hrows eq_refl 0%nat 0%nat [1]); reflexivity.
Defined.

(** ** Tensors of shape (batch, 1, width) *)

Section TensorProperties.

Lemma zipM_pure {A B C : Type} (g : A -> B -> C) (xs : list A) (ys : list B) :
  tf.zipM (fun x y => Ok (g x y)) xs ys
  = Ok (map (fun xy => g (fst xy) (snd xy)) (combine xs ys)).
Proof.
  revert ys; induction xs as [|x xs IH]; intros [|y ys]; simpl; auto.
  rewrite IH; reflexivity.
Qed.

Lemma broadcast_same_length {A B C : Type} (f : A -> B -> result C)
      (xs : list A) (ys : list B) :
  length xs = length ys -> tf.broadcast f xs ys = tf.zipM f xs ys.
Proof.
  intros H; unfold tf.broadcast; rewrite H, Nat.eqb_refl; reflexivity.
Qed.

Lemma broadcast_singletons (f : R -> R -> R) (x y : list R) :
  length x = length y ->
  tf.broadcast (tf.broadcast (fun a b => Ok (f a b))) [x] [y]
  = Ok [map (fun ab => f (fst ab) (snd ab)) (combine x y)].
Proof.
  intros H; unfold tf.broadcast at 1; simpl.
  rewrite (broadcast_same_length _ x y H), zipM_pure; reflexivity.
Qed.

(** Element-wise operations on (batch, 1, width) tensors of equal shape. *)
Lemma broadcast3_rows (f : R -> R -> R) (xs ys : list (list R)) :
  Forall2 (fun x y => length x = length y) xs ys ->
  tf.broadcast3 f (tf.expand_dims_1 xs) (tf.expand_dims_1 ys)
  = Ok (tf.expand_dims_1
          (map (fun xy => map (fun ab => f (fst ab) (snd ab))
                              (combine (fst xy) (snd xy)))
               (combine xs ys))).
Proof.
  intros H; unfold tf.broadcast3.
  rewrite broadcast_same_length
    by (unfold tf.expand_dims_1; rewrite !length_map;
        eapply Forall2_length; eauto).
  unfold tf.expand_dims_1.
  induction H as [|x y xs ys Hxy _ IH]; [reflexivity|].
  cbn [map combine tf.zipM fst snd].
  rewrite (broadcast_singletons f x y Hxy), IH; reflexivity.
Qed.

Lemma Forall2_of_Forall {A B : Type} (P : A -> Prop) (Q : B -> Prop)
      (Rel : A -> B -> Prop) (xs : list A) (ys : list B) :
  length xs = length ys -> Forall P xs -> Forall Q ys ->
  (forall x y, P x -> Q y -> Rel x y) -> Forall2 Rel xs ys.
Proof.
  intros Hlen HP HQ HR; revert ys Hlen HQ.
  induction HP as [|x xs Hx _ IH]; intros [|y ys] Hlen HQ;
    simpl in Hlen; try discriminate; constructor.
  - inversion HQ; subst; auto.
  - inversion HQ; subst; apply IH; auto.
Qed.

Lemma Embedding_call_inv (table : mat) (ids : list nat) (e : ten3) :
  keras.Embedding_call table ids = Ok e ->
  exists rows,
    e = tf.expand_dims_1 rows
    /\ Forall2 (fun id row => nth_error table id = Some row) ids rows.
Proof.
  unfold keras.Embedding_call; revert e.
  induction ids as [|id ids IH]; simpl; intros e H.
  - injection H as <-; exists []; split; [reflexivity | constructor].
  - unfold keras.Embedding_lookup in H at 1.
    destruct (nth_error table id) as [row|] eqn:Hrow; simpl in H; [|discriminate].
    destruct (mapM _ ids) as [rest|] eqn:Hrest; simpl in H; [|discriminate].
    injection H as <-.
    destruct (IH rest eq_refl) as (rows & -> & Hrows).
    exists (row :: rows); split; [reflexivity | constructor; auto].
Qed.

Lemma lookup_rows_width (table : mat) (ids : list nat) (rows : mat) (w : nat) :
  Forall (fun row => length row = w) table ->
  Forall2 (fun id row => nth_error table id = Some row) ids rows ->
  Forall (fun row => length row = w) rows.
Proof.
  intros Htable H; induction H as [|id row ids rows Hrow _ IH]; constructor; auto.
  apply nth_error_In in Hrow.
  rewrite Forall_forall in Htable; auto.
Qed.

Lemma matvec_entry_dot (x : vec) (K : mat) :
  keras.matvec_entry x K 0 = HRDR.dot x (tf.column 0 K).
Proof.
  unfold keras.matvec_entry, HRDR.dot, tf.sum, tf.column.
  revert K; induction x as [|a x IH]; intros [|k K]; simpl; auto.
  rewrite IH; reflexivity.
Qed.

Lemma concatenate_rows (r o es : list (list R)) :
  length r = length o -> length o = length es ->
  keras.Concatenate3 (tf.expand_dims_1 r) (tf.expand_dims_1 o)
                     (tf.expand_dims_1 es)
  = Ok (tf.expand_dims_1
          (map (fun roe => fst (fst roe) ++ snd (fst roe) ++ snd roe)
               (combine (combine r o) es))).
Proof.
  intros Hro Hoe; unfold keras.Concatenate3, tf.expand_dims_1.
  rewrite !length_map, Hro, Hoe, !Nat.eqb_refl; simpl.
  revert o es Hro Hoe; induction r as [|x r IH]; intros [|y o] [|z es] Hro Hoe;
    simpl in *; try discriminate; [reflexivity|].
  rewrite IH by lia; reflexivity.
Qed.

End TensorProperties.

(** ** The pairwise scorer *)

Section ScorerProperties.
Context {TF : Backend}.
Import HRDR.

Lemma fuse_inv (rating_h o : list (list R)) (table : mat) (ids : list nat)
      (p : ten3) :
  fuse rating_h o table ids = Ok p ->
  exists es,
    Forall2 (fun id row => nth_error table id = Some row) ids es
    /\ length rating_h = length o /\ length o = length es
    /\ p = tf.expand_dims_1
             (map (fun roe => fst (fst roe) ++ snd (fst roe) ++ snd roe)
                  (combine (combine rating_h o) es)).
Proof.
  unfold fuse; intros H.
  apply bind_inv in H as (e & He & Hc).
  apply Embedding_call_inv in He as (es & -> & Hes).
  exists es; split; [exact Hes|].
  assert (Hlen : length rating_h = length o /\ length o = length es).
  { unfold keras.Concatenate3, tf.expand_dims_1 in Hc.
    rewrite !length_map in Hc.
    destruct (Nat.eqb_spec (length rating_h) (length o));
      destruct (Nat.eqb_spec (length o) (length es));
      simpl in Hc; try discriminate; auto. }
  destruct Hlen as [Hro Hoe]; split; [exact Hro|]; split; [exact Hoe|].
  rewrite (concatenate_rows rating_h o es Hro Hoe) in Hc.
  injection Hc as <-; reflexivity.
Qed.

Lemma Dense_call3_rows (l : keras.Dense) (zs : list (list R)) :
  keras.Dense_call3 l (tf.expand_dims_1 zs)
  = tf.expand_dims_1 (map (keras.Dense_call l) zs).
Proof.
  unfold keras.Dense_call3, keras.Dense_call2, tf.expand_dims_1.
  rewrite !map_map; reflexivity.
Qed.

Lemma spec_scores_length (W : Weights) (n : nat) :
  forall pus qs us items,
    length pus = n -> length qs = n -> length us = n -> length items = n ->
    length (spec_scores W pus qs us items) = n.
Proof.
  induction n as [|n IH]; intros [|p pus] [|q qs] [|u us] [|i items];
    simpl; intros; try discriminate; auto.
Qed.

(** The prediction node, row by row, is the score of the spec. *)
Lemma scores_rows (W : Weights) :
  forall (pus qis : list (list R)) (uids iids : list nat)
         (rows_u rows_i : list (list R)),
    Forall2 (fun p q => length p = length q) pus qis ->
    Forall2 (fun id row => nth_error (user_bias W) id = Some row) uids rows_u ->
    Forall2 (fun id row => nth_error (item_bias W) id = Some row) iids rows_i ->
    length uids = length pus -> length iids = length pus ->
    Forall (fun row => length row = 1%nat) rows_u ->
    Forall (fun row => length row = 1%nat) rows_i ->
    tf.map3 (fun x => x + global_bias W)
      (tf.expand_dims_1
         (map (fun xy => map (fun ab => fst ab + snd ab)
                             (combine (fst xy) (snd xy)))
              (combine
                 (map (fun xy => map (fun ab => fst ab + snd ab)
                                     (combine (fst xy) (snd xy)))
                      (combine
                         (map (keras.Dense_call (W1 W))
                              (map (fun xy => map (fun ab => fst ab * snd ab)
                                                  (combine (fst xy) (snd xy)))
                                   (combine pus qis)))
                         rows_u))
                 rows_i)))
    = map (fun sc => [[sc]]) (spec_scores W pus qis uids iids).
Proof.
  intros pus qis uids iids rows_u rows_i Hpq.
  revert uids iids rows_u rows_i.
  induction Hpq as [|p q pus qis _ _ IH];
    intros uids iids rows_u rows_i Hu Hi Hlu Hli Hwu Hwi.
  - destruct uids; [|discriminate]; reflexivity.
  - destruct uids as [|u uids]; [discriminate|].
    destruct iids as [|i iids]; [discriminate|].
    inversion Hu as [|? ru ? rus Hru Hu']; subst.
    inversion Hi as [|? ri ? ris Hri Hi']; subst.
    inversion Hwu as [|? ? Hlenu Hwu']; subst.
    inversion Hwi as [|? ? Hleni Hwi']; subst.
    destruct ru as [|xu [|? ?]]; try discriminate.
    destruct ri as [|xi [|? ?]]; try discriminate.
    simpl in Hlu, Hli.
    specialize (IH uids iids rus ris Hu' Hi' ltac:(lia) ltac:(lia) Hwu' Hwi').
    cbn [spec_scores map].
    unfold tf.map3, tf.expand_dims_1 in *.
    cbn [map combine fst snd].
    rewrite IH.
    f_equal.
    unfold spec_score.
    rewrite (nth_error_nth _ _ _ Hru), (nth_error_nth _ _ _ Hri).
    unfold keras.Dense_call; cbn.
    rewrite matvec_entry_dot; reflexivity.
Qed.

Lemma prediction_rows (W : Weights) (pus qis : list (list R))
      (uids iids : list nat) (r : ten3) :
  Forall2 (fun p q => length p = length q) pus qis ->
  length uids = length pus -> length iids = length pus ->
  Forall (fun row => length row = 1%nat) (user_bias W) ->
  Forall (fun row => length row = 1%nat) (item_bias W) ->
  prediction W (tf.expand_dims_1 pus) (tf.expand_dims_1 qis) uids iids = Ok r ->
  r = map (fun sc => [[sc]]) (spec_scores W pus qis uids iids).
Proof.
  intros Hpq Hlu Hli Hbu Hbi H.
  unfold prediction, tf.multiply in H.
  rewrite (broadcast3_rows Rmult pus qis Hpq) in H; cbn [bind] in H.
  apply bind_inv in H as (bu & Hu & H).
  apply Embedding_call_inv in Hu as (rows_u & -> & Hu).
  apply bind_inv in H as (bi & Hi & H).
  apply Embedding_call_inv in Hi as (rows_i & -> & Hi).
  apply bind_inv in H as (radd & Hadd & H).
  injection H as <-.
  pose proof (lookup_rows_width _ _ _ 1%nat Hbu Hu) as Hwu.
  pose proof (lookup_rows_width _ _ _ 1%nat Hbi Hi) as Hwi.
  pose proof (Forall2_length Hpq) as Hlpq.
  pose proof (Forall2_length Hu) as Hlenu.
  pose proof (Forall2_length Hi) as Hleni.
  unfold keras.Add3 in Hadd.
  rewrite Dense_call3_rows in Hadd.
  rewrite broadcast3_rows in Hadd; cbn [bind] in Hadd.
  2:{ apply (Forall2_of_Forall (fun x => length x = 1%nat)
                               (fun y => length y = 1%nat)).
      - rewrite !length_map, length_combine; lia.
      - apply Forall_map, Forall_forall; intros z _.
        apply Dense_call_length.
      - exact Hwu.
      - intros x y -> ->; reflexivity. }
  rewrite broadcast3_rows in Hadd.
  2:{ apply (Forall2_of_Forall (fun x => length x = 1%nat)
                               (fun y => length y = 1%nat)).
      - rewrite !length_map, !length_combine, !length_map, length_combine; lia.
      - apply Forall_map, Forall_forall; intros [a ru] Hin; simpl.
        rewrite length_map, length_combine.
        pose proof (in_combine_l _ _ _ _ Hin) as Ha.
        pose proof (in_combine_r _ _ _ _ Hin) as Hr.
        apply in_map_iff in Ha as (z & <- & _).
        rewrite Dense_call_length.
        rewrite Forall_forall in Hwu; rewrite (Hwu _ Hr); reflexivity.
      - exact Hwi.
      - intros x y -> ->; reflexivity. }
  injection Hadd as <-.
  unfold add_global_bias.
  apply scores_rows; auto.
Qed.

Lemma flat_rows (f : R -> R -> R) (g : R -> R) :
  forall si sj : list R,
    concat (concat
      (tf.map3 g
         (tf.expand_dims_1
            (map (fun xy : list R * list R =>
                    map (fun ab => f (fst ab) (snd ab))
                        (combine (fst xy) (snd xy)))
                 (combine (map (fun sc => [sc]) si)
                          (map (fun sc => [sc]) sj))))))
    = map (fun d => g (f (fst d) (snd d))) (combine si sj).
Proof.
  unfold tf.map3, tf.expand_dims_1.
  induction si as [|a si IH]; intros [|b sj]; simpl; auto.
  rewrite IH; reflexivity.
Qed.

Lemma fused_width (a b c : nat) (r o es : list (list R)) :
  Forall (fun row => length row = a) r ->
  Forall (fun row => length row = b) o ->
  Forall (fun row => length row = c) es ->
  Forall (fun row => length row = (a + b + c)%nat)
         (map (fun roe => fst (fst roe) ++ snd (fst roe) ++ snd roe)
              (combine (combine r o) es)).
Proof.
  intros Hr Ho He; rewrite Forall_forall in Hr, Ho, He.
  apply Forall_map, Forall_forall; intros [[x y] z] Hin; simpl.
  pose proof (in_combine_l _ _ _ _ Hin) as Hxy.
  rewrite !length_app,
    (Hr _ (in_combine_l _ _ _ _ Hxy)), (Ho _ (in_combine_r _ _ _ _ Hxy)),
    (He _ (in_combine_r _ _ _ _ Hin)).
  lia.
Qed.

Lemma bpr_loss_rows (si sj : list R) :
  length si = length sj ->
  bpr_loss (map (fun sc => [[sc]]) si) (map (fun sc => [[sc]]) sj)
  = Ok (keras.mean (map (fun d => - ln (tf.sigmoid (fst d - snd d)))
                        (combine si sj))).
Proof.
  intros Hlen; unfold bpr_loss.
  replace (map (fun sc => [[sc]]) si)
    with (tf.expand_dims_1 (map (fun sc => [sc]) si))
    by (unfold tf.expand_dims_1; rewrite map_map; reflexivity).
  replace (map (fun sc => [[sc]]) sj)
    with (tf.expand_dims_1 (map (fun sc => [sc]) sj))
    by (unfold tf.expand_dims_1; rewrite map_map; reflexivity).
  rewrite broadcast3_rows; cbn [bind].
  2:{ apply (Forall2_of_Forall (fun x => length x = 1%nat)
                               (fun y => length y = 1%nat)).
      - rewrite !length_map; exact Hlen.
      - apply Forall_map, Forall_forall; reflexivity.
      - apply Forall_map, Forall_forall; reflexivity.
      - intros x y -> ->; reflexivity. }
  unfold tf.reduce_mean, keras.mean.
  rewrite (flat_rows Rminus (fun x => - ln (tf.sigmoid x)) si sj).
  reflexivity.
Qed.

(** C5. The output of the graph on a batch of triples is the mean over the
    batch of [- log (sigmoid (score_i - score_j))], where both scores are
    [W1 . (pu * q) + user_bias[u] + item_bias[item] + global_bias] on the
    fused representations [pu], [qi], [qj] of the batch. The nodes "pu",
    "qi" and "qj" hold one row of width [D] per triple of the batch, the
    nodes "prediction_i" and "prediction_j" hold the two scores of each
    triple, the node [x_ij] is the mean of the per-triple terms, one term
    per triple; [W1] is a dense layer with one unit and no bias, and the
    two scores use the same [pu], [W1] and user-bias lookup. *)
Theorem training_output_is_bpr_loss
        (training : bool) (h : Hyper) (W W' : Weights)
        (user item_i item_j : Side) (s s' : tf_random) (n : Nodes) :
  graph_nodes training h W user item_i item_j s = Ok (n, W', s') ->
  length (input_id item_i) = length (input_id user) ->
  length (input_id item_j) = length (input_id user) ->
  Forall (fun row => length row = id_embedding_size h) (user_embedding W) ->
  Forall (fun row => length row = id_embedding_size h) (item_embedding W) ->
  Forall (fun row => length row = 1%nat) (user_bias W) ->
  Forall (fun row => length row = 1%nat) (item_bias W) ->
  exists pus qis qjs,
    pu n = tf.expand_dims_1 pus
    /\ qi n = tf.expand_dims_1 qis
    /\ qj n = tf.expand_dims_1 qjs
    /\ Forall (fun p => length p = D h) pus
    /\ Forall (fun q => length q = D h) qis
    /\ Forall (fun q => length q = D h) qjs
    /\ keras.units (W1 W) = 1%nat
    /\ keras.use_bias (W1 W) = false
    /\ graph training h W user item_i item_j s
       = Ok (spec_loss W pus qis qjs (input_id user) (input_id item_i)
                       (input_id item_j), W', s')
    /\ length pus = length (input_id user)
    /\ length qis = length (input_id user)
    /\ length qjs = length (input_id user)
    /\ r_i n = map (fun sc => [[sc]])
                   (spec_scores W pus qis (input_id user) (input_id item_i))
    /\ r_j n = map (fun sc => [[sc]])
                   (spec_scores W pus qjs (input_id user) (input_id item_j))
    /\ length (spec_scores W pus qis (input_id user) (input_id item_i))
       = length (input_id user)
    /\ length (spec_scores W pus qjs (input_id user) (input_id item_j))
       = length (input_id user)
    /\ x_ij n = spec_loss W pus qis qjs (input_id user) (input_id item_i)
                          (input_id item_j).
Proof.
  intros H Hli Hlj Hue Hie Hub Hib.
  pose proof (graph_nodes_inv _ _ _ _ _ _ _ _ _ _ H)
    as (Hu & Hi & Hj & _ & _ & _ & Hpu & Hqi & Hqj & Hri & Hrj & Hloss
        & Hou & Hoi & Hoj).
  rewrite Sequential_call_again in Hj.
  apply fuse_inv in Hpu as (eu & Heu & Hu1 & Hu2 & Hpu).
  apply fuse_inv in Hqi as (ei & Hei & Hi1 & Hi2 & Hqi).
  apply fuse_inv in Hqj as (ej & Hej & Hj1 & Hj2 & Hqj).
  pose proof (Forall2_length Heu) as Hleu.
  pose proof (Forall2_length Hei) as Hlei.
  pose proof (Forall2_length Hej) as Hlej.
  match type of Hpu with _ = tf.expand_dims_1 ?l => set (pus := l) in * end.
  match type of Hqi with _ = tf.expand_dims_1 ?l => set (qis := l) in * end.
  match type of Hqj with _ = tf.expand_dims_1 ?l => set (qjs := l) in * end.
  assert (Hwu : Forall (fun p => length p = D h) pus).
  { apply fused_width; [rewrite Hu; apply mlp_call_width | exact Hou |].
    exact (lookup_rows_width _ _ _ _ Hue Heu). }
  assert (Hwi : Forall (fun q => length q = D h) qis).
  { apply fused_width; [rewrite Hi; apply mlp_call_width | exact Hoi |].
    exact (lookup_rows_width _ _ _ _ Hie Hei). }
  assert (Hwj : Forall (fun q => length q = D h) qjs).
  { apply fused_width; [rewrite Hj; apply mlp_call_width | exact Hoj |].
    exact (lookup_rows_width _ _ _ _ Hie Hej). }
  assert (Hnu : length pus = length (input_id user))
    by (subst pus; rewrite length_map, !length_combine; lia).
  assert (Hni : length qis = length (input_id user))
    by (subst qis; rewrite length_map, !length_combine; lia).
  assert (Hnj : length qjs = length (input_id user))
    by (subst qjs; rewrite length_map, !length_combine; lia).
  rewrite Hpu, Hqi in Hri; rewrite Hpu, Hqj in Hrj.
  apply prediction_rows in Hri; try assumption; try lia.
  2:{ apply (Forall2_of_Forall (fun p => length p = D h)
                               (fun q => length q = D h)); auto; try lia;
        intros x y -> ->; reflexivity. }
  apply prediction_rows in Hrj; try assumption; try lia.
  2:{ apply (Forall2_of_Forall (fun p => length p = D h)
                               (fun q => length q = D h)); auto; try lia;
        intros x y -> ->; reflexivity. }
  assert (Hsi : length (spec_scores W pus qis (input_id user) (input_id item_i))
                = length (input_id user))
    by (apply spec_scores_length; auto; lia).
  assert (Hsj : length (spec_scores W pus qjs (input_id user) (input_id item_j))
                = length (input_id user))
    by (apply spec_scores_length; auto; lia).
  rewrite Hri, Hrj in Hloss.
  rewrite bpr_loss_rows in Hloss by congruence.
  injection Hloss as Hloss.
  exists pus, qis, qjs.
  do 8 (split; [first [assumption | reflexivity]|]).
  split.
  { unfold graph, bindM; rewrite H; unfold ret, spec_loss.
    rewrite Hloss; reflexivity. }
  do 7 (split; [assumption|]).
  unfold spec_loss; symmetry; exact Hloss.
Qed.

End ScorerProperties.

(** C5, witness: the one-triple batch of the example. *)
Lemma training_output_is_bpr_loss_witness :
  exists n pus qis qjs W' s',
    Example.ex_graph_run = Ok (n, W', s')
    /\ HRDR.pu n = tf.expand_dims_1 pus
    /\ HRDR.qi n = tf.expand_dims_1 qis
    /\ HRDR.qj n = tf.expand_dims_1 qjs
    /\ length pus = 1%nat /\ length qis = 1%nat /\ length qjs = 1%nat
    /\ Forall (fun p => length p = 3%nat) pus
    /\ HRDR.r_i n
       = map (fun sc => [[sc]])
             (HRDR.spec_scores Example.ex_weights pus qis [0%nat] [0%nat])
    /\ HRDR.graph (TF := Example.ex_backend) true Example.ex_hyper
         Example.ex_weights Example.ex_side Example.ex_side Example.ex_side 0%nat
       = Ok (HRDR.spec_loss Example.ex_weights pus qis qjs
               [0%nat] [0%nat] [0%nat], W', s').
Proof.
  destruct (result_ok Example.ex_graph_run eq_refl) as [[[n W'] s'] H].
  destruct (training_output_is_bpr_loss (TF := Example.ex_backend) true
              Example.ex_hyper Example.ex_weights W' Example.ex_side
              Example.ex_side Example.ex_side 0%nat s' n H)
    as (pus & qis & qjs & Hpu & Hqi & Hqj & Hw & _ & _ & _ & _ & Hg
        & Hlu & Hli & Hlj & Hri & _);
    try reflexivity; try (repeat constructor).
  exists n, pus, qis, qjs, W', s'.
  repeat (split; [assumption|]); exact Hg.
Defined.

(** ** The weight materializer *)

Section MaterializerProperties.
Context {TF : Backend} {DP : DataProvider}.
Import HRDR.

Lemma concat_expand_dims_1 (rows : list (list R)) :
  concat (tf.expand_dims_1 rows) = rows.
Proof.
  unfold tf.expand_dims_1.
  induction rows as [|r rows IH]; simpl; [reflexivity|].
  rewrite IH; reflexivity.
Qed.

Lemma concat_length_rows (D : nat) (rows : list (list R)) :
  Forall (fun row => length row = D) rows ->
  length (concat rows) = (length rows * D)%nat.
Proof.
  induction 1 as [|r rows Hr _ IH]; simpl; [reflexivity|].
  rewrite length_app, IH, Hr; reflexivity.
Qed.

Lemma chunks_rows (D : nat) (rows : list (list R)) :
  Forall (fun row => length row = D) rows ->
  np.chunks D (length rows) (concat rows) = rows.
Proof.
  induction 1 as [|r rows Hr _ IH]; simpl; [reflexivity|].
  subst D.
  rewrite firstn_app, firstn_all, Nat.sub_diag, firstn_O, app_nil_r.
  rewrite skipn_app, skipn_all, Nat.sub_diag; simpl.
  rewrite IH; reflexivity.
Qed.

(** Reshaping a (batch, 1, D) tensor to (batch, D) gives its rows. *)
Lemma reshape2_rows (n D : nat) (rows : list (list R)) :
  length rows = n ->
  Forall (fun row => length row = D) rows ->
  np.reshape2 n D (tf.expand_dims_1 rows) = Ok rows.
Proof.
  intros Hn HD; unfold np.reshape2.
  rewrite concat_expand_dims_1, (concat_length_rows D rows HD), Hn, Nat.eqb_refl.
  rewrite <- Hn, chunks_rows by exact HD; reflexivity.
Qed.

(** [P[ids] = rows]: every id of the batch is inside [P] and gets one of
    the rows written for it; the other rows of [P] stay. *)
Lemma scatter_rows_spec :
  forall (ids : list nat) (rows P P' : list (list R)),
    np.scatter_rows ids rows P = Ok P' ->
    length ids = length rows ->
    length P' = length P
    /\ (forall u, In u ids ->
                  (u < length P)%nat
                  /\ exists k row,
                      nth_error ids k = Some u
                      /\ nth_error rows k = Some row
                      /\ nth_error P' u = Some row)
    /\ (forall u, ~ In u ids -> nth_error P' u = nth_error P u).
Proof.
  induction ids as [|id ids IH]; intros [|row rows] P P' H Hlen;
    simpl in *; try discriminate.
  - injection H as <-; split; [reflexivity|]; split; [intros u []|reflexivity].
  - destruct (Nat.ltb_spec id (length P)) as [Hlt|]; [|discriminate].
    apply IH in H as (HlenP & Hin & Hout); [|lia].
    rewrite replace_row_length in HlenP.
    split; [exact HlenP|]; split.
    + intros u Hu.
      destruct (in_dec Nat.eq_dec u ids) as [Hrest|Hrest].
      * destruct (Hin u Hrest) as (Hb & k & r & Hk & Hr & HP).
        rewrite replace_row_length in Hb.
        split; [exact Hb|]; exists (S k), r; auto.
      * destruct Hu as [->|Hu]; [|contradiction].
        split; [exact Hlt|]; exists 0%nat, row; simpl.
        repeat split.
        rewrite (Hout u Hrest); apply replace_row_same; exact Hlt.
    + intros u Hu.
      rewrite Hout by tauto.
      apply replace_row_other; intros ->; apply Hu; auto.
Qed.

Lemma with_mlps_same (W : Weights) :
  with_mlps W (l_user_mlp_weights W) (l_item_mlp_weights W) = W.
Proof. destruct W; reflexivity. Qed.

(** A successful inference call of the user sub-model: the weights are
    unchanged and the output is one row of width [D] per id. *)
Lemma user_pooling_inv (h : Hyper) (W W' : Weights) (side : Side)
      (s s' : tf_random) (pu : list (list (list R))) :
  user_attention_review_pooling false h W side s = Ok (pu, W', s') ->
  Forall (fun row => length row = id_embedding_size h) (user_embedding W) ->
  W' = W
  /\ exists pus, pu = tf.expand_dims_1 pus
                 /\ length pus = length (input_id side)
                 /\ Forall (fun p => length p = D h) pus.
Proof.
  unfold user_attention_review_pooling; intros H Hemb.
  run_step H.
  pose proof (Sequential_call_inference (l_user_mlp h W) (input_rating side))
    as Hstate.
  pose proof (mlp_call_width false (n_user_mlp_factors h) h
                (l_user_mlp_weights W) (input_rating side)) as Hwidth.
  fold (l_user_mlp h W) in Hwidth.
  destruct (keras.Sequential_call false (l_user_mlp h W) (input_rating side))
    as [rating_h l'] eqn:Hcall; simpl in Hstate, Hwidth; subst l'.
  repeat run_step H.
  apply ret_inv in H as [Hret _]; injection Hret as <- <-.
  lift_all.
  split.
  { transitivity (with_mlps W (l_user_mlp_weights W) (l_item_mlp_weights W));
      [|apply with_mlps_same].
    f_equal; destruct (l_user_mlp_weights W); reflexivity. }
  match goal with
  | Hf : fuse _ _ _ _ = Ok _ |- _ =>
      apply fuse_inv in Hf as (es & Hes & Hl1 & Hl2 & ->)
  end.
  pose proof (Forall2_length Hes) as Hles.
  eexists; split; [reflexivity|]; split.
  - rewrite length_map, !length_combine; lia.
  - apply fused_width; [exact Hwidth | | exact (lookup_rows_width _ _ _ _ Hemb Hes)].
    match goal with
    | Ho : opinion _ _ _ _ _ _ = Ok _ |- _ =>
        exact (opinion_width _ _ _ _ _ _ _ _ Ho)
    end.
Qed.

Lemma item_pooling_inv (h : Hyper) (W W' : Weights) (side : Side)
      (s s' : tf_random) (qi att : list (list (list R))) :
  item_attention_pooling false h W side s = Ok (qi, att, W', s') ->
  Forall (fun row => length row = id_embedding_size h) (item_embedding W) ->
  W' = W
  /\ exists qis, qi = tf.expand_dims_1 qis
                 /\ length qis = length (input_id side)
                 /\ Forall (fun q => length q = D h) qis.
Proof.
  unfold item_attention_pooling; intros H Hemb.
  run_step H.
  pose proof (Sequential_call_inference (l_item_mlp h W) (input_rating side))
    as Hstate.
  pose proof (mlp_call_width false (n_item_mlp_factors h) h
                (l_item_mlp_weights W) (input_rating side)) as Hwidth.
  fold (l_item_mlp h W) in Hwidth.
  destruct (keras.Sequential_call false (l_item_mlp h W) (input_rating side))
    as [rating_h l'] eqn:Hcall; simpl in Hstate, Hwidth; subst l'.
  repeat run_step H.
  apply ret_inv in H as [Hret _]; injection Hret as <- <- <-.
  lift_all.
  split.
  { transitivity (with_mlps W (l_user_mlp_weights W) (l_item_mlp_weights W));
      [|apply with_mlps_same].
    f_equal; destruct (l_item_mlp_weights W); reflexivity. }
  match goal with
  | Hf : fuse _ _ _ _ = Ok _ |- _ =>
      apply fuse_inv in Hf as (es & Hes & Hl1 & Hl2 & ->)
  end.
  pose proof (Forall2_length Hes) as Hles.
  eexists; split; [reflexivity|]; split.
  - rewrite length_map, !length_combine; lia.
  - apply fused_width; [exact Hwidth | | exact (lookup_rows_width _ _ _ _ Hemb Hes)].
    match goal with
    | Ho : opinion _ _ _ _ _ _ = Ok _ |- _ =>
        exact (opinion_width _ _ _ _ _ _ _ _ Ho)
    end.
Qed.

Lemma batch_inputs_id (h : Hyper) (train_set : Dataset) (by_ : by_kind)
      (max_num_review : nat) (batch : list nat) :
  input_id (batch_inputs h train_set by_ max_num_review batch) = batch.
Proof.
  unfold batch_inputs.
  destruct (get_data batch train_set (max_text_length h) by_ max_num_review)
    as [[reviews num_reviews] ratings]; reflexivity.
Qed.

(** Lines 201-204: after the loop, the row of every listed user is the row
    that the user sub-model computed for it in one of its batches. *)
Lemma user_loop_inv (h : Hyper) (train_set : Dataset) (max_num_review : nat) :
  forall (batches : list (list nat)) (W W' : Weights)
         (P P' : list (list R)) (s s' : tf_random),
    user_loop h train_set max_num_review batches W P s = Ok (P', W', s') ->
    Forall (fun row => length row = id_embedding_size h) (user_embedding W) ->
    W' = W
    /\ length P' = length P
    /\ (forall u, In u (concat batches) ->
          (u < length P)%nat
          /\ exists batch k su su' pu pu_row,
              In batch batches
              /\ nth_error batch k = Some u
              /\ user_attention_review_pooling false h W
                   (batch_inputs h train_set by_user max_num_review batch) su
                 = Ok (pu, W, su')
              /\ nth_error pu k = Some [pu_row]
              /\ length pu_row = D h
              /\ nth_error P' u = Some pu_row)
    /\ (forall u, ~ In u (concat batches) -> nth_error P' u = nth_error P u).
Proof.
  induction batches as [|batch rest IH]; intros W W' P P' s s' H Hemb.
  - apply ret_inv in H as [Hret _]; injection Hret as <- <-.
    split; [reflexivity|]; split; [reflexivity|];
      split; [intros u []|reflexivity].
  - simpl in H.
    apply bindM_inv in H as ([pu W1] & s1 & Hpool & H).
    do 2 run_step H; lift_all.
    destruct (user_pooling_inv _ _ _ _ _ _ _ Hpool Hemb)
      as (-> & pus & -> & Hlen & Hwidth).
    rewrite batch_inputs_id in Hlen.
    match goal with
    | Hr : np.reshape2 _ _ _ = Ok _ |- _ =>
        rewrite (reshape2_rows _ _ pus Hlen Hwidth) in Hr; injection Hr as <-
    end.
    match goal with
    | Hs : np.scatter_rows _ _ _ = Ok ?P1 |- _ =>
        apply scatter_rows_spec in Hs as (HlenP & Hin & Hout); [|lia];
        destruct (IH _ _ _ _ _ _ H Hemb) as (-> & HlenP' & Hin' & Hout')
    end.
    split; [reflexivity|]; split; [lia|]; split.
    + intros u Hu; simpl in Hu.
      destruct (in_dec Nat.eq_dec u (concat rest)) as [Hrest|Hrest].
      * destruct (Hin' u Hrest)
          as (Hb & b & k & su & su' & pu & row & Hb1 & Hb2 & Hb3 & Hb4 & Hb5 & Hb6).
        split; [lia|].
        exists b, k, su, su', pu, row; simpl; auto 10.
      * apply in_app_or in Hu as [Hu|Hu]; [|contradiction].
        destruct (Hin u Hu) as (Hb & k & row & Hk & Hrow & HP1).
        split; [exact Hb|].
        exists batch, k, s, s1, (tf.expand_dims_1 pus), row.
        split; [simpl; auto|]; split; [exact Hk|]; split; [exact Hpool|].
        split; [exact (map_nth_error (fun r => [r]) k pus Hrow)|].
        split.
        { rewrite Forall_forall in Hwidth; apply Hwidth.
          eapply nth_error_In; eauto. }
        rewrite (Hout' u Hrest); exact HP1.
    + intros u Hu; simpl in Hu.
      rewrite Hout' by (intros Hc; apply Hu, in_or_app; auto).
      apply Hout; intros Hc; apply Hu, in_or_app; auto.
Qed.

(** Lines 205-208: the same for the rows of [Q]. *)
Lemma item_loop_inv (h : Hyper) (train_set : Dataset) (max_num_review : nat) :
  forall (batches : list (list nat)) (W W' : Weights)
         (Q Q' A A' : list (list R)) (s s' : tf_random),
    item_loop h train_set max_num_review batches W Q A s = Ok (Q', A', W', s') ->
    Forall (fun row => length row = id_embedding_size h) (item_embedding W) ->
    W' = W
    /\ length Q' = length Q
    /\ (forall i, In i (concat batches) ->
          (i < length Q)%nat
          /\ exists batch k si si' qi att qi_row,
              In batch batches
              /\ nth_error batch k = Some i
              /\ item_attention_pooling false h W
                   (batch_inputs h train_set by_item max_num_review batch) si
                 = Ok (qi, att, W, si')
              /\ nth_error qi k = Some [qi_row]
              /\ length qi_row = D h
              /\ nth_error Q' i = Some qi_row)
    /\ (forall i, ~ In i (concat batches) -> nth_error Q' i = nth_error Q i).
Proof.
  induction batches as [|batch rest IH]; intros W W' Q Q' A A' s s' H Hemb.
  - apply ret_inv in H as [Hret _]; injection Hret as <- _ <-.
    split; [reflexivity|]; split; [reflexivity|];
      split; [intros u []|reflexivity].
  - simpl in H.
    apply bindM_inv in H as ([[qi att] W1] & s1 & Hpool & H).
    do 3 run_step H; lift_all.
    destruct (item_pooling_inv _ _ _ _ _ _ _ _ Hpool Hemb)
      as (-> & qis & -> & Hlen & Hwidth).
    rewrite batch_inputs_id in Hlen.
    match goal with
    | Hr : np.reshape2 _ _ (tf.expand_dims_1 _) = Ok _ |- _ =>
        rewrite (reshape2_rows _ _ qis Hlen Hwidth) in Hr; injection Hr as <-
    end.
    match goal with
    | Hs : np.scatter_rows _ _ _ = Ok ?Q1 |- _ =>
        apply scatter_rows_spec in Hs as (HlenQ & Hin & Hout); [|lia];
        destruct (IH _ _ _ _ _ _ _ _ H Hemb) as (-> & HlenQ' & Hin' & Hout')
    end.
    split; [reflexivity|]; split; [lia|]; split.
    + intros u Hu; simpl in Hu.
      destruct (in_dec Nat.eq_dec u (concat rest)) as [Hrest|Hrest].
      * destruct (Hin' u Hrest)
          as (Hb & b & k & su & su' & q & a & row
              & Hb1 & Hb2 & Hb3 & Hb4 & Hb5 & Hb6).
        split; [lia|].
        exists b, k, su, su', q, a, row; simpl; auto 10.
      * apply in_app_or in Hu as [Hu|Hu]; [|contradiction].
        destruct (Hin u Hu) as (Hb & k & row & Hk & Hrow & HQ1).
        split; [exact Hb|].
        exists batch, k, s, s1, (tf.expand_dims_1 qis), att, row.
        split; [simpl; auto|]; split; [exact Hk|]; split; [exact Hpool|].
        split; [exact (map_nth_error (fun r => [r]) k qis Hrow)|].
        split.
        { rewrite Forall_forall in Hwidth; apply Hwidth.
          eapply nth_error_In; eauto. }
        rewrite (Hout' u Hrest); exact HQ1.
    + intros u Hu; simpl in Hu.
      rewrite Hout' by (intros Hc; apply Hu, in_or_app; auto).
      apply Hout; intros Hc; apply Hu, in_or_app; auto.
Qed.

(** The prediction node on one pair of fused rows. *)
Lemma prediction_single (W : Weights) (p q : list R) (u i : nat) (bu bi : R) :
  nth_error (user_bias W) u = Some [bu] ->
  nth_error (item_bias W) i = Some [bi] ->
  length p = length q ->
  prediction W [[p]] [[q]] [u] [i] = Ok [[[spec_score W p q u i]]].
Proof.
  intros Hu Hi Hpq.
  unfold prediction, tf.multiply.
  change [[p]] with (tf.expand_dims_1 [p]).
  change [[q]] with (tf.expand_dims_1 [q]).
  rewrite broadcast3_rows by (constructor; [exact Hpq | constructor]).
  cbn [bind map combine fst snd].
  unfold keras.Embedding_call, keras.Embedding_lookup; cbn [mapM].
  rewrite Hu, Hi; cbn [bind].
  unfold keras.Add3.
  rewrite Dense_call3_rows.
  change [[[bu]]] with (tf.expand_dims_1 [[bu]]).
  change [[[bi]]] with (tf.expand_dims_1 [[bi]]).
  rewrite broadcast3_rows by (repeat constructor).
  cbn [bind].
  rewrite broadcast3_rows by (repeat constructor).
  cbn [bind].
  unfold add_global_bias, tf.map3, tf.expand_dims_1, spec_score.
  rewrite (nth_error_nth _ _ _ Hu), (nth_error_nth _ _ _ Hi).
  unfold keras.Dense_call; cbn.
  rewrite matvec_entry_dot; reflexivity.
Qed.

(** On the matrices returned by [get_weights], the serving-time score
    [W1 . (P[u] * Q[i]) + bu[u] + bi[i] + mu] of a listed user and a listed
    item is what the prediction node (the dense layer [W1], the two bias
    lookups and the global bias) gives on the rows that the sub-models
    produced for that user and that item in one of their batches of the
    materialisation pass, with the same weights. *)
Lemma serving_score_matches_stored_rows
        (h : Hyper) (W W' : Weights) (train_set : Dataset)
        (batch_size max_num_review : nat) (s0 s1 : tf_random)
        (w : ServingWeights) (u i : nat) :
  get_weights h W train_set batch_size max_num_review s0 = Ok (w, W', s1) ->
  Forall (fun row => length row = id_embedding_size h) (user_embedding W) ->
  Forall (fun row => length row = id_embedding_size h) (item_embedding W) ->
  Forall (fun row => length row = 1%nat) (user_bias W) ->
  Forall (fun row => length row = 1%nat) (item_bias W) ->
  length (user_bias W) = n_users h ->
  length (item_bias W) = n_items h ->
  In u (concat (user_iter train_set batch_size)) ->
  In i (concat (item_iter train_set batch_size)) ->
  exists batch_users k su su' pu pu_row batch_items l si si' qi att qi_row,
    In batch_users (user_iter train_set batch_size)
    /\ nth_error batch_users k = Some u
    /\ user_attention_review_pooling false h W
         (batch_inputs h train_set by_user max_num_review batch_users) su
       = Ok (pu, W, su')
    /\ nth_error pu k = Some [pu_row]
    /\ In batch_items (item_iter train_set batch_size)
    /\ nth_error batch_items l = Some i
    /\ item_attention_pooling false h W
         (batch_inputs h train_set by_item max_num_review batch_items) si
       = Ok (qi, att, W, si')
    /\ nth_error qi l = Some [qi_row]
    /\ prediction W [[pu_row]] [[qi_row]] [u] [i]
       = Ok [[[serving_score w u i]]].
Proof.
  intros H Hue Hie Hub Hib Hnu Hni Hu Hi.
  unfold get_weights in H.
  apply bindM_inv in H as ([P1 W1] & s2 & Huser & H).
  apply bindM_inv in H as ([[Q1 A1] W2] & s3 & Hitem & H).
  apply ret_inv in H as [Hret _]; injection Hret as <- <-.
  apply user_loop_inv in Huser as (-> & HlenP & HP & _); [|exact Hue].
  apply item_loop_inv in Hitem as (-> & HlenQ & HQ & _); [|exact Hie].
  destruct (HP u Hu)
    as (Hbu & bu & k & su & su' & pu & pu_row & Hb1 & Hb2 & Hb3 & Hb4 & Hb5 & Hb6).
  destruct (HQ i Hi)
    as (Hbi & bi & l & si & si' & qi & att & qi_row
        & Hc1 & Hc2 & Hc3 & Hc4 & Hc5 & Hc6).
  unfold np.zeros2 in Hbu, Hbi; rewrite repeat_length in Hbu, Hbi.
  exists bu, k, su, su', pu, pu_row, bi, l, si, si', qi, att, qi_row.
  do 8 (split; [assumption|]).
  assert (Hrow_u : exists x, nth_error (user_bias W) u = Some [x]).
  { destruct (nth_error (user_bias W) u) as [row|] eqn:Hrow.
    - rewrite Forall_forall in Hub.
      pose proof (Hub _ (nth_error_In _ _ Hrow)) as Hl.
      destruct row as [|x [|? ?]]; try discriminate; eauto.
    - apply nth_error_None in Hrow; lia. }
  assert (Hrow_i : exists x, nth_error (item_bias W) i = Some [x]).
  { destruct (nth_error (item_bias W) i) as [row|] eqn:Hrow.
    - rewrite Forall_forall in Hib.
      pose proof (Hib _ (nth_error_In _ _ Hrow)) as Hl.
      destruct row as [|x [|? ?]]; try discriminate; eauto.
    - apply nth_error_None in Hrow; lia. }
  destruct Hrow_u as [xu Hxu], Hrow_i as [xi Hxi].
  rewrite (prediction_single W pu_row qi_row u i xu xi Hxu Hxi) by congruence.
  unfold serving_score, spec_score.
  rewrite (nth_error_nth _ _ _ Hb6), (nth_error_nth _ _ _ Hc6).
  reflexivity.
Qed.

End MaterializerProperties.

(** ** Shapes of the returned matrices *)

Section MaterializerShapes.
Context {TF : Backend} {DP : DataProvider}.
Import HRDR.

Lemma replace_row_Forall (Q : list R -> Prop) (idx : nat) (r : list R)
      (M : list (list R)) :
  Forall Q M -> Q r -> Forall Q (np.replace_row idx r M).
Proof.
  intros HM Hr; revert idx.
  induction HM as [|row M Hrow HM IH]; intros [|k]; simpl;
    constructor; auto.
Qed.

Lemma scatter_rows_width (D : nat) :
  forall (ids : list nat) (rows P P' : list (list R)),
    np.scatter_rows ids rows P = Ok P' ->
    Forall (fun row => length row = D) rows ->
    Forall (fun row => length row = D) P ->
    Forall (fun row => length row = D) P'.
Proof.
  induction ids as [|id ids IH]; intros [|row rows] P P' H Hrows HP;
    simpl in H; try (injection H as <-; exact HP).
  destruct (id <? length P)%nat; [|discriminate].
  inversion Hrows; subst.
  eapply IH; eauto using replace_row_Forall.
Qed.

Lemma scatter_prefix_shape (ncols : nat) :
  forall (ids : list nat) (rows A A' : list (list R)),
    np.scatter_prefix ids rows A = Ok A' ->
    Forall (fun row => (length row <= ncols)%nat) rows ->
    Forall (fun row => length row = ncols) A ->
    length A' = length A /\ Forall (fun row => length row = ncols) A'.
Proof.
  induction ids as [|id ids IH]; intros [|row rows] A A' H Hrows HA;
    simpl in H; try (injection H as <-; auto).
  destruct (nth_error A id) as [old|] eqn:Hold; [|discriminate].
  inversion Hrows as [|? ? Hrow Hrows']; subst.
  apply IH in H; auto.
  - rewrite replace_row_length in H; exact H.
  - apply replace_row_Forall; [exact HA|].
    rewrite Forall_forall in HA.
    pose proof (HA _ (nth_error_In _ _ Hold)) as Hlen.
    rewrite length_app, length_skipn; lia.
Qed.

Lemma assign_attention_shape (max_num_review : nat) (batch_items : list nat)
      (item_attention : list (list (list R))) (A A' : list (list R)) :
  assign_attention max_num_review batch_items item_attention A = Ok A' ->
  Forall (fun row => length row = max_num_review) A ->
  length A' = length A /\ Forall (fun row => length row = max_num_review) A'.
Proof.
  unfold assign_attention; intros H HA.
  apply bind_inv in H as (rows & _ & H).
  unfold np.assign_columns in H.
  repeat match type of H with
         | (if ?c then _ else _) = Ok _ => destruct c; try discriminate
         end;
    (eapply scatter_prefix_shape; [exact H | | exact HA]);
    apply Forall_map, Forall_forall; intros r _; apply firstn_le_length.
Qed.

Lemma user_loop_shape (h : Hyper) (train_set : Dataset) (max_num_review : nat) :
  forall (batches : list (list nat)) (W W' : Weights)
         (P P' : list (list R)) (s s' : tf_random),
    user_loop h train_set max_num_review batches W P s = Ok (P', W', s') ->
    Forall (fun row => length row = id_embedding_size h) (user_embedding W) ->
    Forall (fun row => length row = D h) P ->
    Forall (fun row => length row = D h) P'.
Proof.
  induction batches as [|batch rest IH]; intros W W' P P' s s' H Hemb HP.
  - apply ret_inv in H as [Hret _]; injection Hret as <- _; exact HP.
  - simpl in H.
    apply bindM_inv in H as ([pu W1] & s1 & Hpool & H).
    do 2 run_step H; lift_all.
    destruct (user_pooling_inv _ _ _ _ _ _ _ Hpool Hemb)
      as (-> & pus & -> & Hlen & Hwidth).
    rewrite batch_inputs_id in Hlen.
    match goal with
    | Hr : np.reshape2 _ _ _ = Ok _ |- _ =>
        rewrite (reshape2_rows _ _ pus Hlen Hwidth) in Hr; injection Hr as <-
    end.
    eapply IH; eauto using scatter_rows_width.
Qed.

Lemma item_loop_shape (h : Hyper) (train_set : Dataset) (max_num_review : nat) :
  forall (batches : list (list nat)) (W W' : Weights)
         (Q Q' A A' : list (list R)) (s s' : tf_random),
    item_loop h train_set max_num_review batches W Q A s = Ok (Q', A', W', s') ->
    Forall (fun row => length row = id_embedding_size h) (item_embedding W) ->
    Forall (fun row => length row = D h) Q ->
    Forall (fun row => length row = max_num_review) A ->
    Forall (fun row => length row = D h) Q'
    /\ length A' = length A
    /\ Forall (fun row => length row = max_num_review) A'.
Proof.
  induction batches as [|batch rest IH]; intros W W' Q Q' A A' s s' H Hemb HQ HA.
  - apply ret_inv in H as [Hret _]; injection Hret as <- <- _; auto.
  - simpl in H.
    apply bindM_inv in H as ([[qi att] W1] & s1 & Hpool & H).
    do 3 run_step H; lift_all.
    destruct (item_pooling_inv _ _ _ _ _ _ _ _ Hpool Hemb)
      as (-> & qis & -> & Hlen & Hwidth).
    rewrite batch_inputs_id in Hlen.
    match goal with
    | Hr : np.reshape2 _ _ (tf.expand_dims_1 _) = Ok _ |- _ =>
        rewrite (reshape2_rows _ _ qis Hlen Hwidth) in Hr; injection Hr as <-
    end.
    match goal with
    | Ha : assign_attention _ _ _ _ = Ok _ |- _ =>
        apply assign_attention_shape in Ha as [HlenA HwA]; [|exact HA]
    end.
    apply IH in H; eauto using scatter_rows_width.
    destruct H as (HQ' & HlenA' & HA'); repeat split; auto; lia.
Qed.

(** When [get_weights] returns, [P] is (n_users, D), [Q] is (n_items, D)
    and [A] is (n_items, max_num_review), and the weights of the graph,
    the moving statistics of the batch normalisations included, are as
    before the call. *)
Lemma get_weights_shapes
      (h : Hyper) (W W' : Weights) (train_set : Dataset)
      (batch_size max_num_review : nat) (s0 s1 : tf_random)
      (P Q W1k bu bi A : list (list R)) (mu : R) :
  get_weights h W train_set batch_size max_num_review s0
  = Ok ((P, Q, W1k, bu, bi, mu, A), W', s1) ->
  Forall (fun row => length row = id_embedding_size h) (user_embedding W) ->
  Forall (fun row => length row = id_embedding_size h) (item_embedding W) ->
  W' = W
  /\ length P = n_users h /\ Forall (fun row => length row = D h) P
  /\ length Q = n_items h /\ Forall (fun row => length row = D h) Q
  /\ length A = n_items h
  /\ Forall (fun row => length row = max_num_review) A.
Proof.
  intros H Hue Hie.
  unfold get_weights in H.
  apply bindM_inv in H as ([P1 Wu] & s2 & Huser & H).
  apply bindM_inv in H as ([[Q1 A1] Wi] & s3 & Hitem & H).
  apply ret_inv in H as [Hret _]; injection Hret as <- <- _ _ _ _ <- <-.
  assert (Hz : forall r c, Forall (fun row : list R => length row = c)
                                  (np.zeros2 r c)).
  { intros r c; apply Forall_forall; intros row Hin.
    apply repeat_spec in Hin; subst; apply repeat_length. }
  pose proof (user_loop_shape _ _ _ _ _ _ _ _ _ _ Huser Hue (Hz _ _)) as HP.
  apply user_loop_inv in Huser as (-> & HlenP & _); [|exact Hue].
  pose proof (item_loop_shape _ _ _ _ _ _ _ _ _ _ _ _ Hitem Hie (Hz _ _) (Hz _ _))
    as (HQ & HlenA & HA).
  apply item_loop_inv in Hitem as (-> & HlenQ & _); [|exact Hie].
  unfold np.zeros2 in HlenP, HlenQ, HlenA; rewrite repeat_length in *.
  repeat split; assumption.
Qed.

(** The mask entry of slot [k] of entity [b] says whether [k] is below the
    review count of [b], for the slots below the largest count. *)
Lemma sequence_mask_entry (lengths : list nat) (b k len : nat) :
  nth_error lengths b = Some len ->
  (k < fold_right Nat.max 0%nat lengths)%nat ->
  exists row, nth_error (tf.sequence_mask lengths None) b = Some row
              /\ nth_error row k = Some (k <? len)%nat
              /\ length row = fold_right Nat.max 0%nat lengths.
Proof.
  intros Hb Hk; unfold tf.sequence_mask.
  eexists; split; [apply map_nth_error; exact Hb|]; split.
  - rewrite nth_error_map.
    rewrite (nth_error_nth' _ 0%nat) by (rewrite length_seq; exact Hk).
    rewrite seq_nth by exact Hk; reflexivity.
  - rewrite length_map, length_seq; reflexivity.
Qed.

End MaterializerShapes.

(** ** Concrete runs *)

Ltac rmax_eval :=
  repeat match goal with
         | |- context [Rmax ?a ?b] =>
             first [ rewrite (Rmax_left a b) by lra
                   | rewrite (Rmax_right a b) by lra ]
         end.

(** Arguments of [exp] that are provably 0 or 1 are replaced by 0 or 1. *)
Ltac exp_eval :=
  repeat match goal with
         | |- context [exp ?t] =>
             lazymatch t with
             | 0 => fail
             | 1 => fail
             | _ => first [ replace t with 0 by lra | replace t with 1 by lra ]
             end
         end;
  rewrite ?exp_0.

(** Equality of two tensors, entry by entry. *)
Ltac tensor_eq :=
  repeat match goal with
         | |- ?x = ?x => reflexivity
         | |- Ok _ = Ok _ => apply f_equal
         | |- (_, _) = (_, _) => apply f_equal2
         | |- _ :: _ = _ :: _ => apply f_equal2
         end.

Ltac real_eq := first [ lra | field; repeat split; lra ].

(** C2. The attention head and the projection of the positive-item branch
    and those of the negative-item branch are different layers with their
    own weights: on the same review features, rating feature and review
    count, weights that differ between [a_item_i] and [a_item_j], and
    between [oi] and [oj], give different attention weights and different
    opinion vectors. *)
Theorem item_branches_have_own_weights :
  let W := Example.ex_weights_with 0 1 1 2 in
  let reviews_h := [[[1]; [0]]] in
  let rating_h := [[1]] in
  let num_reviews := [2%nat] in
  HRDR.attention Example.ex_hyper (HRDR.a_item_i_weights W)
                 reviews_h rating_h num_reviews
  = Ok [[[1 / 2]; [1 / 2]]]
  /\ HRDR.attention Example.ex_hyper (HRDR.a_item_j_weights W)
                    reviews_h rating_h num_reviews
     = Ok [[[exp 1 / (exp 1 + 1)]; [1 / (exp 1 + 1)]]]
  /\ exp 1 / (exp 1 + 1) <> 1 / 2
  /\ HRDR.opinion (TF := Example.ex_backend) Example.ex_hyper false
       (HRDR.oi_layer Example.ex_hyper W) [[[1 / 2]; [1 / 2]]] reviews_h 0%nat
     = Ok ([[1 / 2]], 0%nat)
  /\ HRDR.opinion (TF := Example.ex_backend) Example.ex_hyper false
       (HRDR.oj_layer Example.ex_hyper W) [[[1 / 2]; [1 / 2]]] reviews_h 0%nat
     = Ok ([[1]], 0%nat).
Proof.
  cbv zeta.
  pose proof (exp_ineq1 1 ltac:(lra)) as He.
  split; [|split; [|split; [|split]]].
  - cbn -[Rmax exp]. tensor_eq; exp_eval; real_eq.
  - cbn -[Rmax exp]. rmax_eval. exp_eval. tensor_eq; real_eq.
  - intros H.
    assert (Hd : exp 1 / (exp 1 + 1) - 1 / 2 = (exp 1 - 1) / (2 * (exp 1 + 1)))
      by (field; lra).
    assert (Hp : 0 < (exp 1 - 1) / (2 * (exp 1 + 1)))
      by (apply Rdiv_lt_0_compat; lra).
    lra.
  - cbn -[Rmax exp]. unfold ret. tensor_eq; real_eq.
  - cbn -[Rmax exp]. unfold ret. tensor_eq; real_eq.
Qed.

(** C3. The mask is as wide as the largest review count of the batch
    ([i_*_review.shape[1]] is [None]), not as wide as the review axis. For
    one entity with one valid review in a review axis of two slots the
    mask is the single entry [true], it broadcasts over both slots, and the
    padded slot 1 gets weight 1/2. *)
Theorem padded_slot_gets_attention :
  HRDR.review_shape_1 Example.ex_hyper = None
  /\ tf.sequence_mask [1%nat] (HRDR.review_shape_1 Example.ex_hyper) = [[true]]
  /\ HRDR.attention Example.ex_hyper (Example.ex_attention 0)
                    [[[1]; [0]]] [[1]] [1%nat]
     = Ok [[[1 / 2]; [1 / 2]]].
Proof.
  split; [reflexivity|]; split; [reflexivity|].
  cbn -[Rmax exp]. tensor_eq; exp_eval; real_eq.
Qed.

(** C6. [get_weights] with [max_num_review = 2] on the data set whose only
    item has one review: the provider returns a review axis of two slots
    and the count 1, and the returned [A] has 1/2 in column 1 of that
    item's row (same cause as C3). And with [max_num_review = 1] on the
    data set whose item 0 has no review and shares its batch with item 1:
    every slot of item 0 is masked, the softmax over them still sums to
    one, and row 0 of [A] is [[1]]. *)
Theorem attention_matrix_padded_column_nonzero :
  get_data (DataProvider := Example.ex_provider) [0%nat] Example.ex_train_set
           1 by_item 2
  = ([[[4%nat]; [0%nat]]], [1%nat], [[1]])
  /\ match Example.ex_get_weights 2 0 with
     | Ok ((_, _, _, _, _, _, A), _, _) => A = [[1 / 2; 1 / 2]]
     | Raise _ => False
     end
  /\ get_data (DataProvider := Example.ex_provider) [0%nat; 1%nat]
              Example.ex_train_set2 1 by_item 1
     = ([[[0%nat]]; [[4%nat]]], [0%nat; 1%nat], [[1]; [1]])
  /\ match Example.ex_get_weights2 1 0 with
     | Ok ((_, _, _, _, _, _, A), _, _) => A = [[1]; [1]]
     | Raise _ => False
     end.
Proof.
  split; [reflexivity|]; split; [|split; [reflexivity|]].
  - unfold Example.ex_get_weights.
    cbn -[Rmax exp sqrt].
    tensor_eq; exp_eval; real_eq.
  - unfold Example.ex_get_weights2.
    cbn -[Rmax exp sqrt].
    tensor_eq;
      match goal with
      | |- exp ?t / (exp ?t + 0) = 1 =>
          pose proof (exp_pos t); field; lra
      end.
Qed.

(** C7. Two calls of [get_weights] on the same weights and the same data
    set return different [P]: the text processors run with their fixed
    [training=True] also inside [get_weights], so their dropout draws from
    the generator, whose state the first call has advanced. The weights
    (the batch-normalisation statistics included) are unchanged by the
    first call. *)
Theorem get_weights_not_deterministic :
  match Example.ex_get_weights 1 0 with
  | Ok ((P1, _, _, _, _, _, _), W1, s1) =>
      W1 = Example.ex_weights
      /\ match Example.ex_get_weights 1 s1 with
         | Ok ((P2, _, _, _, _, _, _), _, _) =>
             P1 = [[1; 2; 3]] /\ P2 = [[1; 0; 3]]
         | Raise _ => False
         end
  | Raise _ => False
  end.
Proof.
  unfold Example.ex_get_weights.
  cbn -[Rmax exp sqrt].
  split; [reflexivity|].
  split; tensor_eq; exp_eval; real_eq.
Qed.

Ltac sqrt_pos :=
  match goal with
  | |- context [sqrt ?t] =>
      let H := fresh "Hsqrt" in
      assert (H : 0 < sqrt t) by (apply sqrt_lt_R0; lra);
      pose proof (Rinv_0_lt_compat _ H)
  end.

(** C8, counterexample: one training call on the same batch of two triples.
    The first item rating vector is [[1]] in both branches, and the
    batch normalisation subtracts the mean of each batch: 2 in the positive
    branch, 1/2 in the negative one. The feature of the first row is
    negative in the positive branch and positive in the negative branch. *)
Lemma rating_feature_depends_on_batch :
  exists n W' s' x y,
    HRDR.graph_nodes (TF := Example.ex_backend) true Example.ex_hyper
      Example.ex_weights_pass (Example.ex_side2 1 1) (Example.ex_side2 1 3)
      (Example.ex_side2 1 0) 0%nat
    = Ok (n, W', s')
    /\ nth_error (HRDR.input_rating (Example.ex_side2 1 3)) 0 = Some [1]
    /\ nth_error (HRDR.input_rating (Example.ex_side2 1 0)) 0 = Some [1]
    /\ nth_error (HRDR.item_i_rating_h n) 0 = Some [x]
    /\ nth_error (HRDR.item_j_rating_h n) 0 = Some [y]
    /\ x < 0 /\ 0 < y.
Proof.
  destruct (result_ok
              (HRDR.graph_nodes (TF := Example.ex_backend) true
                 Example.ex_hyper Example.ex_weights_pass
                 (Example.ex_side2 1 1) (Example.ex_side2 1 3)
                 (Example.ex_side2 1 0) 0%nat) eq_refl)
    as [[[n W'] s'] H].
  exists n, W'; exists s'.
  destruct (graph_nodes_inv _ _ _ _ _ _ _ _ _ _ H) as (_ & Hi & Hj & _).
  rewrite Sequential_call_again in Hj.
  rewrite Hi, Hj.
  do 2 eexists.
  split; [exact H|].
  split; [reflexivity|]; split; [reflexivity|].
  cbn -[Rmax sqrt].
  split; [reflexivity|]; split; [reflexivity|].
  rmax_eval.
  unfold keras.variance, keras.mean, keras.bn_epsilon, tf.sum.
  cbn [map fold_right length INR].
  split; sqrt_pos; unfold Rdiv in *; nra.
Qed.

(** C1. [get_weights] asks its sub-models for inference mode, but the text
    encoders keep the [training=True] of lines 77-79, so the rows it stores
    carry the dropout draws of the materialisation pass, and a forward pass
    of the full graph on the same weights draws again. With bias 1 on "oi"
    and "oj", one user and one item: [get_weights] from generator state 0
    stores [P = [[1; 2; 3]]] and [Q = [[1; 1; 5]]], and the serving score
    of the pair (0, 0) is 22.2; the inference call of the full graph on the
    same inputs, from the state [get_weights] left, has "pu" [[1; 0; 3]],
    "qi" [[1; 3; 5]] and the score 20.2. Neither call changes the
    weights. *)
Theorem serving_score_differs_from_graph :
  HRDR.batch_inputs (DP := Example.ex_provider)
    Example.ex_hyper Example.ex_train_set by_user 1 [0%nat] = Example.ex_side
  /\ HRDR.batch_inputs (DP := Example.ex_provider)
       Example.ex_hyper Example.ex_train_set by_item 1 [0%nat] = Example.ex_side
  /\ match HRDR.get_weights (TF := Example.ex_backend)
             (DP := Example.ex_provider) Example.ex_hyper
             Example.ex_weights_shift Example.ex_train_set 64 1 0%nat with
     | Ok ((P, Q, W1k, bu, bi, mu, A), W1, s1) =>
         W1 = Example.ex_weights_shift
         /\ s1 = 2%nat
         /\ P = [[1; 2; 3]]
         /\ Q = [[1; 1; 5]]
         /\ HRDR.serving_score (P, Q, W1k, bu, bi, mu, A) 0 0 = 22.2
         /\ match HRDR.graph_nodes (TF := Example.ex_backend) false
                    Example.ex_hyper W1 Example.ex_side Example.ex_side
                    Example.ex_side s1 with
            | Ok (n, W2, _) =>
                W2 = Example.ex_weights_shift
                /\ HRDR.pu n = [[[1; 0; 3]]]
                /\ HRDR.qi n = [[[1; 3; 5]]]
                /\ HRDR.r_i n = [[[20.2]]]
            | Raise _ => False
            end
     | Raise _ => False
     end.
Proof.
  split; [reflexivity|]; split; [reflexivity|].
  cbn -[Rmax exp sqrt ln tf.sigmoid].
  split; [reflexivity|]; split; [reflexivity|].
  split; [tensor_eq; rmax_eval; exp_eval; real_eq|].
  split; [tensor_eq; rmax_eval; exp_eval; real_eq|].
  split; [rmax_eval; exp_eval; real_eq|].
  split; [reflexivity|].
  repeat split; tensor_eq; rmax_eval; exp_eval; real_eq.
Qed.

(** * Further properties *)

(** ** The materializer, whatever the shapes of the weights *)

Section MaterializerRows.
Context {TF : Backend} {DP : DataProvider}.
Import HRDR.

Lemma chunks_length (width count : nat) (flat : list R) :
  length (np.chunks width count flat) = count.
Proof.
  revert flat; induction count as [|c IH]; intros flat; simpl; auto.
Qed.

Lemma chunks_width (width count : nat) (flat : list R) :
  length flat = (count * width)%nat ->
  Forall (fun row => length row = width) (np.chunks width count flat).
Proof.
  revert flat; induction count as [|c IH]; intros flat Hlen; simpl;
    constructor.
  - rewrite length_firstn; simpl in Hlen; lia.
  - apply IH; rewrite length_skipn; simpl in Hlen; lia.
Qed.

(** A successful [X.reshape(rows, cols)] has that shape. *)
Lemma reshape2_shape (rows cols : nat) (X : list (list (list R)))
      (Y : list (list R)) :
  np.reshape2 rows cols X = Ok Y ->
  length Y = rows /\ Forall (fun row => length row = cols) Y.
Proof.
  unfold np.reshape2; intros H.
  destruct (Nat.eqb_spec (length (concat (concat X))) (rows * cols)) as [Hlen|];
    [|discriminate].
  injection H as <-; split; [apply chunks_length | apply chunks_width, Hlen].
Qed.

Lemma scatter_prefix_untouched :
  forall (ids : list nat) (rows A A' : list (list R)),
    np.scatter_prefix ids rows A = Ok A' ->
    forall i, ~ In i ids -> nth_error A' i = nth_error A i.
Proof.
  induction ids as [|id ids IH]; intros [|row rows] A A' H i Hi;
    simpl in H; try (injection H as <-; reflexivity).
  destruct (nth_error A id) as [old|]; [|discriminate].
  rewrite (IH _ _ _ H i) by (intros Hc; apply Hi; right; exact Hc).
  apply replace_row_other; intros ->; apply Hi; left; reflexivity.
Qed.

Lemma assign_attention_untouched (max_num_review : nat) (batch_items : list nat)
      (item_attention : list (list (list R))) (A A' : list (list R)) :
  assign_attention max_num_review batch_items item_attention A = Ok A' ->
  forall i, ~ In i batch_items -> nth_error A' i = nth_error A i.
Proof.
  unfold assign_attention; intros H i Hi.
  apply bind_inv in H as (rows & _ & H).
  unfold np.assign_columns in H.
  repeat match type of H with
         | (if ?c then _ else _) = Ok _ => destruct c; try discriminate
         end;
    eapply scatter_prefix_untouched; eauto.
Qed.

(** An inference call of a sub-model leaves every weight as it was. *)
Lemma user_pooling_weights (h : Hyper) (W W' : Weights) (side : Side)
      (s s' : tf_random) (pu : list (list (list R))) :
  user_attention_review_pooling false h W side s = Ok (pu, W', s') -> W' = W.
Proof.
  unfold user_attention_review_pooling; intros H.
  run_step H.
  pose proof (Sequential_call_inference (l_user_mlp h W) (input_rating side))
    as Hstate.
  destruct (keras.Sequential_call false (l_user_mlp h W) (input_rating side))
    as [rating_h l'] eqn:Hcall; simpl in Hstate; subst l'.
  repeat run_step H.
  apply ret_inv in H as [Hret _]; injection Hret as _ <-.
  transitivity (with_mlps W (l_user_mlp_weights W) (l_item_mlp_weights W));
    [|apply with_mlps_same].
  f_equal; destruct (l_user_mlp_weights W); reflexivity.
Qed.

Lemma item_pooling_weights (h : Hyper) (W W' : Weights) (side : Side)
      (s s' : tf_random) (qi att : list (list (list R))) :
  item_attention_pooling false h W side s = Ok (qi, att, W', s') -> W' = W.
Proof.
  unfold item_attention_pooling; intros H.
  run_step H.
  pose proof (Sequential_call_inference (l_item_mlp h W) (input_rating side))
    as Hstate.
  destruct (keras.Sequential_call false (l_item_mlp h W) (input_rating side))
    as [rating_h l'] eqn:Hcall; simpl in Hstate; subst l'.
  repeat run_step H.
  apply ret_inv in H as [Hret _]; injection Hret as _ _ <-.
  transitivity (with_mlps W (l_user_mlp_weights W) (l_item_mlp_weights W));
    [|apply with_mlps_same].
  f_equal; destruct (l_item_mlp_weights W); reflexivity.
Qed.

(** Lines 201-204, for any weights: the loop keeps the weights and the
    number of rows of [P], writes rows of width [D] only, writes only rows
    of listed users, and every listed user is inside [P]. *)
Lemma user_loop_rows (h : Hyper) (train_set : Dataset) (max_num_review : nat) :
  forall (batches : list (list nat)) (W W' : Weights)
         (P P' : list (list R)) (s s' : tf_random),
    user_loop h train_set max_num_review batches W P s = Ok (P', W', s') ->
    W' = W
    /\ length P' = length P
    /\ (Forall (fun row => length row = D h) P ->
        Forall (fun row => length row = D h) P')
    /\ (forall u, In u (concat batches) -> (u < length P)%nat)
    /\ (forall u, ~ In u (concat batches) -> nth_error P' u = nth_error P u).
Proof.
  induction batches as [|batch rest IH]; intros W W' P P' s s' H.
  - apply ret_inv in H as [Hret _]; injection Hret as <- <-.
    repeat split; auto; intros u [].
  - simpl in H.
    apply bindM_inv in H as ([pu W1] & s1 & Hpool & H).
    do 2 run_step H; lift_all.
    apply user_pooling_weights in Hpool as ->.
    match goal with
    | Hr : np.reshape2 _ _ _ = Ok _ |- _ =>
        apply reshape2_shape in Hr as [Hrows Hwidth]
    end.
    destruct (IH _ _ _ _ _ _ H) as (-> & HlenP' & HwP' & Hin' & Hout').
    match goal with
    | Hs : np.scatter_rows _ _ _ = Ok ?P1 |- _ =>
        pose proof (scatter_rows_width (D h) _ _ _ _ Hs Hwidth) as HwP1;
        apply scatter_rows_spec in Hs as (HlenP & Hin & Hout); [|lia]
    end.
    split; [reflexivity|]; split; [lia|]; split; [auto|]; split.
    + intros u Hu; simpl in Hu.
      apply in_app_or in Hu as [Hu|Hu].
      * apply Hin; exact Hu.
      * rewrite <- HlenP; apply Hin'; exact Hu.
    + intros u Hu; simpl in Hu.
      rewrite Hout' by (intros Hc; apply Hu, in_or_app; auto).
      apply Hout; intros Hc; apply Hu, in_or_app; auto.
Qed.

(** Lines 205-209, for any weights. *)
Lemma item_loop_rows (h : Hyper) (train_set : Dataset) (max_num_review : nat) :
  forall (batches : list (list nat)) (W W' : Weights)
         (Q Q' A A' : list (list R)) (s s' : tf_random),
    item_loop h train_set max_num_review batches W Q A s = Ok (Q', A', W', s') ->
    W' = W
    /\ length Q' = length Q
    /\ (Forall (fun row => length row = D h) Q ->
        Forall (fun row => length row = D h) Q')
    /\ (Forall (fun row => length row = max_num_review) A ->
        length A' = length A
        /\ Forall (fun row => length row = max_num_review) A')
    /\ (forall i, In i (concat batches) -> (i < length Q)%nat)
    /\ (forall i, ~ In i (concat batches) ->
                  nth_error Q' i = nth_error Q i
                  /\ nth_error A' i = nth_error A i).
Proof.
  induction batches as [|batch rest IH]; intros W W' Q Q' A A' s s' H.
  - apply ret_inv in H as [Hret _]; injection Hret as <- <- <-.
    repeat split; auto; intros u [].
  - simpl in H.
    apply bindM_inv in H as ([[qi att] W1] & s1 & Hpool & H).
    do 3 run_step H; lift_all.
    apply item_pooling_weights in Hpool as ->.
    match goal with
    | Hr : np.reshape2 _ _ qi = Ok _ |- _ =>
        apply reshape2_shape in Hr as [Hrows Hwidth]
    end.
    destruct (IH _ _ _ _ _ _ _ _ H) as (-> & HlenQ' & HwQ' & HA' & Hin' & Hout').
    match goal with
    | Hs : np.scatter_rows _ _ _ = Ok ?Q1 |- _ =>
        pose proof (scatter_rows_width (D h) _ _ _ _ Hs Hwidth) as HwQ1;
        apply scatter_rows_spec in Hs as (HlenQ & Hin & Hout); [|lia]
    end.
    match goal with
    | Ha : assign_attention _ _ _ _ = Ok _ |- _ =>
        pose proof (assign_attention_untouched _ _ _ _ _ Ha) as HoutA;
        pose proof (assign_attention_shape _ _ _ _ _ Ha) as HshapeA
    end.
    split; [reflexivity|]; split; [lia|]; split; [auto|]; split; [|split].
    + intros HA.
      destruct (HshapeA HA) as [Hl1 Hw1].
      destruct (HA' Hw1) as [Hl2 Hw2].
      split; [lia | exact Hw2].
    + intros u Hu; simpl in Hu.
      apply in_app_or in Hu as [Hu|Hu].
      * apply Hin; exact Hu.
      * rewrite <- HlenQ; apply Hin'; exact Hu.
    + intros u Hu; simpl in Hu.
      assert (Hrest : ~ In u (concat rest))
        by (intros Hc; apply Hu, in_or_app; auto).
      assert (Hbatch : ~ In u batch)
        by (intros Hc; apply Hu, in_or_app; auto).
      destruct (Hout' u Hrest) as [HQu HAu].
      rewrite HQu, HAu; split; [apply Hout | apply HoutA]; exact Hbatch.
Qed.

Lemma zeros2_rows (r c : nat) :
  Forall (fun row : list R => length row = c) (np.zeros2 r c).
Proof.
  apply Forall_forall; intros row Hin.
  apply repeat_spec in Hin; subst; apply repeat_length.
Qed.

Lemma zeros2_row (r c k : nat) :
  (k < r)%nat -> nth_error (np.zeros2 r c) k = Some (np.zeros c).
Proof. intros Hk; unfold np.zeros2; apply nth_error_repeat; exact Hk. Qed.

(** X1. Whenever [get_weights] returns, [P] is (n_users, D), [Q] is
    (n_items, D) and [A] is (n_items, max_num_review), whatever the shapes
    of the weights; [W1], [bu], [bi] and [mu] are the kernel of "W1", the
    two bias tables and the global bias as the graph stores them; and the
    weights of the graph are what they were before the call. *)
Theorem get_weights_returns_shapes
        (h : Hyper) (W W' : Weights) (train_set : Dataset)
        (batch_size max_num_review : nat) (s0 s1 : tf_random)
        (P Q W1k bu bi A : list (list R)) (mu : R) :
  get_weights h W train_set batch_size max_num_review s0
  = Ok ((P, Q, W1k, bu, bi, mu, A), W', s1) ->
  length P = n_users h /\ Forall (fun row => length row = D h) P
  /\ length Q = n_items h /\ Forall (fun row => length row = D h) Q
  /\ length A = n_items h
  /\ Forall (fun row => length row = max_num_review) A
  /\ W1k = keras.kernel (W1_weights W)
  /\ bu = user_bias W /\ bi = item_bias W /\ mu = global_bias W
  /\ W' = W.
Proof.
  intros H.
  unfold get_weights in H.
  apply bindM_inv in H as ([P1 Wu] & s2 & Huser & H).
  apply bindM_inv in H as ([[Q1 A1] Wi] & s3 & Hitem & H).
  apply ret_inv in H as [Hret _].
  apply user_loop_rows in Huser as (-> & HlenP & HwP & _).
  apply item_loop_rows in Hitem as (-> & HlenQ & HwQ & HA & _).
  destruct (HA (zeros2_rows _ _)) as [HlenA HwA].
  injection Hret as <- <- <- <- <- <- <- <-.
  unfold np.zeros2 in HlenP, HlenQ, HlenA; rewrite repeat_length in *.
  repeat split; auto using zeros2_rows.
Qed.

(** X2. A user that [user_iter] never yields keeps the all-zero row of [P]
    that [np.zeros] gave it, and an item that [item_iter] never yields
    keeps the all-zero rows of [Q] and [A]. *)
Theorem get_weights_unlisted_rows_zero
        (h : Hyper) (W W' : Weights) (train_set : Dataset)
        (batch_size max_num_review : nat) (s0 s1 : tf_random)
        (P Q W1k bu bi A : list (list R)) (mu : R) :
  get_weights h W train_set batch_size max_num_review s0
  = Ok ((P, Q, W1k, bu, bi, mu, A), W', s1) ->
  (forall u, (u < n_users h)%nat ->
             ~ In u (concat (user_iter train_set batch_size)) ->
             nth_error P u = Some (np.zeros (D h)))
  /\ (forall i, (i < n_items h)%nat ->
                ~ In i (concat (item_iter train_set batch_size)) ->
                nth_error Q i = Some (np.zeros (D h))
                /\ nth_error A i = Some (np.zeros max_num_review)).
Proof.
  intros H.
  unfold get_weights in H.
  apply bindM_inv in H as ([P1 Wu] & s2 & Huser & H).
  apply bindM_inv in H as ([[Q1 A1] Wi] & s3 & Hitem & H).
  apply ret_inv in H as [Hret _].
  apply user_loop_rows in Huser as (-> & _ & _ & _ & HP).
  apply item_loop_rows in Hitem as (-> & _ & _ & _ & _ & HQ).
  injection Hret as <- <- _ _ _ _ <- _.
  split.
  - intros u Hu Hout; rewrite (HP u Hout); apply zeros2_row; exact Hu.
  - intros i Hi Hout; destruct (HQ i Hout) as [-> ->].
    split; apply zeros2_row; exact Hi.
Qed.

(** X3. [get_weights] raises when the data set yields a user id that is
    not below [n_users], or an item id that is not below [n_items]. *)
Theorem get_weights_id_out_of_range
        (h : Hyper) (W : Weights) (train_set : Dataset)
        (batch_size max_num_review : nat) (s0 : tf_random) (id : nat) :
  (In id (concat (user_iter train_set batch_size)) /\ (n_users h <= id)%nat)
  \/ (In id (concat (item_iter train_set batch_size)) /\ (n_items h <= id)%nat) ->
  exists e,
    get_weights h W train_set batch_size max_num_review s0 = Raise e.
Proof.
  intros Hid.
  destruct (get_weights h W train_set batch_size max_num_review s0)
    as [[[w W'] s1]|e] eqn:H; [exfalso | eauto].
  unfold get_weights in H.
  apply bindM_inv in H as ([P1 Wu] & s2 & Huser & H).
  apply bindM_inv in H as ([[Q1 A1] Wi] & s3 & Hitem & H).
  apply user_loop_rows in Huser as (_ & _ & _ & HP & _).
  apply item_loop_rows in Hitem as (_ & _ & _ & _ & HQ & _).
  unfold np.zeros2 in HP, HQ; rewrite repeat_length in HP, HQ.
  destruct Hid as [[Hin Hge]|[Hin Hge]].
  - specialize (HP id Hin); lia.
  - specialize (HQ id Hin); lia.
Qed.

End MaterializerRows.

(** X1, witness: the one-user, one-item data set with
    [max_num_review = 2]. *)
Lemma get_weights_returns_shapes_witness :
  exists P Q W1k bu bi mu A W' s1,
    Example.ex_get_weights 2 0 = Ok ((P, Q, W1k, bu, bi, mu, A), W', s1)
    /\ length P = 1%nat /\ Forall (fun row => length row = 3%nat) P
    /\ length A = 1%nat /\ Forall (fun row => length row = 2%nat) A
    /\ W' = Example.ex_weights.
Proof.
  destruct (result_ok (Example.ex_get_weights 2 0) eq_refl)
    as [[[[[[[[[P Q] W1k] bu] bi] mu] A] W'] s1] H].
  destruct (get_weights_returns_shapes
              (TF := Example.ex_backend) (DP := Example.ex_provider)
              Example.ex_hyper Example.ex_weights W' Example.ex_train_set
              64 2 0%nat s1 P Q W1k bu bi A mu H)
    as (HP & HwP & _ & _ & HA & HwA & _ & _ & _ & _ & HW).
  exists P, Q, W1k, bu, bi, mu, A, W', s1; auto 10.
Defined.

(** X2, witness: the model with two items on the data set that lists item 0
    only; item 1 keeps its zero rows. *)
Lemma get_weights_unlisted_rows_zero_witness :
  exists P Q W1k bu bi mu A W' s1,
    HRDR.get_weights (TF := Example.ex_backend) (DP := Example.ex_provider)
      Example.ex_hyper2 Example.ex_weights2 Example.ex_train_set 64 1 0%nat
    = Ok ((P, Q, W1k, bu, bi, mu, A), W', s1)
    /\ nth_error Q 1 = Some [0; 0; 0]
    /\ nth_error A 1 = Some [0].
Proof.
  destruct (result_ok
              (HRDR.get_weights (TF := Example.ex_backend)
                 (DP := Example.ex_provider)
                 Example.ex_hyper2 Example.ex_weights2 Example.ex_train_set
                 64 1 0%nat) eq_refl)
    as [[[[[[[[[P Q] W1k] bu] bi] mu] A] W'] s1] H].
  destruct (get_weights_unlisted_rows_zero
              (TF := Example.ex_backend) (DP := Example.ex_provider)
              Example.ex_hyper2 Example.ex_weights2 W' Example.ex_train_set
              64 1 0%nat s1 P Q W1k bu bi A mu H)
    as [_ HQ].
  destruct (HQ 1%nat) as [HQ1 HA1];
    [simpl; lia | simpl; intros [Hc|[]]; discriminate |].
  exists P, Q, W1k, bu, bi, mu, A, W', s1; auto.
Defined.

(** X3, witness: the one-item model on the data set that lists the items
    0 and 1. *)
Lemma get_weights_id_out_of_range_witness :
  exists e,
    HRDR.get_weights (TF := Example.ex_backend) (DP := Example.ex_provider)
      Example.ex_hyper Example.ex_weights Example.ex_train_set2 64 1 0%nat
    = Raise e.
Proof.
  apply (get_weights_id_out_of_range
           (TF := Example.ex_backend) (DP := Example.ex_provider)
           Example.ex_hyper Example.ex_weights Example.ex_train_set2
           64 1 0%nat 1%nat).
  right; split; [simpl; auto | simpl; lia].
Defined.

(** ** Broadcasting *)

Section BroadcastProperties.

Lemma mapM_Forall {A B : Type} (f : A -> result B) (P : B -> Prop) :
  forall (xs : list A) (zs : list B),
    (forall x z, In x xs -> f x = Ok z -> P z) ->
    mapM f xs = Ok zs -> length zs = length xs /\ Forall P zs.
Proof.
  induction xs as [|x xs IH]; simpl; intros zs HP H.
  - injection H as <-; auto.
  - destruct (f x) as [z|] eqn:Hz; simpl in H; [|discriminate].
    destruct (mapM f xs) as [zs'|] eqn:Hzs; simpl in H; [|discriminate].
    injection H as <-.
    destruct (IH zs') as [Hlen Hall]; [eauto | reflexivity |].
    split; [simpl; lia | constructor; eauto].
Qed.

Lemma zipM_Forall {A B C : Type} (f : A -> B -> result C) (P : C -> Prop) :
  forall (xs : list A) (ys : list B) (zs : list C),
    (forall x y z, In x xs -> In y ys -> f x y = Ok z -> P z) ->
    tf.zipM f xs ys = Ok zs ->
    length zs = Nat.min (length xs) (length ys) /\ Forall P zs.
Proof.
  induction xs as [|x xs IH]; intros [|y ys] zs HP H; simpl in H;
    try (injection H as <-; auto).
  destruct (f x y) as [z|] eqn:Hz; simpl in H; [|discriminate].
  destruct (tf.zipM f xs ys) as [zs'|] eqn:Hzs; simpl in H; [|discriminate].
  injection H as <-.
  destruct (IH ys zs') as [Hlen Hall];
    [intros; eapply HP; simpl; eauto | exact Hzs |].
  split; [simpl; lia | constructor; [eapply HP; simpl; eauto | exact Hall]].
Qed.

(** Every entry of a broadcast result comes from one entry of each side. *)
Lemma broadcast_Forall {A B C : Type} (f : A -> B -> result C) (P : C -> Prop)
      (xs : list A) (ys : list B) (zs : list C) :
  (forall x y z, In x xs -> In y ys -> f x y = Ok z -> P z) ->
  tf.broadcast f xs ys = Ok zs -> Forall P zs.
Proof.
  intros HP; unfold tf.broadcast.
  destruct (length xs =? length ys)%nat.
  - intros H; exact (proj2 (zipM_Forall f P xs ys zs HP H)).
  - destruct xs as [|x [|x' xs]].
    + destruct ys as [|y [|y' ys]]; try discriminate.
      intros H; injection H as <-; constructor.
    + intros H; refine (proj2 (mapM_Forall (f x) P ys zs _ H)).
      intros y z Hy Hz; exact (HP x y z (or_introl eq_refl) Hy Hz).
    + destruct ys as [|y [|y' ys]]; try discriminate.
      intros H;
        refine (proj2 (mapM_Forall (fun x => f x y) P (x :: x' :: xs) zs _ H)).
      intros a z Ha Hz; exact (HP a y z Ha (or_introl eq_refl) Hz).
Qed.

(** Broadcasting two rows of one entry gives a row of one entry. *)
Lemma broadcast_pure_singleton {A B C : Type} (g : A -> B -> C)
      (x : list A) (y : list B) (z : list C) :
  length x = 1%nat -> length y = 1%nat ->
  tf.broadcast (fun a b => Ok (g a b)) x y = Ok z -> length z = 1%nat.
Proof.
  intros Hx Hy.
  destruct x as [|a [|? ?]]; try discriminate.
  destruct y as [|b [|? ?]]; try discriminate.
  cbn; intros H; injection H as <-; reflexivity.
Qed.

Lemma broadcast3_singletons {A B C : Type} (g : A -> B -> C)
      (X : list (list (list A))) (Y : list (list (list B)))
      (Z : list (list (list C))) :
  Forall (Forall (fun x => length x = 1%nat)) X ->
  Forall (Forall (fun y => length y = 1%nat)) Y ->
  tf.broadcast3 g X Y = Ok Z ->
  Forall (Forall (fun z => length z = 1%nat)) Z.
Proof.
  intros HX HY; unfold tf.broadcast3.
  apply broadcast_Forall; intros Xb Yb Zb HXb HYb.
  apply broadcast_Forall; intros x y z Hx Hy.
  rewrite Forall_forall in HX, HY.
  specialize (HX _ HXb); specialize (HY _ HYb).
  rewrite Forall_forall in HX, HY.
  apply broadcast_pure_singleton; auto.
Qed.

End BroadcastProperties.

(** ** The masked softmax *)

Section SoftmaxProperties.

Lemma sum_exp_pos (l : list R) : l <> [] -> 0 < tf.sum (map exp l).
Proof.
  destruct l as [|x l]; [contradiction|]; intros _; simpl.
  assert (H : 0 <= tf.sum (map exp l)).
  { induction l as [|y l IH]; simpl; [lra|].
    pose proof (exp_pos y); lra. }
  pose proof (exp_pos x); lra.
Qed.

Lemma sum_exp_ge (l : list R) (x : R) : In x l -> exp x <= tf.sum (map exp l).
Proof.
  induction l as [|y l IH]; simpl; [contradiction|].
  intros [->|Hin].
  - destruct l as [|z l]; [simpl; lra|].
    pose proof (sum_exp_pos (z :: l) ltac:(discriminate)); lra.
  - specialize (IH Hin); pose proof (exp_pos y); lra.
Qed.

Lemma sum_map_div (f : R -> R) (S : R) (l : list R) :
  tf.sum (map (fun x => f x / S) l) = tf.sum (map f l) / S.
Proof.
  induction l as [|x l IH]; simpl; [unfold Rdiv; ring|].
  rewrite IH; unfold Rdiv; ring.
Qed.

(** The softmax over the review axis of one entity whose slots hold one
    logit each. *)
Lemma softmax_slots (Xb : list (list R)) :
  Forall (fun row => length row = 1%nat) Xb ->
  let out :=
    map (fun row =>
           map (fun c => exp (nth c row 0) / tf.sum (map exp (tf.column c Xb)))
               (seq 0 (length row)))
        Xb in
  Forall (fun a => exists x, a = [x] /\ 0 <= x <= 1) out
  /\ (out <> [] -> tf.sum (tf.column 0 out) = 1).
Proof.
  intros HXb out.
  set (S := tf.sum (map exp (tf.column 0 Xb))).
  assert (Hout : out = map (fun row => [exp (nth 0 row 0) / S]) Xb).
  { subst out; apply map_ext_in; intros row Hin.
    rewrite Forall_forall in HXb; rewrite (HXb row Hin); reflexivity. }
  rewrite Hout; split.
  - apply Forall_map, Forall_forall; intros row Hin.
    eexists; split; [reflexivity|].
    assert (Hv : In (nth 0 row 0) (tf.column 0 Xb))
      by (unfold tf.column; apply in_map_iff; eauto).
    pose proof (sum_exp_ge _ _ Hv) as Hle; fold S in Hle.
    pose proof (exp_pos (nth 0 row 0)) as Hpos.
    assert (HS : 0 < S) by lra.
    split.
    + apply Rlt_le, Rdiv_lt_0_compat; assumption.
    + apply (Rmult_le_reg_r S); [exact HS|].
      unfold Rdiv; rewrite Rmult_assoc, Rinv_l by lra; lra.
  - intros Hne.
    assert (HX : tf.column 0 Xb <> [])
      by (destruct Xb; [contradiction | discriminate]).
    pose proof (sum_exp_pos _ HX) as HS; fold S in HS.
    unfold tf.column; rewrite map_map; cbn [nth].
    change (fun x : list R => exp (nth 0 x 0) / S)
      with (fun x : list R => (fun v => exp v / S) (nth 0 x 0)).
    rewrite <- (map_map (fun row : list R => nth 0 row 0) (fun v => exp v / S)).
    rewrite (sum_map_div exp S).
    fold (tf.column 0 Xb); fold S.
    unfold Rdiv; apply Rinv_r; lra.
Qed.

End SoftmaxProperties.

Section AttentionProperties.
Import HRDR.

Lemma Dense_call3_singletons (l : keras.Dense) (X : list (list (list R))) :
  keras.units l = 1%nat ->
  Forall (Forall (fun x => length x = 1%nat)) (keras.Dense_call3 l X).
Proof.
  intros Hl; unfold keras.Dense_call3, keras.Dense_call2.
  apply Forall_map, Forall_forall; intros Xb _.
  apply Forall_map, Forall_forall; intros x _.
  rewrite Dense_call_length; exact Hl.
Qed.

Lemma expand_dims_last_singletons {A : Type} (X : list (list A)) :
  Forall (Forall (fun x => length x = 1%nat)) (tf.expand_dims_last X).
Proof.
  unfold tf.expand_dims_last.
  apply Forall_map, Forall_forall; intros Xb _.
  apply Forall_map, Forall_forall; intros x _; reflexivity.
Qed.

(** X4. Whenever an attention node is computed, every slot of its output
    holds one weight between 0 and 1, and the weights of an entity over all
    the slots of its review axis, padded slots included, sum to 1. *)
Theorem attention_weights_sum_to_one
        (h : Hyper) (w : AttentionWeights) (reviews_h : list (list (list R)))
        (rating_h : list (list R)) (num_reviews : list nat)
        (att : list (list (list R))) :
  attention h w reviews_h rating_h num_reviews = Ok att ->
  Forall (fun slots =>
            Forall (fun a => exists x, a = [x] /\ 0 <= x <= 1) slots
            /\ (slots <> [] -> tf.sum (tf.column 0 slots) = 1))
         att.
Proof.
  unfold attention; intros H.
  apply bind_inv in H as (x & _ & H).
  unfold keras.Softmax_axis1 in H.
  apply bind_inv in H as (masked & Hmask & H).
  injection H as <-.
  apply broadcast3_singletons in Hmask;
    [| apply Dense_call3_singletons; reflexivity
     | apply expand_dims_last_singletons ].
  unfold tf.softmax_axis1.
  apply Forall_map.
  eapply Forall_impl; [|exact Hmask].
  intros Xb HXb; apply softmax_slots; exact HXb.
Qed.

Lemma mapM_raise {A B : Type} (f : A -> result B) (e0 : exn) :
  forall (xs : list A) (e : exn),
    (forall x e, f x = Raise e -> e = e0) ->
    mapM f xs = Raise e -> e = e0.
Proof.
  induction xs as [|x xs IH]; simpl; intros e Hf H; [discriminate|].
  destruct (f x) as [z|e1] eqn:Hz; simpl in H.
  - destruct (mapM f xs) as [zs|e2] eqn:Hzs; simpl in H; [discriminate|].
    injection H as <-; eapply IH; eauto.
  - injection H as <-; eauto.
Qed.

Lemma zipM_raise {A B C : Type} (f : A -> B -> result C) (e0 : exn) :
  forall (xs : list A) (ys : list B) (e : exn),
    (forall x y e, f x y = Raise e -> e = e0) ->
    tf.zipM f xs ys = Raise e -> e = e0.
Proof.
  induction xs as [|x xs IH]; intros [|y ys] e Hf H; simpl in H;
    try discriminate.
  destruct (f x y) as [z|e1] eqn:Hz; simpl in H.
  - destruct (tf.zipM f xs ys) as [zs|e2] eqn:Hzs; simpl in H; [discriminate|].
    injection H as <-; eapply IH; eauto.
  - injection H as <-; eauto.
Qed.

(** Shapes that do not broadcast are the only way a broadcast of total
    operations fails. *)
Lemma broadcast_raise {A B C : Type} (f : A -> B -> result C)
      (xs : list A) (ys : list B) (e : exn) :
  (forall x y e, f x y = Raise e -> e = InvalidArgumentError) ->
  tf.broadcast f xs ys = Raise e -> e = InvalidArgumentError.
Proof.
  intros Hf; unfold tf.broadcast.
  destruct (length xs =? length ys)%nat.
  - apply zipM_raise; exact Hf.
  - destruct xs as [|x [|x' xs]].
    + destruct ys as [|y [|y' ys]]; try (intros H; injection H as <-; reflexivity).
      apply mapM_raise; intros; eapply Hf; eauto.
    + apply mapM_raise; intros; eapply Hf; eauto.
    + destruct ys as [|y [|y' ys]]; try (intros H; injection H as <-; reflexivity).
      apply mapM_raise; intros; eapply Hf; eauto.
Qed.

Lemma broadcast3_raise {A B C : Type} (g : A -> B -> C)
      (X : list (list (list A))) (Y : list (list (list B))) (e : exn) :
  tf.broadcast3 g X Y = Raise e -> e = InvalidArgumentError.
Proof.
  unfold tf.broadcast3.
  apply broadcast_raise; intros Xb Yb e1.
  apply broadcast_raise; intros x y e2.
  apply broadcast_raise; intros a b e3; discriminate.
Qed.

(** Broadcasting [R] slots against one row keeps the [R] slots. *)
Lemma broadcast_against_one {A B C : Type} (f : A -> B -> result C)
      (xs : list A) (y : B) (zs : list C) :
  tf.broadcast f xs [y] = Ok zs -> length zs = length xs.
Proof.
  unfold tf.broadcast.
  destruct (Nat.eqb_spec (length xs) (length [y])) as [Hlen|Hlen].
  - intros H.
    apply (zipM_Forall f (fun _ => True)) in H as [H _]; [|auto].
    rewrite H, Hlen; simpl; lia.
  - destruct xs as [|x [|x' xs]].
    + intros H; apply (mapM_Forall (fun x => f x y) (fun _ => True)) in H
        as [H _]; auto.
    + simpl in Hlen; contradiction.
    + intros H; apply (mapM_Forall (fun x => f x y) (fun _ => True)) in H
        as [H _]; auto.
Qed.

Lemma multiply_shape (reviews_h : list (list (list R)))
      (rating_h : list (list R)) (x : list (list (list R))) (R0 : nat) :
  length rating_h = length reviews_h ->
  Forall (fun slots => length slots = R0) reviews_h ->
  tf.multiply reviews_h (tf.expand_dims_1 rating_h) = Ok x ->
  length x = length reviews_h /\ Forall (fun slots => length slots = R0) x.
Proof.
  intros Hlen HR; unfold tf.multiply, tf.broadcast3.
  rewrite broadcast_same_length
    by (unfold tf.expand_dims_1; rewrite length_map; auto).
  intros H.
  apply (zipM_Forall _ (fun slots => length slots = R0)) in H as [Hl Hall].
  - split; [|exact Hall].
    rewrite Hl; unfold tf.expand_dims_1; rewrite length_map; lia.
  - intros slots y z Hs Hy Hz.
    unfold tf.expand_dims_1 in Hy; apply in_map_iff in Hy as (r & <- & _).
    apply broadcast_against_one in Hz.
    rewrite Forall_forall in HR; rewrite Hz; auto.
Qed.

Lemma sequence_mask_shape (lengths : list nat) :
  length (tf.sequence_mask lengths None) = length lengths
  /\ Forall (fun row => length row = fold_right Nat.max 0%nat lengths)
            (tf.sequence_mask lengths None).
Proof.
  unfold tf.sequence_mask; split; [apply length_map|].
  apply Forall_map, Forall_forall; intros len _.
  rewrite length_map, length_seq; reflexivity.
Qed.

(** Slots of widths [R] and [m] with [R <> m], neither of them 1, do not
    broadcast. *)
Lemma broadcast_mismatch {A B C : Type} (f : A -> B -> result C)
      (xs : list A) (ys : list B) :
  length xs <> length ys -> length xs <> 1%nat -> length ys <> 1%nat ->
  tf.broadcast f xs ys = Raise InvalidArgumentError.
Proof.
  intros Hne Hx Hy; unfold tf.broadcast.
  destruct (Nat.eqb_spec (length xs) (length ys)); [contradiction|].
  destruct xs as [|x [|x' xs]]; simpl in Hx; try contradiction;
    destruct ys as [|y [|y' ys]]; simpl in Hy; try contradiction;
    reflexivity.
Qed.

(** X5. The mask is as wide as the largest review count of the batch. When
    the review axis of a non-empty batch has [R] slots, the largest count
    is [m], and [R <> m] with neither of them 1, the mask does not
    broadcast against the logits and the attention node raises. *)
Theorem attention_mask_width_mismatch
        (h : Hyper) (w : AttentionWeights) (reviews_h : list (list (list R)))
        (rating_h : list (list R)) (num_reviews : list nat) (R0 : nat) :
  reviews_h <> [] ->
  length rating_h = length reviews_h ->
  length num_reviews = length reviews_h ->
  Forall (fun slots => length slots = R0) reviews_h ->
  R0 <> fold_right Nat.max 0%nat num_reviews ->
  R0 <> 1%nat ->
  fold_right Nat.max 0%nat num_reviews <> 1%nat ->
  attention h w reviews_h rating_h num_reviews = Raise InvalidArgumentError.
Proof.
  intros Hne Hrat Hnum HR Hm HR1 Hm1.
  unfold attention.
  destruct (tf.multiply reviews_h (tf.expand_dims_1 rating_h)) as [x|e] eqn:Hx.
  2:{ apply broadcast3_raise in Hx; subst e; reflexivity. }
  cbn [bind].
  destruct (multiply_shape _ _ _ _ Hrat HR Hx) as [Hlx Hwx].
  change (review_shape_1 h) with (@None nat).
  destruct (sequence_mask_shape num_reviews) as [Hlm Hwm].
  set (mask := tf.sequence_mask num_reviews None) in *.
  set (a := keras.Dense_call3 (attention_logit w)
              (keras.Dense_call3 (attention_hidden h w) x)).
  assert (Hla : length a = length x)
    by (unfold a, keras.Dense_call3; rewrite !length_map; reflexivity).
  assert (Hwa : Forall (fun slots => length slots = R0) a).
  { unfold a, keras.Dense_call3.
    apply Forall_map, Forall_map.
    eapply Forall_impl; [|exact Hwx].
    intros slots Hs; unfold keras.Dense_call2; rewrite !length_map; exact Hs. }
  unfold keras.Softmax_axis1, tf.broadcast3.
  rewrite broadcast_same_length
    by (unfold tf.expand_dims_last; rewrite length_map; lia).
  destruct a as [|a0 a']; [destruct reviews_h; simpl in *; [contradiction|lia]|].
  destruct mask as [|m0 mask'];
    [destruct reviews_h; simpl in *; [contradiction|lia]|].
  inversion Hwa as [|? ? Ha0 _]; subst.
  inversion Hwm as [|? ? Hm0 _]; subst.
  cbn [tf.expand_dims_last map tf.zipM].
  rewrite broadcast_mismatch; [reflexivity | | |];
    rewrite ?length_map; lia.
Qed.

End AttentionProperties.

(** X4, witness: one entity with two slots. *)
Lemma attention_weights_sum_to_one_witness :
  exists att,
    HRDR.attention Example.ex_hyper
      (Example.ex_attention 1) [[[1]; [0]]] [[1]] [2%nat] = Ok att
    /\ Forall (fun slots => slots <> [] -> tf.sum (tf.column 0 slots) = 1) att.
Proof.
  destruct (result_ok
              (HRDR.attention Example.ex_hyper
                 (Example.ex_attention 1) [[[1]; [0]]] [[1]] [2%nat]) eq_refl)
    as [att H].
  exists att; split; [exact H|].
  pose proof (attention_weights_sum_to_one
                Example.ex_hyper (Example.ex_attention 1)
                [[[1]; [0]]] [[1]] [2%nat] att H) as Hall.
  eapply Forall_impl; [|exact Hall].
  intros slots [_ Hsum]; exact Hsum.
Defined.

(** X5, witness: one entity with a review axis of three slots and two
    reviews. *)
Lemma attention_mask_width_mismatch_witness :
  HRDR.attention Example.ex_hyper
    (Example.ex_attention 0) [[[1]; [1]; [0]]] [[1]] [2%nat]
  = Raise InvalidArgumentError.
Proof.
  apply (attention_mask_width_mismatch
           Example.ex_hyper (Example.ex_attention 0)
           [[[1]; [1]; [0]]] [[1]] [2%nat] 3%nat);
    first [ discriminate | reflexivity | repeat constructor ].
Defined.

(** ** Runs of the graph, step by step *)

Section RunProperties.
Context {TF : Backend}.
Import HRDR.








(** A lookup that returns found every id inside the table. *)
Lemma Embedding_call_in_range (table : list (list R)) (ids : list nat)
      (e : list (list (list R))) :
  keras.Embedding_call table ids = Ok e ->
  Forall (fun id => (id < length table)%nat) ids.
Proof.
  intros H; apply Embedding_call_inv in H as (rows & _ & Hall).
  induction Hall as [|id row ids rows Hrow _ IH]; constructor; auto.
  apply nth_error_Some; rewrite Hrow; discriminate.
Qed.

End RunProperties.


(** ** The constructor and the pretrained vectors *)

Section PretrainedProperties.
Context {U : Utils} {TF : Backend}.
Import Embedding.

(** The row that [embedding_matrix[idx] = embedding_vector] writes. *)
Lemma broadcast_row_inv (E : nat) (v r : list R) :
  broadcast_row E v = Ok r ->
  r = (if (length v =? E)%nat then v else repeat (hd 0 v) E)
  /\ (length v = E \/ length v = 1%nat).
Proof.
  unfold broadcast_row.
  destruct (Nat.eqb_spec (length v) E) as [Hlen|Hlen].
  - intros H; injection H as <-; auto.
  - destruct v as [|x [|y v]]; try discriminate.
    intros H; injection H as <-; auto.
Qed.

Lemma override_length (E : nat) (pre : Pretrained) :
  forall items M c M' c',
    override E pre items M c = Ok (M', c') -> length M' = length M.
Proof.
  induction items as [|[word idx] rest IH]; simpl; intros M c M' c' H.
  - injection H as <- _; reflexivity.
  - destruct (pre word) as [v|].
    + destruct (set_row E idx v M) as [M1|] eqn:Hset; simpl in H; [|discriminate].
      apply set_row_inv in Hset as (r & -> & _).
      rewrite (IH _ _ _ _ H); apply replace_row_length.
    + eapply IH; eauto.
Qed.

(** After the loop, the row of a token that the mapping knows is the vector
    of the mapping, when no other token has the same index. *)
Lemma override_known (E : nat) (pre : Pretrained) :
  forall items M c M' c' word idx v,
    override E pre items M c = Ok (M', c') ->
    NoDup (map snd items) ->
    In (word, idx) items -> pre word = Some v ->
    nth_error M' idx
    = Some (if (length v =? E)%nat then v else repeat (hd 0 v) E)
    /\ (idx < length M)%nat
    /\ (length v = E \/ length v = 1%nat).
Proof.
  induction items as [|[w i] rest IH]; simpl;
    intros M c M' c' word idx v H Hnd Hin Hpre; [contradiction|].
  inversion Hnd as [|? ? Hnotin Hnd']; subst.
  destruct Hin as [Heq|Hin].
  - injection Heq as -> ->.
    rewrite Hpre in H.
    destruct (set_row E idx v M) as [M1|] eqn:Hset; simpl in H; [|discriminate].
    unfold set_row in Hset.
    destruct (Nat.ltb_spec idx (length M)) as [Hlt|]; [|discriminate].
    destruct (broadcast_row E v) as [r|] eqn:Hr; simpl in Hset; [|discriminate].
    injection Hset as <-.
    apply broadcast_row_inv in Hr as [-> Hv].
    split; [|auto].
    rewrite (override_untouched _ _ _ _ _ _ _ H idx).
    + apply replace_row_same; exact Hlt.
    + intros w' Hw'; exfalso; apply Hnotin.
      apply (in_map snd) in Hw'; exact Hw'.
  - destruct (pre w) as [v'|].
    + destruct (set_row E i v' M) as [M1|] eqn:Hset; simpl in H; [|discriminate].
      apply set_row_inv in Hset as (r & -> & _).
      destruct (IH _ _ _ _ _ _ _ H Hnd' Hin Hpre) as (Hrow & Hlt & Hv).
      rewrite replace_row_length in Hlt; auto.
    + eapply IH; eauto.
Qed.

(** The loop fails when a token that the mapping knows has an index outside
    the table or a vector that does not fit a row. *)
Lemma override_misfit (E : nat) (pre : Pretrained) :
  forall items M c word idx v,
    In (word, idx) items -> pre word = Some v ->
    (length M <= idx)%nat \/ (length v <> E /\ length v <> 1%nat) ->
    override E pre items M c = Raise IndexError
    \/ override E pre items M c = Raise ValueError.
Proof.
  induction items as [|[w i] rest IH]; simpl;
    intros M c word idx v Hin Hpre Hbad; [contradiction|].
  destruct Hin as [Heq|Hin].
  - injection Heq as -> ->.
    rewrite Hpre; unfold set_row.
    destruct (Nat.ltb_spec idx (length M)) as [Hlt|Hge]; [|left; reflexivity].
    destruct Hbad as [Hbad|[Hne Hne1]]; [lia|].
    unfold broadcast_row.
    destruct (Nat.eqb_spec (length v) E); [contradiction|].
    destruct v as [|x [|y v]]; simpl in Hne1; try contradiction;
      right; reflexivity.
  - destruct (pre w) as [v'|].
    + destruct (set_row E i v' M) as [M1|e] eqn:Hset; simpl.
      * apply set_row_inv in Hset as (r & -> & _).
        apply (IH _ _ word idx v Hin Hpre).
        rewrite replace_row_length; exact Hbad.
      * unfold set_row in Hset.
        destruct (i <? length M)%nat.
        -- unfold broadcast_row in Hset.
           destruct (length v' =? E)%nat; [discriminate|].
           destruct v' as [|x [|y v']]; try discriminate;
             injection Hset as <-; right; reflexivity.
        -- injection Hset as <-; left; reflexivity.
    + apply (IH _ _ word idx v Hin Hpre Hbad).
Qed.

(** X8. A vocabulary of fewer than four tokens makes the constructor fail
    with a value error: the four zero rows of line 40 do not fit the
    leading rows of the table. *)
Theorem small_vocabulary_value_error
        (h : HRDR.Hyper) (vocab : Vocabulary) (global_mean : R)
        (pretrained : option Pretrained) (verbose : bool) (s : Z)
        (initial : HRDR.Weights) (summary : list string) :
  (size vocab < 4)%nat ->
  HRDR.Model_init h vocab global_mean pretrained verbose (Some s)
                  initial summary
  = Raise ValueError.
Proof.
  intros Hsize.
  unfold HRDR.Model_init, embedding_matrix, default_init, zero_special_rows.
  cbn [assign_rng self_rng bind].
  rewrite uniform_rows.
  destruct (Nat.ltb_spec (size vocab) 4) as [_|Hge]; [reflexivity | lia].
Qed.

(** X9. When the constructor succeeds with a pretrained mapping, the row of
    every vocabulary token that the mapping knows holds the vector of the
    mapping (repeated over the row when the vector has a single entry and
    the row is wider), in both review-embedding tables, provided no two
    tokens share an index. *)
Theorem pretrained_rows_installed
        (h : HRDR.Hyper) (vocab : Vocabulary) (global_mean : R)
        (pre : Pretrained) (verbose : bool) (seed : option Z)
        (initial : HRDR.Weights) (summary : list string)
        (model : HRDR.Model) (out : list string)
        (word : string) (idx : nat) (v : list R) :
  HRDR.Model_init h vocab global_mean (Some pre) verbose seed initial summary
  = Ok (model, out) ->
  NoDup (map snd (tok2idx vocab)) ->
  In (word, idx) (tok2idx vocab) ->
  pre word = Some v ->
  let row := if (length v =? HRDR.embedding_size h)%nat then v
             else repeat (hd 0 v) (HRDR.embedding_size h) in
  nth_error (HRDR.layer_user_review_embedding (HRDR.graph_weights model)) idx
  = Some row
  /\ nth_error (HRDR.layer_item_review_embedding (HRDR.graph_weights model)) idx
     = Some row
  /\ (length v = HRDR.embedding_size h \/ length v = 1%nat).
Proof.
  intros H Hnd Hin Hpre row.
  unfold HRDR.Model_init in H.
  apply bind_inv in H as ([E0 out0] & HE & H).
  injection H as <- _.
  unfold embedding_matrix in HE.
  apply bind_inv in HE as (M0 & _ & HE).
  unfold apply_pretrained in HE.
  apply bind_inv in HE as ([M' c'] & Hov & HE).
  injection HE as <- _.
  destruct (override_known _ _ _ _ _ _ _ _ _ _ Hov Hnd Hin Hpre)
    as (Hrow & _ & Hv).
  cbn [HRDR.graph_weights HRDR.layer_user_review_embedding
       HRDR.layer_item_review_embedding].
  auto.
Qed.

(** X10. With a seed, a pretrained mapping that knows a vocabulary token
    whose index is outside the table, or whose vector has neither the
    width of a row nor a single entry, makes the constructor raise an index
    error or a value error. *)
Theorem pretrained_misfit_raises
        (h : HRDR.Hyper) (vocab : Vocabulary) (global_mean : R)
        (pre : Pretrained) (verbose : bool) (s : Z)
        (initial : HRDR.Weights) (summary : list string)
        (word : string) (idx : nat) (v : list R) :
  In (word, idx) (tok2idx vocab) ->
  pre word = Some v ->
  (size vocab <= idx)%nat
  \/ (length v <> HRDR.embedding_size h /\ length v <> 1%nat) ->
  let r := HRDR.Model_init h vocab global_mean (Some pre) verbose (Some s)
                           initial summary in
  r = Raise IndexError \/ r = Raise ValueError.
Proof.
  intros Hin Hpre Hbad r; subst r.
  unfold HRDR.Model_init, embedding_matrix.
  destruct (Nat.lt_ge_cases (size vocab) 4) as [Hsmall|Hsize].
  - right.
    unfold default_init, zero_special_rows.
    cbn [assign_rng self_rng bind].
    rewrite uniform_rows.
    destruct (Nat.ltb_spec (size vocab) 4) as [_|Hge]; [reflexivity | lia].
  - destruct (default_init_ok s vocab (HRDR.embedding_size h) Hsize)
      as (M0 & HM0 & Hlen & _).
    rewrite HM0; cbn [bind apply_pretrained].
    destruct (override_misfit (HRDR.embedding_size h) pre (tok2idx vocab) M0
                0%nat word idx v Hin Hpre) as [Hr|Hr].
    + rewrite Hlen; exact Hbad.
    + left; rewrite Hr; reflexivity.
    + right; rewrite Hr; reflexivity.
Qed.

End PretrainedProperties.

(** X8, witness: a vocabulary of three tokens. *)
Lemma small_vocabulary_value_error_witness :
  HRDR.Model_init (U := Example.ex_utils) (TF := Example.ex_backend)
    Example.ex_hyper
    {| Embedding.size := 3;
       Embedding.tok2idx := [("a"%string, 0%nat); ("b"%string, 1%nat);
                             ("c"%string, 2%nat)] |}
    4 None false (Some 0%Z) Example.ex_weights []
  = Raise ValueError.
Proof.
  apply (small_vocabulary_value_error
           (U := Example.ex_utils) (TF := Example.ex_backend)).
  simpl; lia.
Defined.

(** X9, witness: the five-token vocabulary and the mapping that knows
    ["<UNK>"]. *)
Lemma pretrained_rows_installed_witness :
  exists model out,
    HRDR.Model_init (U := Example.ex_utils) (TF := Example.ex_backend)
      Example.ex_hyper Example.ex_vocab 4 (Some Example.ex_pretrained)
      false (Some 0%Z) Example.ex_weights []
    = Ok (model, out)
    /\ nth_error (HRDR.layer_user_review_embedding (HRDR.graph_weights model)) 1
       = Some [1].
Proof.
  destruct (result_ok
              (HRDR.Model_init (U := Example.ex_utils)
                 (TF := Example.ex_backend)
                 Example.ex_hyper Example.ex_vocab 4
                 (Some Example.ex_pretrained) false (Some 0%Z)
                 Example.ex_weights []) eq_refl)
    as [[model out] H].
  exists model, out; split; [exact H|].
  destruct (pretrained_rows_installed
              (U := Example.ex_utils) (TF := Example.ex_backend)
              Example.ex_hyper Example.ex_vocab 4 Example.ex_pretrained
              false (Some 0%Z) Example.ex_weights [] model out
              "<UNK>"%string 1%nat [1] H)
    as (Hrow & _).
  - simpl; repeat constructor; simpl; intuition discriminate.
  - simpl; auto.
  - reflexivity.
  - exact Hrow.
Defined.

(** X10, witness: a mapping whose vector for ["good"] has two entries, for
    rows of width 1. *)
Lemma pretrained_misfit_raises_witness :
  let r := HRDR.Model_init (U := Example.ex_utils) (TF := Example.ex_backend)
             Example.ex_hyper Example.ex_vocab 4
             (Some (fun word => if String.eqb word "good" then Some [1; 2]
                                else None))
             false (Some 0%Z) Example.ex_weights [] in
  r = Raise IndexError \/ r = Raise ValueError.
Proof.
  apply (pretrained_misfit_raises
           (U := Example.ex_utils) (TF := Example.ex_backend)
           Example.ex_hyper Example.ex_vocab 4
           (fun word => if String.eqb word "good" then Some [1; 2] else None)
           false 0%Z Example.ex_weights [] "good"%string 4%nat [1; 2]).
  - simpl; auto 10.
  - reflexivity.
  - right; simpl; split; discriminate.
Defined.

(** ** The mask when the review axis is as wide as the largest count *)

Section MaskProperties.
Import HRDR.

Lemma zipM_nth {A B C : Type} (f : A -> B -> result C) :
  forall (xs : list A) (ys : list B) (zs : list C) (k : nat) (x : A) (y : B),
    tf.zipM f xs ys = Ok zs ->
    nth_error xs k = Some x -> nth_error ys k = Some y ->
    exists z, nth_error zs k = Some z /\ f x y = Ok z.
Proof.
  induction xs as [|x0 xs IH]; intros [|y0 ys] zs k x y H Hx Hy;
    try (destruct k; discriminate).
  simpl in H.
  destruct (f x0 y0) as [z0|] eqn:Hz; simpl in H; [|discriminate].
  destruct (tf.zipM f xs ys) as [zs'|] eqn:Hzs; simpl in H; [|discriminate].
  injection H as <-.
  destruct k as [|k]; simpl in Hx, Hy.
  - injection Hx as <-; injection Hy as <-; exists z0; auto.
  - exact (IH ys zs' k x y Hzs Hx Hy).
Qed.

(** The softmax weight of a slot that holds the single logit [v]. *)
Lemma softmax_axis1_entry (X : list (list (list R))) (b k : nat)
      (Xb : list (list R)) (v : R) :
  nth_error X b = Some Xb -> nth_error Xb k = Some [v] ->
  exists attb,
    nth_error (tf.softmax_axis1 X) b = Some attb
    /\ nth_error attb k
       = Some [exp v / tf.sum (map exp (tf.column 0 Xb))].
Proof.
  intros Hb Hk; unfold tf.softmax_axis1.
  eexists; split; [apply map_nth_error; exact Hb|].
  rewrite (map_nth_error _ _ _ Hk); reflexivity.
Qed.

Lemma mapM_ok {A B : Type} (f : A -> result B) (xs : list A) :
  (forall x, In x xs -> exists y, f x = Ok y) ->
  exists ys, mapM f xs = Ok ys.
Proof.
  induction xs as [|x xs IH]; intros Hf; [exists []; reflexivity|].
  destruct (Hf x (or_introl eq_refl)) as [y Hy].
  destruct IH as [ys Hys]; [intros x' Hx'; apply Hf; right; exact Hx'|].
  exists (y :: ys); cbn [mapM]; rewrite Hy; cbn [bind]; rewrite Hys; reflexivity.
Qed.

Lemma zipM_ok {A B C : Type} (f : A -> B -> result C) :
  forall (xs : list A) (ys : list B),
    (forall x y, In x xs -> In y ys -> exists z, f x y = Ok z) ->
    exists zs, tf.zipM f xs ys = Ok zs.
Proof.
  induction xs as [|x xs IH]; intros [|y ys] Hf;
    try (exists []; reflexivity).
  destruct (Hf x y (or_introl eq_refl) (or_introl eq_refl)) as [z Hz].
  destruct (IH ys) as [zs Hzs];
    [intros x' y' Hx' Hy'; apply Hf; right; assumption|].
  exists (z :: zs); cbn [tf.zipM]; rewrite Hz; cbn [bind]; rewrite Hzs;
    reflexivity.
Qed.

(** Broadcasting succeeds along an axis on which the sizes agree or the
    right-hand side has size 1, when the operation succeeds on every pair
    of entries. *)
Lemma broadcast_ok {A B C : Type} (f : A -> B -> result C)
      (xs : list A) (ys : list B) :
  length xs = length ys \/ length ys = 1%nat ->
  (forall x y, In x xs -> In y ys -> exists z, f x y = Ok z) ->
  exists zs, tf.broadcast f xs ys = Ok zs.
Proof.
  intros Hlen Hf; unfold tf.broadcast.
  destruct (Nat.eqb_spec (length xs) (length ys)) as [Heq|Hne];
    [apply zipM_ok; exact Hf|].
  destruct Hlen as [Hlen|Hlen]; [contradiction|].
  destruct ys as [|y [|? ?]]; try discriminate.
  destruct xs as [|x [|x' xs]].
  - exists []; reflexivity.
  - simpl in Hne; contradiction.
  - apply mapM_ok; intros x0 Hx0; apply Hf; [exact Hx0 | left; reflexivity].
Qed.

(** Rows of equal width combine entry by entry. *)
Lemma broadcast_rows_ok {A B C : Type} (g : A -> B -> C)
      (x : list A) (y : list B) :
  length x = length y ->
  exists z, tf.broadcast (fun a b => Ok (g a b)) x y = Ok z.
Proof.
  intros H; rewrite (broadcast_same_length _ x y H), zipM_pure; eauto.
Qed.

(** The attention node is computed as soon as the review features and the
    rating features have one entry per entity of the batch and the same
    width, and the review axis is as wide as the largest review count. *)
Lemma attention_returns
      (h : Hyper) (w : AttentionWeights) (reviews_h : list (list (list R)))
      (rating_h : list (list R)) (num_reviews : list nat) (F : nat) :
  length rating_h = length reviews_h ->
  length num_reviews = length reviews_h ->
  Forall (fun slots => length slots = fold_right Nat.max 0%nat num_reviews)
         reviews_h ->
  Forall (Forall (fun review => length review = F)) reviews_h ->
  Forall (fun rating => length rating = F) rating_h ->
  exists att, attention h w reviews_h rating_h num_reviews = Ok att.
Proof.
  intros Hrat Hnum HR HF Hrf.
  rewrite Forall_forall in HF, Hrf.
  unfold attention.
  destruct (broadcast_ok (tf.broadcast (tf.broadcast (fun a b => Ok (a * b))))
              reviews_h (tf.expand_dims_1 rating_h)) as [x Hx].
  { left; unfold tf.expand_dims_1; rewrite length_map; auto. }
  { intros Xb Yb HXb HYb.
    unfold tf.expand_dims_1 in HYb; apply in_map_iff in HYb as (r & <- & Hr).
    apply broadcast_ok; [right; reflexivity|].
    intros review r' Hrev [<-|[]].
    apply broadcast_rows_ok.
    specialize (HF _ HXb); rewrite Forall_forall in HF.
    rewrite (HF _ Hrev), (Hrf _ Hr); reflexivity. }
  fold (tf.broadcast3 Rmult reviews_h (tf.expand_dims_1 rating_h)) in Hx.
  fold (tf.multiply reviews_h (tf.expand_dims_1 rating_h)) in Hx.
  rewrite Hx; cbn [bind].
  destruct (multiply_shape _ _ _ _ Hrat HR Hx) as [Hlx Hwx].
  change (review_shape_1 h) with (@None nat).
  set (a := keras.Dense_call3 (attention_logit w)
              (keras.Dense_call3 (attention_hidden h w) x)).
  assert (Hla : length a = length x)
    by (unfold a, keras.Dense_call3; rewrite !length_map; reflexivity).
  assert (Hwa : Forall (fun slots => length slots
                                     = fold_right Nat.max 0%nat num_reviews) a).
  { unfold a, keras.Dense_call3.
    apply Forall_map, Forall_map.
    eapply Forall_impl; [|exact Hwx].
    intros sl Hs; unfold keras.Dense_call2; rewrite !length_map; exact Hs. }
  pose proof (Dense_call3_singletons (attention_logit w)
                (keras.Dense_call3 (attention_hidden h w) x) eq_refl) as H1a.
  fold a in H1a.
  pose proof (expand_dims_last_singletons (tf.sequence_mask num_reviews None))
    as H1m.
  destruct (sequence_mask_shape num_reviews) as [Hlm Hwm].
  rewrite Forall_forall in Hwa, H1a, H1m, Hwm.
  unfold keras.Softmax_axis1, tf.broadcast3.
  destruct (broadcast_ok
              (tf.broadcast
                 (tf.broadcast (fun x0 m => Ok (x0 + (1 - tf.cast m) * -1e9))))
              a (tf.expand_dims_last (tf.sequence_mask num_reviews None)))
    as [masked Hmasked].
  { left; unfold tf.expand_dims_last; rewrite length_map; lia. }
  { intros Xb Mb HXb HMb.
    apply broadcast_ok.
    - left; rewrite (Hwa _ HXb).
      unfold tf.expand_dims_last in HMb.
      apply in_map_iff in HMb as (row & <- & Hrow).
      rewrite length_map, (Hwm _ Hrow); reflexivity.
    - intros x0 m0 Hx0 Hm0.
      apply broadcast_rows_ok.
      specialize (H1a _ HXb); specialize (H1m _ HMb).
      rewrite Forall_forall in H1a, H1m.
      rewrite (H1a _ Hx0), (H1m _ Hm0); reflexivity. }
  rewrite Hmasked; cbn [bind]; eauto.
Qed.

(** X11. When the review features and the rating features have one entry
    per entity of the batch and the same width, and the review axis of the
    batch is exactly as wide as its largest review count, the attention
    node is computed and the mask does what it is meant to do: within one
    entity, the weight of a padded slot [k] (at or beyond the entity's
    count) is the weight of a valid slot [j] times
    [exp (x_k - x_j - 1e9)], where [x_k] and [x_j] are the logits of the
    two slots. *)
Theorem padded_slot_suppressed
        (h : Hyper) (w : AttentionWeights) (reviews_h : list (list (list R)))
        (rating_h : list (list R)) (num_reviews : list nat) (F : nat) :
  length rating_h = length reviews_h ->
  length num_reviews = length reviews_h ->
  Forall (fun slots => length slots = fold_right Nat.max 0%nat num_reviews)
         reviews_h ->
  Forall (Forall (fun review => length review = F)) reviews_h ->
  Forall (fun rating => length rating = F) rating_h ->
  exists att x,
    attention h w reviews_h rating_h num_reviews = Ok att
    /\ tf.multiply reviews_h (tf.expand_dims_1 rating_h) = Ok x
    /\ forall b c k j slots xk xj,
        nth_error num_reviews b = Some c ->
        nth_error (keras.Dense_call3 (attention_logit w)
                     (keras.Dense_call3 (attention_hidden h w) x)) b
        = Some slots ->
        nth_error slots k = Some [xk] ->
        nth_error slots j = Some [xj] ->
        (j < c <= k)%nat ->
        exists attb wk wj,
          nth_error att b = Some attb
          /\ nth_error attb k = Some [wk]
          /\ nth_error attb j = Some [wj]
          /\ wk = wj * exp (xk - xj - 1e9).
Proof.
  intros Hrat Hnum HR HF Hrf.
  destruct (attention_returns h w reviews_h rating_h num_reviews F
              Hrat Hnum HR HF Hrf) as [att Hatt].
  exists att.
  pose proof Hatt as H.
  unfold attention in H.
  apply bind_inv in H as (x & Hx & H).
  exists x; split; [exact Hatt|]; split; [exact Hx|].
  intros b c k j slots xk xj Hc Hslots Hk Hj Hjk.
  destruct (multiply_shape _ _ _ _ Hrat HR Hx) as [Hlx Hwx].
  change (review_shape_1 h) with (@None nat) in H.
  set (a := keras.Dense_call3 (attention_logit w)
              (keras.Dense_call3 (attention_hidden h w) x)) in *.
  set (m := fold_right Nat.max 0%nat num_reviews) in *.
  assert (Hla : length a = length x)
    by (unfold a, keras.Dense_call3; rewrite !length_map; reflexivity).
  assert (Hwa : Forall (fun slots => length slots = m) a).
  { unfold a, keras.Dense_call3.
    apply Forall_map, Forall_map.
    eapply Forall_impl; [|exact Hwx].
    intros sl Hs; unfold keras.Dense_call2; rewrite !length_map; exact Hs. }
  assert (Hm : length slots = m).
  { rewrite Forall_forall in Hwa; apply Hwa.
    eapply nth_error_In; exact Hslots. }
  assert (Hkm : (k < m)%nat)
    by (rewrite <- Hm; apply nth_error_Some; rewrite Hk; discriminate).
  assert (Hjm : (j < m)%nat) by lia.
  destruct (sequence_mask_entry num_reviews b k c Hc Hkm)
    as (mrow & Hmrow & Hmk & Hlm).
  destruct (sequence_mask_entry num_reviews b j c Hc Hjm)
    as (mrow' & Hmrow' & Hmj & _).
  rewrite Hmrow in Hmrow'; injection Hmrow' as <-.
  unfold keras.Softmax_axis1 in H.
  apply bind_inv in H as (masked & Hmask & H).
  injection H as <-.
  unfold tf.broadcast3 in Hmask.
  rewrite broadcast_same_length in Hmask.
  2:{ unfold tf.expand_dims_last; rewrite length_map.
      destruct (sequence_mask_shape num_reviews) as [-> _]; lia. }
  destruct (zipM_nth _ _ _ _ b slots
              (map (fun v : bool => [v]) mrow) Hmask Hslots)
    as (Xb & HXb & Hrow).
  { unfold tf.expand_dims_last; apply map_nth_error; exact Hmrow. }
  rewrite broadcast_same_length in Hrow by (rewrite length_map; lia).
  destruct (zipM_nth _ _ _ _ k [xk] [(k <? c)%nat] Hrow Hk)
    as (zk & Hzk & Hbk);
    [exact (map_nth_error (fun v : bool => [v]) k mrow Hmk)|].
  destruct (zipM_nth _ _ _ _ j [xj] [(j <? c)%nat] Hrow Hj)
    as (zj & Hzj & Hbj);
    [exact (map_nth_error (fun v : bool => [v]) j mrow Hmj)|].
  cbn [tf.broadcast length Nat.eqb tf.zipM bind] in Hbk, Hbj.
  injection Hbk as <-; injection Hbj as <-.
  destruct (softmax_axis1_entry masked b k Xb _ HXb Hzk) as (attb & Hattb & Hwk).
  destruct (softmax_axis1_entry masked b j Xb _ HXb Hzj) as (attb' & Hattb' & Hwj).
  rewrite Hattb in Hattb'; injection Hattb' as <-.
  exists attb; do 2 eexists.
  split; [exact Hattb|]; split; [exact Hwk|]; split; [exact Hwj|].
  destruct (Nat.ltb_spec k c) as [|_]; [lia|].
  destruct (Nat.ltb_spec j c) as [_|]; [|lia].
  unfold tf.cast, Rdiv.
  rewrite (Rmult_comm (exp (xj + (1 - 1) * -1e9))), Rmult_assoc, <- exp_plus.
  rewrite Rmult_comm; f_equal; f_equal; lra.
Qed.

End MaskProperties.

(** X11, witness: two entities with two slots each, the first with one
    review, the second with two. *)
Lemma padded_slot_suppressed_witness :
  exists att attb wk wj xk xj,
    HRDR.attention Example.ex_hyper (Example.ex_attention 0)
      [[[1]; [0]]; [[1]; [1]]] [[1]; [1]] [1%nat; 2%nat] = Ok att
    /\ nth_error att 0 = Some attb
    /\ nth_error attb 1 = Some [wk]
    /\ nth_error attb 0 = Some [wj]
    /\ wk = wj * exp (xk - xj - 1e9).
Proof.
  destruct (padded_slot_suppressed Example.ex_hyper (Example.ex_attention 0)
              [[[1]; [0]]; [[1]; [1]]] [[1]; [1]] [1%nat; 2%nat] 1%nat)
    as (att & x & H & Hx & Hall);
    [reflexivity | reflexivity | repeat constructor | repeat constructor
     | repeat constructor |].
  cbn in Hx; injection Hx as <-.
  edestruct (Hall 0%nat 1%nat 1%nat 0%nat)
    as (attb & wk & wj & Hb & Hk & Hj & Hrel);
    [reflexivity | reflexivity | reflexivity | reflexivity | lia |].
  exists att, attb, wk, wj; do 2 eexists.
  split; [exact H|]; split; [exact Hb|]; split; [exact Hk|];
    split; [exact Hj | exact Hrel].
Defined.

(** ** Ids outside the tables *)

Section LookupProperties.
Context {TF : Backend}.
Import HRDR.

Lemma fuse_in_range (rating_h o table : list (list R)) (ids : list nat)
      (p : list (list (list R))) :
  fuse rating_h o table ids = Ok p ->
  Forall (fun id => (id < length table)%nat) ids.
Proof.
  unfold fuse; intros H.
  apply bind_inv in H as (e & He & _).
  eapply Embedding_call_in_range; exact He.
Qed.

Lemma prediction_in_range (W : Weights) (p q : list (list (list R)))
      (uids iids : list nat) (r : list (list (list R))) :
  prediction W p q uids iids = Ok r ->
  Forall (fun u => (u < length (user_bias W))%nat) uids
  /\ Forall (fun i => (i < length (item_bias W))%nat) iids.
Proof.
  unfold prediction; intros H.
  apply bind_inv in H as (pq & _ & H).
  apply bind_inv in H as (bu & Hbu & H).
  apply bind_inv in H as (bi & Hbi & _).
  split; eapply Embedding_call_in_range; eassumption.
Qed.

(** X12. The graph raises when one of its id inputs holds an id that has
    no row in the id-embedding table or in the bias table of its side: a
    user id outside "user_embedding" or "user_bias", an item id of either
    branch outside "item_embedding" or "item_bias".  The lookup is the one
    of [keras.Embedding_lookup], which rejects such an index as
    TensorFlow's CPU kernel does. *)
Theorem graph_id_out_of_range
        (training : bool) (h : Hyper) (W : Weights)
        (user item_i item_j : Side) (s : tf_random) (id : nat) :
  (In id (input_id user)
   /\ (length (user_embedding W) <= id \/ length (user_bias W) <= id)%nat)
  \/ ((In id (input_id item_i) \/ In id (input_id item_j))
      /\ (length (item_embedding W) <= id \/ length (item_bias W) <= id)%nat) ->
  exists e, graph training h W user item_i item_j s = Raise e.
Proof.
  intros Hid.
  destruct (graph training h W user item_i item_j s) as [[[x W'] s']|e] eqn:H;
    [exfalso | eauto].
  unfold graph in H.
  apply bindM_inv in H as ([n W0] & s0 & Hn & _).
  apply graph_nodes_inv in Hn
    as (_ & _ & _ & _ & _ & _ & Hpu & Hqi & Hqj & Hri & Hrj & _).
  apply fuse_in_range in Hpu, Hqi, Hqj.
  apply prediction_in_range in Hri as [Hbu Hbi].
  apply prediction_in_range in Hrj as [_ Hbj].
  rewrite Forall_forall in Hpu, Hqi, Hqj, Hbu, Hbi, Hbj.
  destruct Hid as [[Hin Hge]|[[Hin|Hin] Hge]].
  - specialize (Hpu id Hin); specialize (Hbu id Hin); lia.
  - specialize (Hqi id Hin); specialize (Hbi id Hin); lia.
  - specialize (Hqj id Hin); specialize (Hbj id Hin); lia.
Qed.

End LookupProperties.

(** X12, witness: the one-item model asked for the negative item 1. *)
Lemma graph_id_out_of_range_witness :
  exists e,
    HRDR.graph (TF := Example.ex_backend) true Example.ex_hyper
      Example.ex_weights Example.ex_side Example.ex_side
      {| HRDR.input_id := [1%nat];
         HRDR.input_rating := [[1]];
         HRDR.input_review := [[[4%nat]]];
         HRDR.input_number_of_review := [1%nat] |} 0%nat
    = Raise e.
Proof.
  apply (graph_id_out_of_range (TF := Example.ex_backend) true
           Example.ex_hyper Example.ex_weights Example.ex_side Example.ex_side
           {| HRDR.input_id := [1%nat];
              HRDR.input_rating := [[1]];
              HRDR.input_review := [[[4%nat]]];
              HRDR.input_number_of_review := [1%nat] |} 0%nat 1%nat).
  right; split; [right; simpl; auto | left; simpl; lia].
Defined.
